(** * Bolao: scoring, round lifecycle and ranking of the football pool

    A shallow embedding of the request handlers of [app.py] that carry the
    pool's logic: [calcular_pontuacao_jogo], [salvar_aposta], [ranking],
    [cadastrar_rodada], [placar_admin_salvar] and [calcular_ranking].

    Python integers are unbounded and are modelled by [Z]; [None] is the
    [None] of [option]; a MongoDB collection is the list of its documents in
    storage order; a handler is a function from the database (and the request)
    to the new database and the messages it flashes.

    Conventions of the model:
    - documents are records, so every stored document has the fields the
      handlers write, with the types they write; the [_id] of a prediction
      and of a score record, which no handler reads, is left out;
    - an exception is an [option] or a sum in the helper that raises it, and
      the handler that catches it returns the database it was given together
      with the message of its [except] clause;
    - the handlers run behind [login_required] or [admin_required]: the
      model starts where the decorated function starts;
    - the current time is an argument, one per reading the handler stores or
      compares; [calcular_ranking] stamps every record of a run with one
      reading;
    - strings are byte strings: the built-ins recognise ASCII digits and
      ASCII whitespace only. The model of [int], [strip] and [split] is
      exact on the texts of [Py.simples]; a statement that depends on how a
      submitted text is read takes them as a hypothesis;
    - an integer is written to the database only when it fits in 8 bytes
      ([Bson.int_8_bytes]); the driver refuses any other with an exception
      that the handlers catch. *)

From Stdlib Require Import ZArith List String Ascii Bool Lia Permutation Sorted.
Import ListNotations.
Open Scope Z_scope.

(** ** Python built-ins used by the handlers *)

Module Py.

(** [str.isspace] restricted to ASCII: TAB..CR, FS..US and the blank. *)
Definition isspace (c : ascii) : bool :=
  let n := N_of_ascii c in
  ((9 <=? n) && (n <=? 13) || (28 <=? n) && (n <=? 32))%N.

(** The whitespace that [int] skips around a literal: TAB..CR and the
    blank. *)
Definition isspace_c (c : ascii) : bool :=
  let n := N_of_ascii c in
  ((9 <=? n) && (n <=? 13) || (n =? 32))%N.

Definition isdigit (c : ascii) : bool :=
  let n := N_of_ascii c in ((48 <=? n) && (n <=? 57))%N.

Definition digit_value (c : ascii) : Z := Z.of_N (N_of_ascii c) - 48.

Fixpoint lstrip_by (sp : ascii -> bool) (s : string) : string :=
  match s with
  | EmptyString => EmptyString
  | String c r => if sp c then lstrip_by sp r else s
  end.

Fixpoint rstrip_by (sp : ascii -> bool) (s : string) : string :=
  match s with
  | EmptyString => EmptyString
  | String c r =>
      match rstrip_by sp r with
      | EmptyString => if sp c then EmptyString else String c EmptyString
      | r' => String c r'
      end
  end.

Definition lstrip (s : string) : string := lstrip_by isspace s.

(** [s.strip()] *)
Definition strip (s : string) : string := rstrip_by isspace (lstrip_by isspace s).

(** The digits of an integer literal: decimal digits, with single
    underscores allowed between two digits. [prev] tells whether the
    previous character was a digit. *)
Fixpoint int_digits (acc : Z) (prev : bool) (s : string) : option Z :=
  match s with
  | EmptyString => if prev then Some acc else None
  | String c r =>
      if isdigit c then int_digits (10 * acc + digit_value c) true r
      else if (Ascii.eqb c "_" && prev)%bool then int_digits acc false r
      else None
  end.

(** [int(s)] for a [str] argument, base 10: surrounding whitespace is
    dropped, one optional sign, then the digits. [None] stands for the
    [ValueError] that Python raises. Only ASCII digits and whitespace are
    recognised. *)
Definition int (s : string) : option Z :=
  match rstrip_by isspace_c (lstrip_by isspace_c s) with
  | String "-" r => option_map Z.opp (int_digits 0 false r)
  | String "+" r => int_digits 0 false r
  | r => int_digits 0 false r
  end.

(** [s.split()[0]]: the first whitespace-delimited word; [None] stands for
    the [IndexError] raised when [s] holds no word. *)
Fixpoint until_space (s : string) : string :=
  match s with
  | EmptyString => EmptyString
  | String c r => if isspace c then EmptyString else String c (until_space r)
  end.

Definition split_first (s : string) : option string :=
  match lstrip s with
  | EmptyString => None
  | w => Some (until_space w)
  end.

(** A truthy string is a non-empty one. *)
Definition truthy (s : string) : bool :=
  match s with EmptyString => false | _ => true end.

Fixpoint so_ascii (s : string) : bool :=
  match s with
  | EmptyString => true
  | String c r => (N_of_ascii c <? 128)%N && so_ascii r
  end.

(** The texts on which [int], [strip] and [split_first] above do what
    Python does: ASCII characters only (Python also reads the decimal digits
    and the whitespace of other scripts), at most 4300 of them (CPython 3.11
    raises [ValueError] for a literal of more digits). *)
Definition simples (s : string) : bool :=
  so_ascii s && (String.length s <=? 4300)%nat.

End Py.

(** ** The scoring function *)

Definition calcular_pontuacao_jogo
  (placar_oficial_casa placar_oficial_visitante palpite_casa palpite_visitante : option Z) : Z :=
  match placar_oficial_casa, placar_oficial_visitante, palpite_casa, palpite_visitante with
  | Some oficial_casa, Some oficial_visitante, Some casa, Some visitante =>
      let acertou_placar_exato :=
        (oficial_casa =? casa) && (oficial_visitante =? visitante) in
      if acertou_placar_exato then 10
      else
        let resultado_oficial :=
          if oficial_casa >? oficial_visitante then 1
          else if oficial_casa <? oficial_visitante then -1 else 0 in
        let resultado_palpite :=
          if casa >? visitante then 1
          else if casa <? visitante then -1 else 0 in
        let acertou_resultado := resultado_oficial =? resultado_palpite in
        if acertou_resultado then 5 else 0
  | _, _, _, _ => 0
  end.

(** The outcome-sign of the specification: who wins a score pair. *)
Inductive Outcome := HomeWin | Draw | AwayWin.

Definition outcome_sign (home away : Z) : Outcome :=
  match home ?= away with
  | Gt => HomeWin
  | Eq => Draw
  | Lt => AwayWin
  end.

(** ** [bson.ObjectId] *)

Module Bson.

(** An ObjectId is determined by its canonical text, 24 lower-case
    hexadecimal digits, which is what [str] gives back. *)
Record ObjectId := mkObjectId { str : string }.

Definition eqb (a b : ObjectId) : bool := String.eqb (str a) (str b).

Definition ishex (c : ascii) : bool :=
  let n := N_of_ascii c in
  ((48 <=? n) && (n <=? 57) || (65 <=? n) && (n <=? 70)
   || (97 <=? n) && (n <=? 102))%N.

Definition lower (c : ascii) : ascii :=
  let n := N_of_ascii c in
  if ((65 <=? n) && (n <=? 90))%N then ascii_of_N (n + 32) else c.

Fixpoint all_hex (s : string) : bool :=
  match s with
  | EmptyString => true
  | String c r => ishex c && all_hex r
  end.

Fixpoint lower_str (s : string) : string :=
  match s with
  | EmptyString => EmptyString
  | String c r => String (lower c) (lower_str r)
  end.

(** [ObjectId(s)] for a [str] argument; [None] stands for [InvalidId].
    Accepted here: exactly 24 hexadecimal digits. A text of 24 characters
    some of which are ASCII whitespace, which [bytes.fromhex] skips, is
    outside the model; it is the identifier of no stored document. *)
Definition of_str (s : string) : option ObjectId :=
  if (Nat.eqb (String.length s) 24 && all_hex s)%bool
  then Some (mkObjectId (lower_str s)) else None.

(** The integers BSON can hold: signed, at most 8 bytes. For any other the
    driver raises [OverflowError] while it encodes the command, before
    anything reaches the database. *)
Definition int_8_bytes (n : Z) : bool :=
  (-9223372036854775808 <=? n) && (n <=? 9223372036854775807).

End Bson.

Definition ObjectId : Type := Bson.ObjectId.

(** ** [datetime] *)

Module Datetime.

Record datetime := mkDatetime {
  year : Z; month : Z; day : Z; hour : Z; minute : Z; second : Z;
  microsecond : Z }.

Definition fields (d : datetime) : list Z :=
  [year d; month d; day d; hour d; minute d; second d; microsecond d].

Fixpoint lex (a b : list Z) : comparison :=
  match a, b with
  | [], [] => Eq
  | [], _ :: _ => Lt
  | _ :: _, [] => Gt
  | x :: a', y :: b' =>
      match x ?= y with
      | Eq => lex a' b'
      | c => c
      end
  end.

(** Naive datetimes compare field by field. *)
Definition compare (a b : datetime) : comparison := lex (fields a) (fields b).

Definition ltb (a b : datetime) : bool :=
  match compare a b with Lt => true | _ => false end.

(** [a >= b] *)
Definition geb (a b : datetime) : bool := negb (ltb a b).

(** [a > b] *)
Definition gtb (a b : datetime) : bool := ltb b a.

(** Splits [s] at the first character accepted by [sep]. *)
Fixpoint split_at (sep : ascii -> bool) (s : string) : option (string * string) :=
  match s with
  | EmptyString => None
  | String c r =>
      if sep c then Some (EmptyString, r)
      else match split_at sep r with
           | Some (a, b) => Some (String c a, b)
           | None => None
           end
  end.

Fixpoint all_digits (s : string) : bool :=
  match s with
  | EmptyString => true
  | String c r => Py.isdigit c && all_digits r
  end.

Fixpoint digits_value (acc : Z) (s : string) : Z :=
  match s with
  | EmptyString => acc
  | String c r => digits_value (10 * acc + Py.digit_value c) r
  end.

(** A numeric field of [lo] to [hi] digits whose value lies in
    [vmin..vmax]. *)
Definition field (lo hi : nat) (vmin vmax : Z) (s : string) : option Z :=
  let n := String.length s in
  if (Nat.leb lo n && Nat.leb n hi && all_digits s)%bool then
    let v := digits_value 0 s in
    if (vmin <=? v) && (v <=? vmax) then Some v else None
  else None.

(** The day directive also takes a blank followed by one non-zero digit. *)
Definition day_field (s : string) : option Z :=
  match s with
  | String " " r => field 1 1 1 9 r
  | _ => field 1 2 1 31 s
  end.

Definition is_leap (y : Z) : bool :=
  ((y mod 4 =? 0) && negb (y mod 100 =? 0)) || (y mod 400 =? 0).

Definition days_in_month (y m : Z) : Z :=
  if m =? 2 then (if is_leap y then 29 else 28)
  else if (m =? 4) || (m =? 6) || (m =? 9) || (m =? 11) then 30 else 31.

Definition is_char (a : ascii) (c : ascii) : bool := Ascii.eqb c a.

(** [datetime.strptime(s, '%Y-%m-%dT%H:%M')]; [None] stands for
    [ValueError]. The directives are matched ignoring case, so the
    separator may be [T] or [t]. Only ASCII digits are recognised. *)
Definition strptime (s : string) : option datetime :=
  match split_at (is_char "-") s with
  | None => None
  | Some (sy, r1) =>
  match split_at (is_char "-") r1 with
  | None => None
  | Some (sm, r2) =>
  match split_at (fun c => is_char "T" c || is_char "t" c) r2 with
  | None => None
  | Some (sd, r3) =>
  match split_at (is_char ":") r3 with
  | None => None
  | Some (sH, sM) =>
  match field 4 4 1 9999 sy, field 1 2 1 12 sm, day_field sd,
        field 1 2 0 23 sH, field 1 2 0 59 sM with
  | Some y, Some m, Some d, Some H, Some M =>
      if d <=? days_in_month y m
      then Some (mkDatetime y m d H M 0 0) else None
  | _, _, _, _, _ => None
  end end end end end.

End Datetime.

Definition datetime : Type := Datetime.datetime.

(** ** MongoDB collections *)

Module Mongo.
Section Collection.
Context {A : Type}.

(** [find_one(filter)]: the first document that matches. *)
Definition find_one (filter : A -> bool) (c : list A) : option A :=
  List.find filter c.

(** [find(filter)]: every document that matches, in storage order. *)
Definition find (filter : A -> bool) (c : list A) : list A :=
  List.filter filter c.

(** [update_one(filter, {'$set': ...})]: the first match is updated. *)
Fixpoint update_one (filter : A -> bool) (set : A -> A) (c : list A) : list A :=
  match c with
  | [] => []
  | d :: c' =>
      if filter d then set d :: c' else d :: update_one filter set c'
  end.

(** [update_one(filter, {'$set': ...}, upsert=True)]: when nothing
    matches, the document [novo] made of the filter's and the update's
    fields is inserted. *)
Fixpoint upsert_one (filter : A -> bool) (set : A -> A) (novo : A)
  (c : list A) : list A :=
  match c with
  | [] => [novo]
  | d :: c' =>
      if filter d then set d :: c' else d :: upsert_one filter set novo c'
  end.

Definition insert_one (d : A) (c : list A) : list A := c ++ [d].
End Collection.
End Mongo.

(** ** Documents and the database *)

(** A match of a round ([rodada['jogos'][i]]). *)
Record Jogo := mkJogo {
  id_jogo : ObjectId;
  time_casa_id : ObjectId;
  time_visitante_id : ObjectId;
  placar_casa : option Z;
  placar_visitante : option Z;
  finalizado : bool }.

(** A document of [rodadas_collection]. *)
Record Rodada := mkRodada {
  rodada_id_ : ObjectId;
  numero : Z;
  data_limite_apostas : string;
  jogos : list Jogo;
  processada : bool }.

(** One entry of a prediction; [salvar_aposta] stores the match identity as
    text and both scores as integers. *)
Record PalpiteJogo := mkPalpiteJogo {
  pj_id_jogo : string;
  pj_placar_casa : Z;
  pj_placar_visitante : Z }.

(** A document of [palpites_collection]. *)
Record Palpite := mkPalpite {
  p_usuario_id : ObjectId;
  p_rodada_id : ObjectId;
  palpites : list PalpiteJogo;
  data_criacao : datetime }.

(** A document of [ranking_collection]. *)
Record Pontuacao := mkPontuacao {
  r_usuario_id : ObjectId;
  r_rodada_id : ObjectId;
  pontuacao_total : Z;
  data_calculo : datetime }.

(** A document of [usuarios_collection]. *)
Record Usuario := mkUsuario {
  usuario_id_ : ObjectId;
  nome : string;
  usuario : string;
  is_admin : bool }.

Record DB := mkDB {
  usuarios_collection : list Usuario;
  rodadas_collection : list Rodada;
  palpites_collection : list Palpite;
  ranking_collection : list Pontuacao }.

(** ** Requests and responses *)

(** [request.form]: the submitted fields, in order. *)
Definition Form : Type := list (string * string).

(** [request.form.get(k)] *)
Definition form_get (form : Form) (k : string) : option string :=
  option_map snd (List.find (fun kv => String.eqb (fst kv) k) form).

(** [request.form.getlist(k)] *)
Definition form_getlist (form : Form) (k : string) : list string :=
  map snd (List.filter (fun kv => String.eqb (fst kv) k) form).

Inductive Categoria := danger | warning | info | success.

(** The messages the modelled handlers flash, with the values they show. *)
Inductive Mensagem :=
  | RodadaNaoEncontrada
  | FormatoDataLimiteInvalido
  | PrazoEncerrado (numero : Z) (limite : datetime)
  | PlacaresDevemSerInteiros
  | PalpitesSalvos (numero : Z)
  | ErroAoSalvarAposta
  | RodadaJaCadastrada (numero : Z)
  | DataHoraObrigatoria
  | DataOuHoraInvalidas
  | JogoIncompleto
  | NenhumaPartidaValida
  | RodadaCadastrada (numero : Z) (n_jogos : nat)
  | ErroDeFormato
  | ErroAoCadastrarRodada
  | RodadaNaoEncontradaPlacar
  | PlacaresIgnorados (jogo_id : string)
  | PlacaresAtualizados (numero : Z) (recebidos total : nat)
  | ErroAoSalvarPlacares
  | JogoSemPlacarOficial (numero : Z)
  | RodadaJaProcessada (numero : Z)
  | NenhumPalpiteEncontrado (numero : Z)
  | CalculoConcluido (numero : Z) (apostadores : nat)
  | ErroFatalRanking.

Definition Flash : Type := (Categoria * Mensagem)%type.

Definition by_id (oid : ObjectId) (r : Rodada) : bool :=
  Bson.eqb (rodada_id_ r) oid.

(** ** [salvar_aposta] *)

(** [int(s) if s and s.strip() != '' else 0]; the outer [None] stands for
    [ValueError]. *)
Definition placar_ou_zero (s : option string) : option Z :=
  match s with
  | Some t =>
      if (Py.truthy t && negb (String.eqb (Py.strip t) ""))%bool
      then Py.int t else Some 0
  | None => Some 0
  end.

(** The loop over [rodada['jogos']]; [None] is the early return taken when a
    score is not an integer literal. *)
Fixpoint ler_palpites (form : Form) (js : list Jogo) : option (list PalpiteJogo) :=
  match js with
  | [] => Some []
  | jogo :: js' =>
      let jogo_identificador := Bson.str (id_jogo jogo) in
      let placar_casa_str := form_get form ("placar_casa_" ++ jogo_identificador) in
      let placar_visitante_str :=
        form_get form ("placar_visitante_" ++ jogo_identificador) in
      match placar_ou_zero placar_casa_str with
      | None => None
      | Some casa =>
      match placar_ou_zero placar_visitante_str with
      | None => None
      | Some visitante =>
      match ler_palpites form js' with
      | None => None
      | Some resto => Some (mkPalpiteJogo jogo_identificador casa visitante :: resto)
      end end end
  end.

Definition do_usuario_na_rodada (u r : ObjectId) (p : Palpite) : bool :=
  Bson.eqb (p_usuario_id p) u && Bson.eqb (p_rodada_id p) r.

(** Both scores of an entry can be written to the database. *)
Definition palpite_codificavel (p : PalpiteJogo) : bool :=
  Bson.int_8_bytes (pj_placar_casa p) && Bson.int_8_bytes (pj_placar_visitante p).

(** [session_usuario_id] is [session['usuario_id']]; [agora] and
    [agora_gravacao] are the two readings of [datetime.now()].

    After the message for a score that is no integer literal the handler
    calls [url_for('apostar', ...)]; the application has no such endpoint, so
    [BuildError] is raised and the outer [except Exception] flashes a second
    message. The same clause catches the [OverflowError] of [update_one] for
    a score beyond 8 bytes. *)
Definition salvar_aposta (db : DB) (session_usuario_id : string) (form : Form)
  (agora agora_gravacao : datetime) (rodada_id : string) : DB * list Flash :=
  match Bson.of_str rodada_id with
  | None => (db, [(danger, ErroAoSalvarAposta)])
  | Some rodada_object_id =>
  match Mongo.find_one (by_id rodada_object_id) (rodadas_collection db) with
  | None => (db, [(danger, RodadaNaoEncontrada)])
  | Some rodada =>
  match Datetime.strptime (data_limite_apostas rodada) with
  | None => (db, [(danger, FormatoDataLimiteInvalido)])
  | Some data_limite_aposta =>
      if Datetime.geb agora data_limite_aposta
      then (db, [(danger, PrazoEncerrado (numero rodada) data_limite_aposta)])
      else
        match Bson.of_str session_usuario_id with
        | None => (db, [(danger, ErroAoSalvarAposta)])
        | Some usuario_object_id =>
        match ler_palpites form (jogos rodada) with
        | None =>
            (db, [(danger, PlacaresDevemSerInteiros);
                  (danger, ErroAoSalvarAposta)])            (* BuildError *)
        | Some ps =>
            if forallb palpite_codificavel ps then
              let palpites_collection' :=
                Mongo.upsert_one
                  (do_usuario_na_rodada usuario_object_id rodada_object_id)
                  (fun p => mkPalpite (p_usuario_id p) (p_rodada_id p) ps
                              agora_gravacao)
                  (mkPalpite usuario_object_id rodada_object_id ps agora_gravacao)
                  (palpites_collection db) in
              (mkDB (usuarios_collection db) (rodadas_collection db)
                    palpites_collection' (ranking_collection db),
               [(success, PalpitesSalvos (numero rodada))])
            else (db, [(danger, ErroAoSalvarAposta)])       (* OverflowError *)
        end end
  end end end.

(** A form field that is missing or holds only whitespace. *)
Definition em_branco (s : option string) : Prop :=
  s = None \/ exists t, s = Some t /\ Py.strip t = EmptyString.

(** ** [ranking] *)

(** The [$group] stage: one entry per [usuario_id] with the [$sum] of
    [pontuacao_total]. MongoDB leaves the order of the groups open; here a
    group stands where its user first occurs. *)
Fixpoint acumular (u : ObjectId) (v : Z) (g : list (ObjectId * Z)) : list (ObjectId * Z) :=
  match g with
  | [] => [(u, v)]
  | (u', t) :: g' =>
      if Bson.eqb u' u then (u', t + v) :: g' else (u', t) :: acumular u v g'
  end.

Definition agrupar (c : list Pontuacao) : list (ObjectId * Z) :=
  fold_left (fun g d => acumular (r_usuario_id d) (pontuacao_total d) g) c [].

(** The [$sort] stage, [pontuacao_total] descending. MongoDB leaves the
    order of equal totals open; here they keep their relative order. *)
Fixpoint inserir (x : ObjectId * Z) (l : list (ObjectId * Z)) : list (ObjectId * Z) :=
  match l with
  | [] => [x]
  | y :: l' => if snd y <=? snd x then x :: l else y :: inserir x l'
  end.

Definition ordenar (l : list (ObjectId * Z)) : list (ObjectId * Z) :=
  fold_right inserir [] l.

(** The aggregation pipeline: [$group], [$sort], [$limit 50]. *)
Definition ranking_geral (c : list Pontuacao) : list (ObjectId * Z) :=
  firstn 50 (ordenar (agrupar c)).

Definition usuario_by_id (oid : ObjectId) (u : Usuario) : bool :=
  Bson.eqb (usuario_id_ u) oid.

(** The loop that builds [ranking_final]: users that no longer exist are
    left out; [None] stands for the [IndexError] of [split()[0]] on a name
    without any word, which the handler does not catch. *)
Fixpoint ranking_final (usuarios : list Usuario) (l : list (ObjectId * Z))
  : option (list (string * Z)) :=
  match l with
  | [] => Some []
  | (u, total) :: l' =>
      match Mongo.find_one (usuario_by_id u) usuarios with
      | None => ranking_final usuarios l'
      | Some usr =>
          match Py.split_first (nome usr) with
          | None => None
          | Some primeiro =>
              option_map (cons (primeiro, total)) (ranking_final usuarios l')
          end
      end
  end.

Definition ranking (db : DB) : option (list (string * Z)) :=
  ranking_final (usuarios_collection db) (ranking_geral (ranking_collection db)).

(** ** [cadastrar_rodada] *)

(** The loop over [range(len(times_casa_ids))]. [novo_id k] is the value of
    the [k]-th call of [ObjectId()] in the request. A [Flash] on the left is
    an early exit: a message flashed in the loop, or the message of the
    handler that catches the exception raised there. *)
Fixpoint montar_jogos (novo_id : nat -> ObjectId) (casas visitantes : list string)
  (acc : list Jogo) : Flash + list Jogo :=
  match casas with
  | [] => inr acc
  | casa_id_str :: casas' =>
      match visitantes with
      | [] => inl (danger, ErroAoCadastrarRodada)          (* IndexError *)
      | visitante_id_str :: visitantes' =>
          if (negb (Py.truthy casa_id_str) && negb (Py.truthy visitante_id_str))%bool
          then montar_jogos novo_id casas' visitantes' acc
          else if (negb (Py.truthy casa_id_str) || negb (Py.truthy visitante_id_str))%bool
          then inl (danger, JogoIncompleto)
          else
            match Bson.of_str casa_id_str with
            | None => inl (danger, ErroAoCadastrarRodada)  (* InvalidId *)
            | Some casa_id =>
            match Bson.of_str visitante_id_str with
            | None => inl (danger, ErroAoCadastrarRodada)  (* InvalidId *)
            | Some visitante_id =>
                montar_jogos novo_id casas' visitantes'
                  (acc ++ [mkJogo (novo_id (List.length acc)) casa_id visitante_id
                                  None None false])
            end end
      end
  end.

Definition cadastrar_rodada (db : DB) (novo_id : nat -> ObjectId) (form : Form)
  : DB * list Flash :=
  match form_get form "numero_rodada" with
  | None => (db, [(danger, ErroAoCadastrarRodada)])        (* TypeError *)
  | Some numero_str =>
  match Py.int numero_str with
  | None => (db, [(danger, ErroDeFormato)])                (* ValueError *)
  | Some numero_rodada =>
      let data_limite := form_get form "data_limite" in
      let hora_limite := form_get form "hora_limite" in
      if negb (Bson.int_8_bytes numero_rodada)
      then (db, [(danger, ErroAoCadastrarRodada)])          (* OverflowError *)
      else
      match Mongo.find_one (fun r => numero r =? numero_rodada) (rodadas_collection db) with
      | Some _ => (db, [(danger, RodadaJaCadastrada numero_rodada)])
      | None =>
      match data_limite, hora_limite with
      | Some data, Some hora =>
          if (negb (Py.truthy data) || negb (Py.truthy hora))%bool
          then (db, [(danger, DataHoraObrigatoria)])
          else
            let data_hora_limite_combinada := (data ++ "T" ++ hora)%string in
            match Datetime.strptime data_hora_limite_combinada with
            | None => (db, [(danger, DataOuHoraInvalidas)])
            | Some _ =>
            match montar_jogos novo_id (form_getlist form "time_casa_id")
                    (form_getlist form "time_visitante_id") [] with
            | inl f => (db, [f])
            | inr [] => (db, [(danger, NenhumaPartidaValida)])
            | inr js =>
                let nova_rodada :=
                  mkRodada (novo_id (List.length js)) numero_rodada
                           data_hora_limite_combinada js false in
                (mkDB (usuarios_collection db)
                      (Mongo.insert_one nova_rodada (rodadas_collection db))
                      (palpites_collection db) (ranking_collection db),
                 [(success, RodadaCadastrada numero_rodada (List.length js))])
            end end
      | _, _ => (db, [(danger, DataHoraObrigatoria)])
      end end
  end end.

(** ** [placar_admin_salvar] *)

(** [int(s) if s is not None and s.strip() != '' else None]; the outer
    [None] stands for [ValueError]. *)
Definition placar_ou_none (s : option string) : option (option Z) :=
  match s with
  | Some t =>
      if negb (String.eqb (Py.strip t) "")
      then option_map Some (Py.int t) else Some None
  | None => Some None
  end.

(** The body of the loop for one match: the match as it is appended to
    [jogos_atualizados], whether it counts in [placares_recebidos], and the
    warning flashed. Both scores are converted before the match is touched,
    so a [ValueError] from either leaves it as it was. *)
Definition registrar_placar (form : Form) (jogo : Jogo) : Jogo * bool * list Flash :=
  let jogo_id := Bson.str (id_jogo jogo) in
  let placar_casa_str := form_get form ("placar_casa_" ++ jogo_id) in
  let placar_visitante_str := form_get form ("placar_visitante_" ++ jogo_id) in
  match placar_ou_none placar_casa_str with
  | None => (jogo, false, [(warning, PlacaresIgnorados jogo_id)])
  | Some casa =>
  match placar_ou_none placar_visitante_str with
  | None => (jogo, false, [(warning, PlacaresIgnorados jogo_id)])
  | Some visitante =>
      match casa, visitante with
      | Some _, Some _ =>
          (mkJogo (id_jogo jogo) (time_casa_id jogo) (time_visitante_id jogo)
                  casa visitante true, true, [])
      | _, _ =>
          (mkJogo (id_jogo jogo) (time_casa_id jogo) (time_visitante_id jogo)
                  casa visitante false, false, [])
      end
  end end.

(** The loop over [rodada_atual['jogos']]. *)
Fixpoint registrar_placares (form : Form) (js : list Jogo) : list Jogo * nat * list Flash :=
  match js with
  | [] => ([], 0%nat, [])
  | jogo :: js' =>
      let '(jogo', recebido, avisos) := registrar_placar form jogo in
      let '(jogos_atualizados, placares_recebidos, avisos') :=
        registrar_placares form js' in
      (jogo' :: jogos_atualizados,
       ((if recebido then 1 else 0) + placares_recebidos)%nat,
       avisos ++ avisos')
  end.

(** Both scores of a match, where present, can be written to the database. *)
Definition placar_codificavel (p : option Z) : bool :=
  match p with
  | Some n => Bson.int_8_bytes n
  | None => true
  end.

Definition jogo_codificavel (j : Jogo) : bool :=
  placar_codificavel (placar_casa j) && placar_codificavel (placar_visitante j).

(** [update_one] raises [OverflowError] when a score of [jogos_atualizados]
    is beyond 8 bytes; the handler's [except Exception] then flashes its
    message after the warnings of the loop, and nothing is written. *)
Definition placar_admin_salvar (db : DB) (form : Form) (rodada_id : string)
  : DB * list Flash :=
  match Bson.of_str rodada_id with
  | None => (db, [(danger, ErroAoSalvarPlacares)])          (* InvalidId *)
  | Some rodada_object_id =>
  match Mongo.find_one (by_id rodada_object_id) (rodadas_collection db) with
  | None => (db, [(danger, RodadaNaoEncontradaPlacar)])
  | Some rodada_atual =>
      let '(jogos_atualizados, placares_recebidos, avisos) :=
        registrar_placares form (jogos rodada_atual) in
      if forallb jogo_codificavel jogos_atualizados then
        (mkDB (usuarios_collection db)
              (Mongo.update_one (by_id rodada_object_id)
                 (fun r => mkRodada (rodada_id_ r) (numero r) (data_limite_apostas r)
                                    jogos_atualizados (processada r))
                 (rodadas_collection db))
              (palpites_collection db) (ranking_collection db),
         avisos ++ [(success, PlacaresAtualizados (numero rodada_atual)
                                placares_recebidos (List.length (jogos rodada_atual)))])
      else (db, avisos ++ [(danger, ErroAoSalvarPlacares)]) (* OverflowError *)
  end end.

(** ** [calcular_ranking] *)

(** [next((j for j in rodada['jogos'] if str(j['id_jogo']) == str(jogo_id)), None)] *)
Definition jogo_oficial_de (rodada : Rodada) (jogo_id : string) : option Jogo :=
  List.find (fun j => String.eqb (Bson.str (id_jogo j)) jogo_id) (jogos rodada).

(** The inner loop: [pontuacao_total] of one prediction document. *)
Definition pontuar_palpite (rodada : Rodada) (palpite : Palpite) : Z :=
  fold_left
    (fun pontuacao_total palpite_jogo =>
       match jogo_oficial_de rodada (pj_id_jogo palpite_jogo) with
       | Some jogo_oficial =>
           pontuacao_total
           + calcular_pontuacao_jogo
               (placar_casa jogo_oficial) (placar_visitante jogo_oficial)
               (Some (pj_placar_casa palpite_jogo))
               (Some (pj_placar_visitante palpite_jogo))
       | None => pontuacao_total
       end)
    (palpites palpite) 0.

Definition do_usuario_no_ranking (u r : ObjectId) (d : Pontuacao) : bool :=
  Bson.eqb (r_usuario_id d) u && Bson.eqb (r_rodada_id d) r.

(** One turn of the outer loop: the upsert of the user's score record. *)
Definition gravar_pontuacao (rodada : Rodada) (rodada_object_id : ObjectId)
  (agora : datetime) (c : list Pontuacao) (palpite : Palpite) : list Pontuacao :=
  let total := pontuar_palpite rodada palpite in
  Mongo.upsert_one
    (do_usuario_no_ranking (p_usuario_id palpite) rodada_object_id)
    (fun d => mkPontuacao (r_usuario_id d) (r_rodada_id d) total agora)
    (mkPontuacao (p_usuario_id palpite) rodada_object_id total agora)
    c.

Definition da_rodada (r : ObjectId) (p : Palpite) : bool :=
  Bson.eqb (p_rodada_id p) r.

(** [agora] is the value of [datetime.now()] while the handler runs. *)
Definition calcular_ranking (db : DB) (agora : datetime) (rodada_id : string)
  : DB * list Flash :=
  match Bson.of_str rodada_id with
  | None => (db, [(danger, ErroFatalRanking)])              (* InvalidId *)
  | Some rodada_object_id =>
  match Mongo.find_one (by_id rodada_object_id) (rodadas_collection db) with
  | None => (db, [(danger, RodadaNaoEncontrada)])
  | Some rodada =>
      let jogos_nao_finalizados :=
        List.filter (fun j => Bool.eqb (finalizado j) false) (jogos rodada) in
      match jogos_nao_finalizados with
      | _ :: _ => (db, [(warning, JogoSemPlacarOficial (numero rodada))])
      | [] =>
          if processada rodada
          then (db, [(warning, RodadaJaProcessada (numero rodada))])
          else
            match Mongo.find (da_rodada rodada_object_id) (palpites_collection db) with
            | [] => (db, [(info, NenhumPalpiteEncontrado (numero rodada))])
            | ps =>
                (mkDB (usuarios_collection db)
                      (Mongo.update_one (by_id rodada_object_id)
                         (fun r => mkRodada (rodada_id_ r) (numero r)
                                     (data_limite_apostas r) (jogos r) true)
                         (rodadas_collection db))
                      (palpites_collection db)
                      (fold_left (gravar_pontuacao rodada rodada_object_id agora)
                         ps (ranking_collection db)),
                 [(success, CalculoConcluido (numero rodada) (List.length ps))])
            end
      end
  end end.

(** ** The round's total as the specification words it *)

Definition soma (l : list Z) : Z := fold_right Z.add 0 l.

(** The points of one prediction entry: the score against the match of the
    round that has the entry's identity, and 0 when the round has none. *)
Definition pontos_da_entrada (rodada : Rodada) (e : PalpiteJogo) : Z :=
  match jogo_oficial_de rodada (pj_id_jogo e) with
  | Some jogo =>
      calcular_pontuacao_jogo (placar_casa jogo) (placar_visitante jogo)
        (Some (pj_placar_casa e)) (Some (pj_placar_visitante e))
  | None => 0
  end.

(** ** The leaderboard as the specification words it *)

(** A user's total across all rounds. *)
Definition total_do_usuario (u : ObjectId) (c : list Pontuacao) : Z :=
  soma (map pontuacao_total
          (List.filter (fun d => Bson.eqb (r_usuario_id d) u) c)).



(** The entries of the pipeline whose user still exists. *)
Definition tem_usuario (usuarios : list Usuario) (e : ObjectId * Z) : bool :=
  match Mongo.find_one (usuario_by_id (fst e)) usuarios with
  | Some _ => true
  | None => false
  end.

(** ** One prediction per user and round *)

Definition chave_palpite (p : Palpite) : ObjectId * ObjectId :=
  (p_usuario_id p, p_rodada_id p).

Definition palpites_ok (db : DB) : Prop :=
  NoDup (map chave_palpite (palpites_collection db)).

(** ** The invariant of stored matches *)

Definition jogo_ok (j : Jogo) : Prop :=
  (finalizado j = true -> placar_casa j <> None /\ placar_visitante j <> None) /\
  (finalizado j = false -> placar_casa j = None \/ placar_visitante j = None).

Definition rodadas_ok (db : DB) : Prop :=
  Forall (fun r => Forall jogo_ok (jogos r)) (rodadas_collection db).

(** A submitted score that is present, not blank, and no integer literal. *)
Definition malformado (s : option string) : Prop :=
  exists t, s = Some t /\ Py.strip t <> EmptyString /\ Py.int t = None.

(** A submitted score that is an integer literal beyond 8 bytes. *)
Definition excessivo (s : option string) : Prop :=
  exists t n, s = Some t /\ Py.strip t <> EmptyString /\ Py.int t = Some n /\
              Bson.int_8_bytes n = false.



(** Every submitted text is one the model of the built-ins is exact on. *)
Definition form_simples (form : Form) : Prop :=
  Forall (fun campo => Py.simples (snd campo) = true) form.

(** ** A small pool, used to run the handlers *)

Module Exemplo.
Open Scope string_scope.

Definition rodada1_str := "aaaaaaaaaaaaaaaaaaaaaaaa".
Definition rodada1 : ObjectId := Bson.mkObjectId rodada1_str.
Definition jogo1 : ObjectId := Bson.mkObjectId "000000000000000000000001".
Definition jogo2 : ObjectId := Bson.mkObjectId "000000000000000000000002".
Definition fla : ObjectId := Bson.mkObjectId "f1a000000000000000000000".
Definition pal : ObjectId := Bson.mkObjectId "9a1000000000000000000000".
Definition san : ObjectId := Bson.mkObjectId "5a2000000000000000000000".
Definition cor : ObjectId := Bson.mkObjectId "c02000000000000000000000".
Definition ana_str := "a2a000000000000000000000".
Definition ana : ObjectId := Bson.mkObjectId ana_str.
Definition bia_str := "b1a000000000000000000000".
Definition bia : ObjectId := Bson.mkObjectId bia_str.
Definition caio : ObjectId := Bson.mkObjectId "ca1000000000000000000000".

Definition usuarios : list Usuario :=
  [ mkUsuario ana "Ana Souza" "ana" false;
    mkUsuario bia "Bia Lima" "bia" false;
    mkUsuario caio "Caio Reis" "caio" false ].

(** The deadline of the round and three readings of the clock. *)
Definition limite_str := "2025-10-26T18:00".
Definition limite : datetime := Datetime.mkDatetime 2025 10 26 18 0 0 0.
Definition cedo : datetime := Datetime.mkDatetime 2025 10 25 9 30 0 0.
Definition no_limite : datetime := limite.
Definition tarde : datetime := Datetime.mkDatetime 2025 10 27 8 0 0 250.

(** The round as created: no official score yet. *)
Definition rodada_aberta : Rodada :=
  mkRodada rodada1 1 limite_str
    [ mkJogo jogo1 fla pal None None false;
      mkJogo jogo2 san cor None None false ] false.

Definition db_aberta : DB := mkDB usuarios [rodada_aberta] [] [].

Definition palpite_ana : Palpite :=
  mkPalpite ana rodada1
    [ mkPalpiteJogo "000000000000000000000001" 2 1;
      mkPalpiteJogo "000000000000000000000002" 0 0 ] cedo.

(** Bia's third entry names a match the round does not hold. *)
Definition palpite_bia : Palpite :=
  mkPalpite bia rodada1
    [ mkPalpiteJogo "000000000000000000000001" 1 0;
      mkPalpiteJogo "000000000000000000000002" 0 3;
      mkPalpiteJogo "00000000000000000000dead" 2 1 ] cedo.

Definition palpite_caio : Palpite :=
  mkPalpite caio rodada1
    [ mkPalpiteJogo "000000000000000000000001" 0 2 ] cedo.

Definition db_apostada : DB := mkDB usuarios [rodada_aberta] [palpite_ana] [].

(** The round once both results are in: 2-1 and 1-1. *)
Definition rodada_encerrada : Rodada :=
  mkRodada rodada1 1 limite_str
    [ mkJogo jogo1 fla pal (Some 2) (Some 1) true;
      mkJogo jogo2 san cor (Some 1) (Some 1) true ] false.

Definition db_encerrada : DB :=
  mkDB usuarios [rodada_encerrada] [palpite_ana; palpite_bia; palpite_caio] [].

Definition db_sem_palpites : DB := mkDB usuarios [rodada_encerrada] [] [].

(** Only the first match has its result. *)
Definition rodada_parcial : Rodada :=
  mkRodada rodada1 1 limite_str
    [ mkJogo jogo1 fla pal (Some 2) (Some 1) true;
      mkJogo jogo2 san cor None None false ] false.

Definition db_parcial : DB := mkDB usuarios [rodada_parcial] [palpite_ana] [].

(** Forms: both scores of the second match left out; a negative score; a
    score that is no number. *)
Definition form_parcial : Form :=
  [ ("placar_casa_000000000000000000000001", "3");
    ("placar_visitante_000000000000000000000001", "  ") ].

Definition form_negativa : Form :=
  [ ("placar_casa_000000000000000000000001", "-1");
    ("placar_visitante_000000000000000000000001", "0");
    ("placar_casa_000000000000000000000002", "1");
    ("placar_visitante_000000000000000000000002", "1") ].


Definition form_rodada : Form :=
  [ ("numero_rodada", "2"); ("data_limite", "2025-11-02");
    ("hora_limite", "16:00");
    ("time_casa_id", "f1a000000000000000000000");
    ("time_visitante_id", "9a1000000000000000000000");
    ("time_casa_id", ""); ("time_visitante_id", "") ].

(** Three score records of one user, one of another. *)
Definition pontuacoes : list Pontuacao :=
  [ mkPontuacao ana rodada1 5 tarde;
    mkPontuacao bia rodada1 10 tarde;
    mkPontuacao ana jogo1 10 tarde;
    mkPontuacao ana jogo2 0 tarde ].

Definition novo_id (k : nat) : ObjectId :=
  match k with
  | O => Bson.mkObjectId "000000000000000000000010"
  | S O => Bson.mkObjectId "000000000000000000000011"
  | _ => Bson.mkObjectId "000000000000000000000012"
  end.


(** Integer scores for both matches, one of them beyond 8 bytes. *)
Definition form_enorme : Form :=
  [ ("placar_casa_000000000000000000000001", "2");
    ("placar_visitante_000000000000000000000001", "1");
    ("placar_casa_000000000000000000000002", "9223372036854775808");
    ("placar_visitante_000000000000000000000002", "0") ].
End Exemplo.

(** * The remaining handlers *)

(** The handlers below flash messages of their own. *)
Inductive Aviso :=
  | ConsultaRodadaNaoEncontrada
  | ConsultaFormatoInvalido
  | ConsultaIndisponivel (numero : Z) (limite : datetime)
  | ErroAoCarregarConsulta
  | RodadaExcluida
  | ExcluirRodadaNaoEncontrada
  | ExcluirRodadaIdInvalido
  | TimeEscalado
  | TimeExcluido
  | ExcluirTimeNaoEncontrado
  | ExcluirTimeIdInvalido
  | NenhumaRodadaAberta
  | PrecisaEstarLogado.

Definition FlashAviso : Type := (Categoria * Aviso)%type.

(** ** [get_palpite_do_jogo] *)

(** [session_usuario_id] is [session.get('usuario_id')]. Every exception is
    caught and answered with [None]. *)
Definition get_palpite_do_jogo (db : DB) (session_usuario_id : option string)
  (rodada_id_str jogo_id_str : string) : option PalpiteJogo :=
  match session_usuario_id with
  | None => None
  | Some s =>
      match Bson.of_str s with
      | None => None                                        (* InvalidId *)
      | Some usuario_object_id =>
      match Bson.of_str rodada_id_str with
      | None => None                                        (* InvalidId *)
      | Some rodada_object_id =>
          match Mongo.find_one
                  (do_usuario_na_rodada usuario_object_id rodada_object_id)
                  (palpites_collection db) with
          | Some palpite_rodada =>
              List.find (fun palpite => String.eqb (pj_id_jogo palpite) jogo_id_str)
                (palpites palpite_rodada)
          | None => None
          end
      end end
  end.

(** ** Sorting, as [list.sort] and a MongoDB [sort] do it *)

(** Insertion of [x] before the first element it does not exceed. Folding it
    from the right gives a stable sort: equal elements keep their order, as
    with [list.sort]. A MongoDB [sort] leaves the order of equal keys open;
    it is modelled by the same stable sort. *)
Fixpoint inserir_por {A : Type} (leb : A -> A -> bool) (x : A) (l : list A) : list A :=
  match l with
  | [] => [x]
  | y :: l' => if leb x y then x :: l else y :: inserir_por leb x l'
  end.

Definition ordenar_por {A : Type} (leb : A -> A -> bool) (l : list A) : list A :=
  fold_right (inserir_por leb) [] l.

(** [sort('numero', -1)] *)
Definition numero_desc (a b : Rodada) : bool := numero b <=? numero a.

(** [sort('numero', 1)] *)
Definition numero_asc (a b : Rodada) : bool := numero a <=? numero b.

(** ** [consulta_palpites] *)

(** The loop that builds [palpites_mapeados]: the predictions whose user
    exists and is no administrator, under the user's first name. [None]
    stands for the [IndexError] of [split()[0]]. *)
Fixpoint mapear_palpites (usuarios : list Usuario) (ps : list Palpite)
  : option (list (string * list PalpiteJogo)) :=
  match ps with
  | [] => Some []
  | palpite :: ps' =>
      match Mongo.find_one (usuario_by_id (p_usuario_id palpite)) usuarios with
      | Some usr =>
          if negb (is_admin usr) then
            match Py.split_first (nome usr) with
            | None => None
            | Some apostador_nome =>
                option_map (cons (apostador_nome, palpites palpite))
                  (mapear_palpites usuarios ps')
            end
          else mapear_palpites usuarios ps'
      | None => mapear_palpites usuarios ps'
      end
  end.

Definition por_nome (a b : string * list PalpiteJogo) : bool :=
  String.leb (fst a) (fst b).

(** The handler either flashes a message and redirects (left) or renders the
    round with the mapped predictions (right). *)
Definition consulta_palpites (db : DB) (agora : datetime) (rodada_id : string)
  : FlashAviso + Rodada * list (string * list PalpiteJogo) :=
  match Bson.of_str rodada_id with
  | None => inl (danger, ErroAoCarregarConsulta)            (* InvalidId *)
  | Some rodada_object_id =>
  match Mongo.find_one (by_id rodada_object_id) (rodadas_collection db) with
  | None => inl (danger, ConsultaRodadaNaoEncontrada)
  | Some rodada =>
  match Datetime.strptime (data_limite_apostas rodada) with
  | None => inl (danger, ConsultaFormatoInvalido)
  | Some data_limite_aposta =>
      if Datetime.ltb agora data_limite_aposta
      then inl (warning, ConsultaIndisponivel (numero rodada) data_limite_aposta)
      else
        let palpites := Mongo.find (da_rodada rodada_object_id) (palpites_collection db) in
        match mapear_palpites (usuarios_collection db) palpites with
        | None => inl (danger, ErroAoCarregarConsulta)      (* IndexError *)
        | Some palpites_mapeados =>
            inr (rodada, ordenar_por por_nome palpites_mapeados)
        end
  end end end.


(** ** [painel] *)

(** The loop over [todas_rodadas]. [relogio k] is the reading of
    [datetime.now()] taken for the [k]-th round whose deadline parses; a round
    whose deadline does not parse is skipped before the clock is read. *)
Fixpoint painel_laco (relogio : nat -> datetime) (k : nat) (rs : list Rodada)
  (rodada_aberta : option Rodada) (rodadas_disponiveis : list Rodada)
  : option Rodada * list Rodada :=
  match rs with
  | [] => (rodada_aberta, rodadas_disponiveis)
  | rodada :: rs' =>
      match Datetime.strptime (data_limite_apostas rodada) with
      | None => painel_laco relogio k rs' rodada_aberta rodadas_disponiveis
      | Some data_limite =>
          if Datetime.gtb data_limite (relogio k) then
            painel_laco relogio (S k) rs'
              (match rodada_aberta with
               | None => Some rodada
               | Some _ => rodada_aberta
               end)
              (rodadas_disponiveis ++ [rodada])
          else
            painel_laco relogio (S k) rs' rodada_aberta
              (rodadas_disponiveis ++ [rodada])
      end
  end.

(** The two values handed to the template: [rodada_aberta] and
    [rodadas_disponiveis]. *)
Definition painel (db : DB) (relogio : nat -> datetime) : option Rodada * list Rodada :=
  painel_laco relogio 0 (ordenar_por numero_desc (rodadas_collection db)) None [].

(** A round whose deadline parses and lies strictly after [agora]. *)
Definition aberta_em (agora : datetime) (r : Rodada) : bool :=
  match Datetime.strptime (data_limite_apostas r) with
  | Some limite => Datetime.gtb limite agora
  | None => false
  end.

Definition prazo_valido (r : Rodada) : bool :=
  match Datetime.strptime (data_limite_apostas r) with
  | Some _ => true
  | None => false
  end.

(** ** [excluir_rodada] *)

(** [delete_one(filter)]: the first match is removed; the second component
    is [deleted_count == 1]. *)
Fixpoint delete_one {A : Type} (filter : A -> bool) (c : list A) : list A * bool :=
  match c with
  | [] => ([], false)
  | d :: c' =>
      if filter d then (c', true)
      else let '(c'', deleted) := delete_one filter c' in (d :: c'', deleted)
  end.

(** [delete_many(filter)] *)
Definition delete_many {A : Type} (filter : A -> bool) (c : list A) : list A :=
  List.filter (fun d => negb (filter d)) c.

Definition registro_da_rodada (r : ObjectId) (d : Pontuacao) : bool :=
  Bson.eqb (r_rodada_id d) r.

Definition excluir_rodada (db : DB) (rodada_id : string) : DB * list FlashAviso :=
  match Bson.of_str rodada_id with
  | None => (db, [(danger, ExcluirRodadaIdInvalido)])       (* InvalidId *)
  | Some rodada_object_id =>
      match delete_one (by_id rodada_object_id) (rodadas_collection db) with
      | (rodadas', true) =>
          (mkDB (usuarios_collection db) rodadas'
                (delete_many (da_rodada rodada_object_id) (palpites_collection db))
                (delete_many (registro_da_rodada rodada_object_id)
                   (ranking_collection db)),
           [(success, RodadaExcluida)])
      | (_, false) => (db, [(danger, ExcluirRodadaNaoEncontrada)])
      end
  end.

(** ** [strftime] and the comparison of stored deadlines as text *)

(** The decimal digit [d] as a character. *)
Definition digit_char (d : Z) : ascii := ascii_of_N (Z.to_N (48 + d)).

(** [n] written with exactly [w] decimal digits, zero-padded. *)
Fixpoint dec (w : nat) (n : Z) : string :=
  match w with
  | O => EmptyString
  | S w' =>
      String (digit_char (n / 10 ^ Z.of_nat w')) (dec w' (n mod 10 ^ Z.of_nat w'))
  end.

(** [d.strftime('%Y-%m-%dT%H:%M')]. Every directive is zero-padded; for
    [%Y] this is what the C library does for the years 1000 to 9999, the only
    ones the theorems use. *)
Definition strftime (d : datetime) : string :=
  (dec 4 (Datetime.year d) ++ "-" ++ dec 2 (Datetime.month d) ++ "-"
   ++ dec 2 (Datetime.day d) ++ "T" ++ dec 2 (Datetime.hour d) ++ ":"
   ++ dec 2 (Datetime.minute d))%string.

(** The fields of a [datetime] object are within their ranges, and the year
    has four digits. *)
Definition data_valida (d : datetime) : Prop :=
  1000 <= Datetime.year d <= 9999 /\ 1 <= Datetime.month d <= 12 /\
  1 <= Datetime.day d <= 31 /\ 0 <= Datetime.hour d <= 23 /\
  0 <= Datetime.minute d <= 59 /\ 0 <= Datetime.second d <= 59 /\
  0 <= Datetime.microsecond d <= 999999.

(** [d] with its seconds and microseconds dropped. *)
Definition no_minuto (d : datetime) : datetime :=
  Datetime.mkDatetime (Datetime.year d) (Datetime.month d) (Datetime.day d)
    (Datetime.hour d) (Datetime.minute d) 0 0.

(** The filter [{'data_limite_apostas': {'$gte': agora_str}}]: strings are
    compared byte by byte. *)
Definition prazo_gte (agora_str : string) (r : Rodada) : bool :=
  negb (String.ltb (data_limite_apostas r) agora_str).

(** ** [get_proxima_rodada_aberta] *)

(** [find_one(filter, sort=[('numero', 1)])]: the first match in ascending
    order of the number. *)
Definition get_proxima_rodada_aberta (db : DB) (agora : datetime) : option Rodada :=
  let agora_str := strftime agora in
  List.find (prazo_gte agora_str) (ordenar_por numero_asc (rodadas_collection db)).

(** ** [admin_status_apostas] *)

(** One line of [lista_status]: [nome], [usuario], [apostou]. *)
Definition Status : Type := (string * string * bool)%type.

Definition status_do_usuario (db : DB) (rodada_id : ObjectId) (u : Usuario) : Status :=
  (nome u, usuario u,
   match Mongo.find_one (do_usuario_na_rodada (usuario_id_ u) rodada_id)
           (palpites_collection db) with
   | Some _ => true
   | None => false
   end).

(** The order of the keys [(apostou, nome)]: [False] before [True], then by
    name. *)
Definition status_leb (a b : Status) : bool :=
  match snd a, snd b with
  | false, true => true
  | true, false => false
  | _, _ => String.leb (fst (fst a)) (fst (fst b))
  end.

(** The handler either flashes a warning and redirects (left) or renders
    [lista_status] and the number of the round (right). *)
Definition admin_status_apostas (db : DB) (agora : datetime)
  : FlashAviso + list Status * Z :=
  match get_proxima_rodada_aberta db agora with
  | None => inl (warning, NenhumaRodadaAberta)
  | Some rodada_aberta =>
      let rodada_id := rodada_id_ rodada_aberta in
      let todos_usuarios :=
        Mongo.find (fun u => negb (is_admin u)) (usuarios_collection db) in
      let lista_status := map (status_do_usuario db rodada_id) todos_usuarios in
      inr (ordenar_por status_leb lista_status, numero rodada_aberta)
  end.

(** ** What the round handlers keep *)

(** The part of a match that recording a result does not touch. *)
Definition esqueleto_jogo (j : Jogo) : ObjectId * ObjectId * ObjectId :=
  (id_jogo j, time_casa_id j, time_visitante_id j).

(** The part of a round that recording results does not touch. *)
Definition esqueleto (r : Rodada)
  : ObjectId * Z * string * bool * list (ObjectId * ObjectId * ObjectId) :=
  (rodada_id_ r, numero r, data_limite_apostas r, processada r,
   map esqueleto_jogo (jogos r)).

(** No two stored rounds share a number, and every stored deadline parses. *)
Definition rodadas_bem_formadas (db : DB) : Prop :=
  NoDup (map numero (rodadas_collection db)) /\
  Forall (fun r => prazo_valido r = true) (rodadas_collection db).

(** Both score fields of a match are present and hold integer literals
    that fit in 8 bytes. *)
Definition placar_completo (form : Form) (j : Jogo) : Prop :=
  exists a b : Z,
    placar_ou_none (form_get form ("placar_casa_" ++ Bson.str (id_jogo j)))
      = Some (Some a) /\
    placar_ou_none (form_get form ("placar_visitante_" ++ Bson.str (id_jogo j)))
      = Some (Some b) /\
    Bson.int_8_bytes a = true /\ Bson.int_8_bytes b = true.

(** * Teams *)

(** A document of [times_collection], as [cadastrar_time] writes it. *)
Record TimeDoc := mkTimeDoc {
  time_id_ : ObjectId;
  time_nome : string;
  sigla : string;
  escudo_base64 : option string }.

Definition time_by_id (oid : ObjectId) (t : TimeDoc) : bool :=
  Bson.eqb (time_id_ t) oid.

(** The filter
    [{'$or': [{'jogos.time_casa_id': t}, {'jogos.time_visitante_id': t}]}]:
    some match of the round has [t] at home, or some match has it away. *)
Definition escalado (t : ObjectId) (r : Rodada) : bool :=
  existsb (fun j => Bson.eqb (time_casa_id j) t) (jogos r)
  || existsb (fun j => Bson.eqb (time_visitante_id j) t) (jogos r).

(** ** [excluir_time] *)

(** The handler reads the rounds and writes the teams only. The exception
    of [ObjectId(time_id)] is caught. *)
Definition excluir_time (times : list TimeDoc) (db : DB) (time_id : string)
  : list TimeDoc * list FlashAviso :=
  match Bson.of_str time_id with
  | None => (times, [(danger, ExcluirTimeIdInvalido)])
  | Some time_object_id =>
      match Mongo.find_one (escalado time_object_id) (rodadas_collection db) with
      | Some _ => (times, [(danger, TimeEscalado)])
      | None =>
          match delete_one (time_by_id time_object_id) times with
          | (times', true) => (times', [(success, TimeExcluido)])
          | (times', false) => (times', [(danger, ExcluirTimeNaoEncontrado)])
          end
      end
  end.

(** ** [get_time_sigla] *)

Definition get_time_sigla (times : list TimeDoc) (time_id_str : string) : string :=
  match Bson.of_str time_id_str with
  | None => "???"
  | Some oid =>
      match Mongo.find_one (time_by_id oid) times with
      | Some time => sigla time
      | None => "???"
      end
  end.

(** Every team a stored round refers to is stored. *)
Definition times_referenciados (times : list TimeDoc) (db : DB) : Prop :=
  forall r j, In r (rodadas_collection db) -> In j (jogos r) ->
    (exists t, Mongo.find_one (time_by_id (time_casa_id j)) times = Some t) /\
    (exists t, Mongo.find_one (time_by_id (time_visitante_id j)) times = Some t).

(** * Documents as Python values *)

(** Values that are neither containers, nor ObjectIds, nor strings. *)
Inductive Atomo :=
  | AInt (n : Z)
  | ABool (b : bool)
  | ANone
  | AData (d : datetime).

(** What [serialize_mongo_object] tells apart: [dict], [list], and the
    rest. A [dict] is the list of its items, in order; a key occurs once. *)
#[local] Unset Elimination Schemes.
Inductive Valor :=
  | VOid (o : ObjectId)
  | VStr (s : string)
  | VAtomo (a : Atomo)
  | VList (l : list Valor)
  | VDict (d : list (string * Valor)).
#[local] Set Elimination Schemes.

Section Serializar.

(** [str(v)] for the values that are neither ObjectIds nor strings. *)
Variable py_str : Valor -> string.

(** [str(v)] *)
Definition str_de (v : Valor) : string :=
  match v with
  | VOid o => Bson.str o
  | VStr s => s
  | _ => py_str v
  end.

(** ** [serialize_mongo_object] *)

(** The value under ['_id'] is replaced by its text before the loop over
    the items, and the loop hands a string back as it is; every other value
    goes through the recursive call. *)
Fixpoint serialize_mongo_object (data : Valor) : Valor :=
  match data with
  | VDict d =>
      VDict (map (fun item : string * Valor =>
                    let (key, value) := item in
                    (key, if String.eqb key "_id" then VStr (str_de value)
                          else serialize_mongo_object value)) d)
  | VList l => VList (map serialize_mongo_object l)
  | _ => data
  end.

End Serializar.

(** No [dict] inside [data] has the key ['_id']. *)
Fixpoint sem_chave_id (data : Valor) : bool :=
  match data with
  | VDict d =>
      forallb (fun item : string * Valor =>
                 let (key, value) := item in
                 negb (String.eqb key "_id") && sem_chave_id value) d
  | VList l => forallb sem_chave_id l
  | _ => true
  end.

(** No [dict] inside [data] holds anything but a string under ['_id']. *)
Fixpoint id_em_texto (data : Valor) : bool :=
  match data with
  | VDict d =>
      forallb (fun item : string * Valor =>
                 let (key, value) := item in
                 if String.eqb key "_id"
                 then match value with VStr _ => true | _ => false end
                 else id_em_texto value) d
  | VList l => forallb id_em_texto l
  | _ => true
  end.

Definition v_placar (p : option Z) : Valor :=
  match p with
  | Some n => VAtomo (AInt n)
  | None => VAtomo ANone
  end.

(** A match as [cadastrar_rodada] stores it. *)
Definition doc_jogo (j : Jogo) : Valor :=
  VDict [("id_jogo", VOid (id_jogo j));
         ("time_casa_id", VOid (time_casa_id j));
         ("time_visitante_id", VOid (time_visitante_id j));
         ("placar_casa", v_placar (placar_casa j));
         ("placar_visitante", v_placar (placar_visitante j));
         ("finalizado", VAtomo (ABool (finalizado j)))]%string.

(** The fields of a round that [cadastrar_rodada] writes. *)
Definition campos_rodada (r : Rodada) : list (string * Valor) :=
  [("numero", VAtomo (AInt (numero r)));
   ("data_limite_apostas", VStr (data_limite_apostas r));
   ("jogos", VList (map doc_jogo (jogos r)));
   ("processada", VAtomo (ABool (processada r)))]%string.

(** A round as the driver returns it. *)
Definition doc_rodada (r : Rodada) : Valor :=
  VDict (("_id", VOid (rodada_id_ r))%string :: campos_rodada r).

(** * The bettor's own predictions *)

(** ** [get_time_by_id] *)

(** What the function is called with: [None], a string or an ObjectId. *)
Inductive TimeId :=
  | IdNone
  | IdStr (s : string)
  | IdOid (o : ObjectId).

(** The [dict] the function returns; ['_id'] is present for a stored team
    only. Texts are kept as UTF-8. *)
Record TimeView := mkTimeView {
  tv_id : option string;
  tv_nome : string;
  tv_sigla : string;
  tv_escudo_base64 : option string }.

(** [not time_id] *)
Definition id_vazio (time_id : TimeId) : bool :=
  match time_id with
  | IdNone => true
  | IdStr s => String.eqb s ""
  | IdOid _ => false
  end.

(** [ObjectId(time_id)]; [None] stands for [InvalidId]. *)
Definition objectid_de (time_id : TimeId) : option ObjectId :=
  match time_id with
  | IdNone => None
  | IdStr s => Bson.of_str s
  | IdOid o => Some o
  end.

(** [serialize_mongo_object(time_data)] on a team document: the identifier
    becomes text, the other fields are strings or [None]. *)
Definition serializar_time (t : TimeDoc) : TimeView :=
  mkTimeView (Some (Bson.str (time_id_ t))) (time_nome t) (sigla t)
    (escudo_base64 t).

Definition get_time_by_id (times : list TimeDoc) (time_id : TimeId) : TimeView :=
  if id_vazio time_id then mkTimeView None "Time Inválido" "???" None
  else
    match objectid_de time_id with
    | None => mkTimeView None "Time Inválido" "ID Inválido" None
    | Some time_object_id =>
        match Mongo.find_one (time_by_id time_object_id) times with
        | Some time_data => serializar_time time_data
        | None => mkTimeView None "Time Desconhecido" "N/A" None
        end
    end.

(** ** [minhas_apostas] *)

(** An entry of a prediction as the page gets it: the keys ['time_casa']
    and ['time_visitante'] are added when the match is found in the round. *)
Record EntradaAposta := mkEntradaAposta {
  ea_palpite : PalpiteJogo;
  ea_times : option (TimeView * TimeView) }.

(** One element of [palpites_com_dados_completos]. *)
Record MinhaAposta := mkMinhaAposta {
  ma_rodada_numero : Z;
  ma_data_criacao : datetime;
  ma_data_limite : string;
  ma_palpites : list EntradaAposta }.

(** The body of the inner loop; the match is looked up as in
    [calcular_ranking], by the text of its identifier. *)
Definition anexar_times (times : list TimeDoc) (rodada : Rodada) (p : PalpiteJogo)
  : EntradaAposta :=
  match jogo_oficial_de rodada (pj_id_jogo p) with
  | Some jogo_original =>
      mkEntradaAposta p
        (Some (get_time_by_id times (IdOid (time_casa_id jogo_original)),
               get_time_by_id times (IdOid (time_visitante_id jogo_original))))
  | None => mkEntradaAposta p None
  end.

(** The outer loop; a prediction whose round is not stored is skipped. *)
Fixpoint minhas_apostas_laco (times : list TimeDoc) (rodadas : list Rodada)
  (ps : list Palpite) : list MinhaAposta :=
  match ps with
  | [] => []
  | palpite :: ps' =>
      match Mongo.find_one (by_id (p_rodada_id palpite)) rodadas with
      | None => minhas_apostas_laco times rodadas ps'
      | Some rodada =>
          mkMinhaAposta (numero rodada) (data_criacao palpite)
            (data_limite_apostas rodada)
            (map (anexar_times times rodada) (palpites palpite))
          :: minhas_apostas_laco times rodadas ps'
      end
  end.

Definition palpite_do_usuario (u : ObjectId) (p : Palpite) : bool :=
  Bson.eqb (p_usuario_id p) u.

(** [sort([('data_criacao', -1)])] *)
Definition data_desc (a b : Palpite) : bool :=
  Datetime.geb (data_criacao a) (data_criacao b).

(** [login_required] redirects a request without a session (left). The
    [InvalidId] of [ObjectId(session['usuario_id'])] is not caught: [inr None]
    stands for the failed request. *)
Definition minhas_apostas (times : list TimeDoc) (db : DB)
  (session_usuario_id : option string) : FlashAviso + option (list MinhaAposta) :=
  match session_usuario_id with
  | None => inl (danger, PrecisaEstarLogado)
  | Some s =>
      match Bson.of_str s with
      | None => inr None
      | Some usuario_object_id =>
          let palpites_do_usuario :=
            ordenar_por data_desc
              (Mongo.find (palpite_do_usuario usuario_object_id)
                 (palpites_collection db)) in
          inr (Some (minhas_apostas_laco times (rodadas_collection db)
                       palpites_do_usuario))
      end
  end.

(** The round of a prediction is stored. *)
Definition rodada_existe (db : DB) (p : Palpite) : bool :=
  match Mongo.find_one (by_id (p_rodada_id p)) (rodadas_collection db) with
  | Some _ => true
  | None => false
  end.

Module Elenco.

Definition flamengo : TimeDoc := mkTimeDoc Exemplo.fla "Flamengo" "FLA" None.
Definition palmeiras : TimeDoc := mkTimeDoc Exemplo.pal "Palmeiras" "PAL" None.
Definition santos : TimeDoc := mkTimeDoc Exemplo.san "Santos" "SAN" None.
Definition corinthians : TimeDoc := mkTimeDoc Exemplo.cor "Corinthians" "COR" None.
Definition gremio_str : string := "93e000000000000000000000".
Definition gremio : TimeDoc :=
  mkTimeDoc (Bson.mkObjectId gremio_str) "Gremio" "GRE" None.

Definition times : list TimeDoc :=
  [flamengo; palmeiras; santos; corinthians; gremio].

End Elenco.

(** * Properties *)

Lemma resultado_outcome (a b c d : Z) :
  ((if a >? b then 1 else if a <? b then -1 else 0)
   =? (if c >? d then 1 else if c <? d then -1 else 0)) = true
  <-> outcome_sign a b = outcome_sign c d.
Proof.
  unfold outcome_sign.
  rewrite !Z.gtb_ltb, !Z.ltb_compare, (Z.compare_antisym a b), (Z.compare_antisym c d).
  destruct (a ?= b), (c ?= d); cbn; split; intro H; congruence.
Qed.

(** C1: an absent input scores 0; an exact match of both scores 10; failing
    that, equal outcome-signs score 5; everything else scores 0. *)
Theorem calcular_pontuacao_jogo_tiers (oh oa ph pa : option Z) :
  ((oh = None \/ oa = None \/ ph = None \/ pa = None) ->
     calcular_pontuacao_jogo oh oa ph pa = 0) /\
  (forall a b c d : Z,
     oh = Some a -> oa = Some b -> ph = Some c -> pa = Some d ->
     ((a = c /\ b = d) -> calcular_pontuacao_jogo oh oa ph pa = 10) /\
     (~ (a = c /\ b = d) -> outcome_sign a b = outcome_sign c d ->
        calcular_pontuacao_jogo oh oa ph pa = 5) /\
     (~ (a = c /\ b = d) -> outcome_sign a b <> outcome_sign c d ->
        calcular_pontuacao_jogo oh oa ph pa = 0)).
Proof.
  split.
  - intros H. destruct oh, oa, ph, pa; cbn; try reflexivity;
      destruct H as [H|[H|[H|H]]]; discriminate.
  - intros a b c d -> -> -> ->. unfold calcular_pontuacao_jogo.
    destruct ((a =? c) && (b =? d)) eqn:E.
    + apply andb_true_iff in E as [E1 E2].
      apply Z.eqb_eq in E1, E2. repeat split; intros; tauto.
    + assert (N : ~ (a = c /\ b = d)).
      { intros [-> ->]. rewrite !Z.eqb_refl in E. discriminate. }
      repeat split; intros.
      * tauto.
      * cbv zeta. apply resultado_outcome in H0. rewrite H0. reflexivity.
      * cbv zeta.
        destruct ((if a >? b then 1 else if a <? b then -1 else 0)
                  =? (if c >? d then 1 else if c <? d then -1 else 0)) eqn:R;
          [apply resultado_outcome in R; tauto | reflexivity].
Qed.

Lemma calcular_pontuacao_jogo_tiers_witness :
  calcular_pontuacao_jogo (Some 2) (Some 1) (Some 1) (Some 0) = 5.
Proof.
  destruct (calcular_pontuacao_jogo_tiers (Some 2) (Some 1) (Some 1) (Some 0))
    as [_ H].
  destruct (H 2 1 1 0 eq_refl eq_refl eq_refl eq_refl) as (_ & H5 & _).
  apply H5.
  - intros [E _]. discriminate E.
  - reflexivity.
Defined.

(** C9: relabelling home and away on both the official and the predicted
    pair leaves the score unchanged. *)
Theorem calcular_pontuacao_jogo_swap (oh oa ph pa : Z) :
  calcular_pontuacao_jogo (Some oh) (Some oa) (Some ph) (Some pa)
  = calcular_pontuacao_jogo (Some oa) (Some oh) (Some pa) (Some ph).
Proof.
  unfold calcular_pontuacao_jogo.
  rewrite (andb_comm (oh =? ph)).
  destruct ((oa =? pa) && (oh =? ph)); [reflexivity|].
  cbv zeta. rewrite !Z.gtb_ltb.
  destruct (Z.ltb_spec oa oh), (Z.ltb_spec oh oa),
           (Z.ltb_spec pa ph), (Z.ltb_spec ph pa); cbn; try reflexivity; lia.
Qed.

(** ** Identifiers, dates and collections *)

Lemma bson_eqb_eq (a b : ObjectId) : Bson.eqb a b = true <-> a = b.
Proof.
  unfold Bson.eqb. rewrite String.eqb_eq. destruct a, b; cbn.
  split; congruence.
Qed.

Lemma bson_eqb_refl (a : ObjectId) : Bson.eqb a a = true.
Proof. apply bson_eqb_eq. reflexivity. Qed.

Lemma lex_antisym (a b : list Z) :
  Datetime.lex b a = CompOpp (Datetime.lex a b).
Proof.
  revert b. induction a as [|x a IH]; intros [|y b]; cbn; try reflexivity.
  rewrite (Z.compare_antisym x y). destruct (x ?= y); cbn; auto.
Qed.

Lemma datetime_compare_antisym (a b : datetime) :
  Datetime.compare b a = CompOpp (Datetime.compare a b).
Proof. apply lex_antisym. Qed.

(** [agora >= limite] holds exactly when [limite] is at or before [agora]. *)
Lemma datetime_geb_iff (agora limite : datetime) :
  Datetime.geb agora limite = true <-> Datetime.compare limite agora <> Gt.
Proof.
  unfold Datetime.geb, Datetime.ltb.
  rewrite (datetime_compare_antisym agora limite).
  destruct (Datetime.compare agora limite); cbn; split; congruence.
Qed.

Lemma datetime_geb_false_iff (agora limite : datetime) :
  Datetime.geb agora limite = false <-> Datetime.compare agora limite = Lt.
Proof.
  unfold Datetime.geb, Datetime.ltb.
  destruct (Datetime.compare agora limite); cbn; split; congruence.
Qed.

Section CollectionFacts.
Context {A : Type}.
Variables (filter : A -> bool) (set : A -> A).
Hypothesis set_keeps : forall d, filter d = true -> filter (set d) = true.

Lemma find_one_update_one (c : list A) :
  Mongo.find_one filter (Mongo.update_one filter set c)
  = option_map set (Mongo.find_one filter c).
Proof.
  induction c as [|d c IH]; cbn; [reflexivity|].
  destruct (filter d) eqn:E; cbn.
  - rewrite (set_keeps d E). reflexivity.
  - rewrite E. exact IH.
Qed.

Lemma find_one_upsert_one (novo : A) (c : list A) :
  filter novo = true ->
  Mongo.find_one filter (Mongo.upsert_one filter set novo c)
  = Some (match Mongo.find_one filter c with
          | Some d => set d
          | None => novo
          end).
Proof.
  intros Hn. induction c as [|d c IH]; cbn.
  - rewrite Hn. reflexivity.
  - destruct (filter d) eqn:E; cbn.
    + rewrite (set_keeps d E). reflexivity.
    + rewrite E. exact IH.
Qed.
End CollectionFacts.

(** ** Prediction submission *)

Lemma placar_ou_zero_em_branco (s : option string) :
  em_branco s -> placar_ou_zero s = Some 0.
Proof.
  intros [->|(t & -> & E)]; cbn; [reflexivity|].
  rewrite E. cbn. rewrite andb_false_r. reflexivity.
Qed.

Lemma ler_palpites_entries (form : Form) (js : list Jogo) (ps : list PalpiteJogo) :
  ler_palpites form js = Some ps ->
  Forall2
    (fun jogo e =>
       pj_id_jogo e = Bson.str (id_jogo jogo) /\
       placar_ou_zero (form_get form ("placar_casa_" ++ Bson.str (id_jogo jogo)))
         = Some (pj_placar_casa e) /\
       placar_ou_zero (form_get form ("placar_visitante_" ++ Bson.str (id_jogo jogo)))
         = Some (pj_placar_visitante e))
    js ps.
Proof.
  revert ps. induction js as [|jogo js IH]; cbn -[String.append]; intros ps H.
  - injection H as <-. constructor.
  - destruct (placar_ou_zero (form_get form _)) as [casa|] eqn:Ec; [|discriminate].
    destruct (placar_ou_zero (form_get form ("placar_visitante_" ++ _)))
      as [visitante|] eqn:Ev; [|discriminate].
    destruct (ler_palpites form js) as [resto|]; [|discriminate].
    injection H as <-. constructor; [cbn -[String.append]; auto | apply IH; reflexivity].
Qed.

(** What a submission that ends in the success message has done. *)
Lemma salvar_aposta_sucesso db sess form agora agora' rodada_id db' n :
  salvar_aposta db sess form agora agora' rodada_id
    = (db', [(success, PalpitesSalvos n)]) ->
  exists u oid rodada limite ps,
    Bson.of_str sess = Some u /\ Bson.of_str rodada_id = Some oid /\
    Mongo.find_one (by_id oid) (rodadas_collection db) = Some rodada /\
    Datetime.strptime (data_limite_apostas rodada) = Some limite /\
    Datetime.compare agora limite = Lt /\
    ler_palpites form (jogos rodada) = Some ps /\
    Mongo.find_one (do_usuario_na_rodada u oid) (palpites_collection db')
      = Some (mkPalpite u oid ps agora').
Proof.
  unfold salvar_aposta.
  destruct (Bson.of_str rodada_id) as [oid|] eqn:Eo; [|discriminate].
  destruct (Mongo.find_one _ _) as [rodada|] eqn:Er; [|discriminate].
  destruct (Datetime.strptime _) as [limite|] eqn:El; [|discriminate].
  destruct (Datetime.geb agora limite) eqn:Eg; [discriminate|].
  destruct (Bson.of_str sess) as [u|] eqn:Eu; [|discriminate].
  destruct (ler_palpites _ _) as [ps|] eqn:Ep; [|discriminate].
  destruct (forallb palpite_codificavel ps); [|discriminate].
  intros H. injection H as <- _.
  exists u, oid, rodada, limite, ps. repeat split; auto.
  - apply datetime_geb_false_iff, Eg.
  - cbn. rewrite find_one_upsert_one.
    + destruct (Mongo.find_one (do_usuario_na_rodada u oid) (palpites_collection db))
        as [d|] eqn:Ed; [|reflexivity].
      apply find_some in Ed as [_ Ed]. unfold do_usuario_na_rodada in Ed.
      apply andb_true_iff in Ed as [E1 E2].
      apply bson_eqb_eq in E1, E2. rewrite E1, E2. reflexivity.
    + intros d H. exact H.
    + unfold do_usuario_na_rodada. cbn. rewrite !bson_eqb_refl. reflexivity.
Qed.

(** C5: a submission made when the deadline is at or before the current
    time is rejected and leaves the database, hence any stored prediction,
    as it was; the database changes only when the current time is strictly
    before the deadline. *)
Theorem salvar_aposta_prazo db sess form agora agora' rodada_id :
  (forall oid rodada limite,
     Bson.of_str rodada_id = Some oid ->
     Mongo.find_one (by_id oid) (rodadas_collection db) = Some rodada ->
     Datetime.strptime (data_limite_apostas rodada) = Some limite ->
     Datetime.compare limite agora <> Gt ->
     salvar_aposta db sess form agora agora' rodada_id
     = (db, [(danger, PrazoEncerrado (numero rodada) limite)])) /\
  (fst (salvar_aposta db sess form agora agora' rodada_id) <> db ->
   exists oid rodada limite,
     Bson.of_str rodada_id = Some oid /\
     Mongo.find_one (by_id oid) (rodadas_collection db) = Some rodada /\
     Datetime.strptime (data_limite_apostas rodada) = Some limite /\
     Datetime.compare agora limite = Lt).
Proof.
  split.
  - intros oid rodada limite Ho Hr Hl Hc. unfold salvar_aposta.
    rewrite Ho, Hr, Hl.
    apply datetime_geb_iff in Hc. rewrite Hc. reflexivity.
  - unfold salvar_aposta.
    destruct (Bson.of_str rodada_id) as [oid|]; [|intros []; reflexivity].
    destruct (Mongo.find_one _ _) as [rodada|] eqn:Er; [|intros []; reflexivity].
    destruct (Datetime.strptime _) as [limite|] eqn:El; [|intros []; reflexivity].
    destruct (Datetime.geb agora limite) eqn:Eg; [intros []; reflexivity|].
    intros _. exists oid, rodada, limite. repeat split; auto.
    apply datetime_geb_false_iff, Eg.
Qed.

Lemma salvar_aposta_prazo_witness :
  salvar_aposta Exemplo.db_apostada Exemplo.ana_str Exemplo.form_negativa
    Exemplo.no_limite Exemplo.no_limite Exemplo.rodada1_str
  = (Exemplo.db_apostada, [(danger, PrazoEncerrado 1 Exemplo.limite)]).
Proof.
  apply (proj1 (salvar_aposta_prazo Exemplo.db_apostada Exemplo.ana_str
                  Exemplo.form_negativa Exemplo.no_limite Exemplo.no_limite
                  Exemplo.rodada1_str)
           Exemplo.rodada1 Exemplo.rodada_aberta Exemplo.limite).
  - reflexivity.
  - reflexivity.
  - reflexivity.
  - vm_compute. discriminate.
Defined.

(** C10: in a submission that is stored, a score whose form field is missing
    or blank is recorded as 0, in an entry that carries the match's
    identity. *)
Theorem salvar_aposta_placar_omitido db sess form agora agora' rodada_id db' n :
  salvar_aposta db sess form agora agora' rodada_id
    = (db', [(success, PalpitesSalvos n)]) ->
  exists u oid rodada p,
    Bson.of_str sess = Some u /\ Bson.of_str rodada_id = Some oid /\
    Mongo.find_one (by_id oid) (rodadas_collection db) = Some rodada /\
    Mongo.find_one (do_usuario_na_rodada u oid) (palpites_collection db') = Some p /\
    Forall2
      (fun jogo e =>
         pj_id_jogo e = Bson.str (id_jogo jogo) /\
         (em_branco (form_get form ("placar_casa_" ++ Bson.str (id_jogo jogo))) ->
          pj_placar_casa e = 0) /\
         (em_branco (form_get form ("placar_visitante_" ++ Bson.str (id_jogo jogo))) ->
          pj_placar_visitante e = 0))
      (jogos rodada) (palpites p).
Proof.
  intros H.
  destruct (salvar_aposta_sucesso _ _ _ _ _ _ _ _ H)
    as (u & oid & rodada & limite & ps & Hu & Ho & Hr & _ & _ & Hp & Hf).
  exists u, oid, rodada, (mkPalpite u oid ps agora').
  repeat split; auto. cbn [palpites].
  apply ler_palpites_entries in Hp.
  eapply Forall2_impl; [|exact Hp].
  cbv beta. intros jogo e (Hi & Hc & Hv). repeat split; auto.
  - intros B. rewrite (placar_ou_zero_em_branco _ B) in Hc. congruence.
  - intros B. rewrite (placar_ou_zero_em_branco _ B) in Hv. congruence.
Qed.

Lemma salvar_aposta_placar_omitido_witness :
  exists p,
    Mongo.find_one (do_usuario_na_rodada Exemplo.bia Exemplo.rodada1)
      (palpites_collection
         (fst (salvar_aposta Exemplo.db_apostada Exemplo.bia_str
                 Exemplo.form_parcial Exemplo.cedo Exemplo.cedo
                 Exemplo.rodada1_str))) = Some p /\
    map pj_placar_casa (palpites p) = [3; 0] /\
    map pj_placar_visitante (palpites p) = [0; 0].
Proof.
  destruct (salvar_aposta_placar_omitido Exemplo.db_apostada Exemplo.bia_str
              Exemplo.form_parcial Exemplo.cedo Exemplo.cedo Exemplo.rodada1_str
              (fst (salvar_aposta Exemplo.db_apostada Exemplo.bia_str
                      Exemplo.form_parcial Exemplo.cedo Exemplo.cedo
                      Exemplo.rodada1_str)) 1 eq_refl)
    as (u & oid & rodada & p & Hu & Ho & Hr & Hp & _).
  injection Hu as <-. injection Ho as <-.
  exists p. split; [exact Hp|].
  vm_compute in Hp. injection Hp as <-. split; reflexivity.
Defined.

(** C6, as the code runs: a submission with the home score [-1] is
    accepted, and the stored prediction holds the negative score. *)
Theorem salvar_aposta_aceita_placar_negativo :
  exists db' p e,
    salvar_aposta Exemplo.db_aberta Exemplo.ana_str Exemplo.form_negativa
      Exemplo.cedo Exemplo.cedo Exemplo.rodada1_str
    = (db', [(success, PalpitesSalvos 1)]) /\
    Mongo.find_one (do_usuario_na_rodada Exemplo.ana Exemplo.rodada1)
      (palpites_collection db') = Some p /\
    In e (palpites p) /\ pj_placar_casa e = -1.
Proof.
  eexists _, _, _. split; [vm_compute; reflexivity|].
  split; [vm_compute; reflexivity|].
  split; [left; reflexivity | reflexivity].
Qed.

(** ** The scoring action *)

Lemma jogos_nao_finalizados_nil (js : list Jogo) :
  Forall (fun j => finalizado j = true) js ->
  List.filter (fun j => Bool.eqb (finalizado j) false) js = [].
Proof.
  induction 1 as [|j js Hj _ IH]; cbn; [reflexivity|].
  rewrite Hj. cbn. exact IH.
Qed.

Lemma jogos_nao_finalizados_cons (js : list Jogo) (j : Jogo) :
  In j js -> finalizado j = false ->
  List.filter (fun j => Bool.eqb (finalizado j) false) js <> [].
Proof.
  intros Hin Hf E.
  assert (H : In j (List.filter (fun j => Bool.eqb (finalizado j) false) js)).
  { apply filter_In. split; [exact Hin | rewrite Hf; reflexivity]. }
  rewrite E in H. exact H.
Qed.

(** What a scoring run that ends in the success message has seen. *)
Lemma calcular_ranking_sucesso db agora rodada_id n k :
  snd (calcular_ranking db agora rodada_id) = [(success, CalculoConcluido n k)] ->
  exists oid rodada,
    Bson.of_str rodada_id = Some oid /\
    Mongo.find_one (by_id oid) (rodadas_collection db) = Some rodada /\
    List.filter (fun j => Bool.eqb (finalizado j) false) (jogos rodada) = [] /\
    processada rodada = false /\ n = numero rodada /\
    fst (calcular_ranking db agora rodada_id)
    = mkDB (usuarios_collection db)
        (Mongo.update_one (by_id oid)
           (fun r => mkRodada (rodada_id_ r) (numero r) (data_limite_apostas r)
                       (jogos r) true)
           (rodadas_collection db))
        (palpites_collection db)
        (fold_left (gravar_pontuacao rodada oid agora)
           (Mongo.find (da_rodada oid) (palpites_collection db))
           (ranking_collection db)).
Proof.
  unfold calcular_ranking.
  destruct (Bson.of_str rodada_id) as [oid|] eqn:Eo; [|discriminate].
  destruct (Mongo.find_one _ _) as [rodada|] eqn:Er; [|discriminate].
  destruct (List.filter _ (jogos rodada)) eqn:Ef; [|discriminate].
  destruct (processada rodada) eqn:Ep; [discriminate|].
  destruct (Mongo.find _ _) as [|p ps] eqn:Eps; [discriminate|].
  cbn [snd fst]. intros H. injection H as <- _.
  exists oid, rodada. repeat split; auto.
  rewrite Eps. reflexivity.
Qed.

(** C4: with every precondition met and no prediction for the round, the
    scoring action only reports it: the database is unchanged, so no score
    record is written and the round is not marked as processed. *)
Theorem calcular_ranking_sem_palpites db agora rodada_id oid rodada :
  Bson.of_str rodada_id = Some oid ->
  Mongo.find_one (by_id oid) (rodadas_collection db) = Some rodada ->
  Forall (fun j => finalizado j = true) (jogos rodada) ->
  processada rodada = false ->
  Mongo.find (da_rodada oid) (palpites_collection db) = [] ->
  calcular_ranking db agora rodada_id
  = (db, [(info, NenhumPalpiteEncontrado (numero rodada))]).
Proof.
  intros Ho Hr Hf Hp Hps. unfold calcular_ranking.
  rewrite Ho, Hr, (jogos_nao_finalizados_nil _ Hf), Hp, Hps. reflexivity.
Qed.

Lemma calcular_ranking_sem_palpites_witness :
  calcular_ranking Exemplo.db_sem_palpites Exemplo.tarde Exemplo.rodada1_str
  = (Exemplo.db_sem_palpites, [(info, NenhumPalpiteEncontrado 1)]).
Proof.
  apply (calcular_ranking_sem_palpites Exemplo.db_sem_palpites Exemplo.tarde
           Exemplo.rodada1_str Exemplo.rodada1 Exemplo.rodada_encerrada).
  - reflexivity.
  - reflexivity.
  - repeat constructor.
  - reflexivity.
  - reflexivity.
Defined.

(** C3: when the round does not exist, when one of its matches is not
    finalized, or when it is already processed, the scoring action flashes a
    danger or warning message and returns the database unchanged; run again
    after a successful run, it answers that the round is already processed
    and changes nothing. *)
Theorem calcular_ranking_precondicoes db agora rodada_id :
  ((Bson.of_str rodada_id = None \/
    exists oid, Bson.of_str rodada_id = Some oid /\
                Mongo.find_one (by_id oid) (rodadas_collection db) = None) ->
   exists m, calcular_ranking db agora rodada_id = (db, [(danger, m)])) /\
  (forall oid rodada,
     Bson.of_str rodada_id = Some oid ->
     Mongo.find_one (by_id oid) (rodadas_collection db) = Some rodada ->
     ((exists j, In j (jogos rodada) /\ finalizado j = false) ->
      calcular_ranking db agora rodada_id
      = (db, [(warning, JogoSemPlacarOficial (numero rodada))])) /\
     (processada rodada = true ->
      exists m, calcular_ranking db agora rodada_id = (db, [(warning, m)]) /\
                (Forall (fun j => finalizado j = true) (jogos rodada) ->
                 m = RodadaJaProcessada (numero rodada)))) /\
  (forall n k agora2,
     snd (calcular_ranking db agora rodada_id) = [(success, CalculoConcluido n k)] ->
     calcular_ranking (fst (calcular_ranking db agora rodada_id)) agora2 rodada_id
     = (fst (calcular_ranking db agora rodada_id),
        [(warning, RodadaJaProcessada n)])).
Proof.
  split; [|split].
  - intros [E|(oid & Eo & Er)]; unfold calcular_ranking.
    + rewrite E. eauto.
    + rewrite Eo, Er. eauto.
  - intros oid rodada Eo Er. split.
    + intros (j & Hin & Hf). unfold calcular_ranking. rewrite Eo, Er.
      pose proof (jogos_nao_finalizados_cons _ _ Hin Hf) as Hne.
      destruct (List.filter _ (jogos rodada)); [contradiction|reflexivity].
    + intros Hp. unfold calcular_ranking. rewrite Eo, Er, Hp.
      destruct (List.filter _ (jogos rodada)) as [|j l] eqn:Ef.
      * eexists. split; [reflexivity|]. reflexivity.
      * eexists. split; [reflexivity|].
        intros Hall. rewrite (jogos_nao_finalizados_nil _ Hall) in Ef.
        discriminate.
  - intros n k agora2 H.
    destruct (calcular_ranking_sucesso _ _ _ _ _ H)
      as (oid & rodada & Eo & Er & Ef & Ep & -> & ->).
    unfold calcular_ranking at 1. rewrite Eo. cbn [rodadas_collection].
    rewrite find_one_update_one by (intros d Hd; exact Hd).
    rewrite Er. cbn [option_map jogos processada numero]. rewrite Ef.
    reflexivity.
Qed.

Lemma calcular_ranking_precondicoes_witness :
  calcular_ranking Exemplo.db_parcial Exemplo.tarde Exemplo.rodada1_str
  = (Exemplo.db_parcial, [(warning, JogoSemPlacarOficial 1)]) /\
  calcular_ranking
    (fst (calcular_ranking Exemplo.db_encerrada Exemplo.tarde Exemplo.rodada1_str))
    Exemplo.tarde Exemplo.rodada1_str
  = (fst (calcular_ranking Exemplo.db_encerrada Exemplo.tarde Exemplo.rodada1_str),
     [(warning, RodadaJaProcessada 1)]).
Proof.
  split.
  - apply (proj1 (proj1 (proj2 (calcular_ranking_precondicoes Exemplo.db_parcial
              Exemplo.tarde Exemplo.rodada1_str))
              Exemplo.rodada1 Exemplo.rodada_parcial eq_refl eq_refl)).
    exists (mkJogo Exemplo.jogo2 Exemplo.san Exemplo.cor None None false).
    split; [right; left; reflexivity | reflexivity].
  - apply (proj2 (proj2 (calcular_ranking_precondicoes Exemplo.db_encerrada
              Exemplo.tarde Exemplo.rodada1_str)) 1 3%nat Exemplo.tarde).
    reflexivity.
Defined.

(** *** Score records written by the loop *)

Section UpsertFacts.
Context {A : Type}.
Variables (f g : A -> bool) (set : A -> A) (novo : A).

Lemma find_upsert_one_other (c : list A) :
  (forall d, f d = true -> g d = false /\ g (set d) = false) ->
  g novo = false ->
  Mongo.find g (Mongo.upsert_one f set novo c) = Mongo.find g c.
Proof.
  intros Hs Hn. unfold Mongo.find. induction c as [|d c IH]; cbn.
  - rewrite Hn. reflexivity.
  - destruct (f d) eqn:E; cbn.
    + destruct (Hs d E) as [-> ->]. reflexivity.
    + rewrite IH. reflexivity.
Qed.

Lemma length_find_upsert_one (c : list A) :
  (forall d, f d = true -> f (set d) = true) -> f novo = true ->
  List.length (Mongo.find f (Mongo.upsert_one f set novo c))
  = Nat.max 1 (List.length (Mongo.find f c)).
Proof.
  intros Hs Hn. unfold Mongo.find. induction c as [|d c IH]; cbn.
  - rewrite Hn. reflexivity.
  - destruct (f d) eqn:E; cbn.
    + rewrite (Hs d E). cbn. destruct (List.length _); reflexivity.
    + rewrite E. exact IH.
Qed.

Lemma find_one_hd (c : list A) :
  Mongo.find_one g c = hd_error (Mongo.find g c).
Proof.
  induction c as [|d c IH]; cbn; [reflexivity|].
  destruct (g d); [reflexivity | exact IH].
Qed.
End UpsertFacts.

Lemma pontuar_palpite_soma (rodada : Rodada) (p : Palpite) :
  pontuar_palpite rodada p = soma (map (pontos_da_entrada rodada) (palpites p)).
Proof.
  unfold pontuar_palpite.
  enough (H : forall l a,
             fold_left
               (fun pontuacao_total palpite_jogo =>
                  match jogo_oficial_de rodada (pj_id_jogo palpite_jogo) with
                  | Some jogo_oficial =>
                      pontuacao_total
                      + calcular_pontuacao_jogo
                          (placar_casa jogo_oficial) (placar_visitante jogo_oficial)
                          (Some (pj_placar_casa palpite_jogo))
                          (Some (pj_placar_visitante palpite_jogo))
                  | None => pontuacao_total
                  end) l a
             = a + soma (map (pontos_da_entrada rodada) l))
    by (rewrite H; lia).
  induction l as [|e l IH]; intros a; cbn [fold_left map soma fold_right].
  - lia.
  - rewrite IH. unfold pontos_da_entrada at 2. fold (soma (map (pontos_da_entrada rodada) l)).
    destruct (jogo_oficial_de rodada (pj_id_jogo e)); lia.
Qed.

(** The match found for an entry is a match of the round with the entry's
    identity; none is found only when the round has no such match. *)
Lemma jogo_oficial_de_spec (rodada : Rodada) (jogo_id : string) :
  match jogo_oficial_de rodada jogo_id with
  | Some j => In j (jogos rodada) /\ Bson.str (id_jogo j) = jogo_id
  | None => forall j, In j (jogos rodada) -> Bson.str (id_jogo j) <> jogo_id
  end.
Proof.
  unfold jogo_oficial_de.
  destruct (List.find _ _) as [j|] eqn:E.
  - apply find_some in E as [Hin He]. apply String.eqb_eq in He. auto.
  - intros j Hin He. apply (find_none _ _ E) in Hin.
    apply String.eqb_neq in Hin. contradiction.
Qed.

Section Gravar.
Variables (rodada : Rodada) (oid : ObjectId) (agora : datetime).

Lemma gravar_outros (u r : ObjectId) (c : list Pontuacao) (q : Palpite) :
  ~ (u = p_usuario_id q /\ r = oid) ->
  Mongo.find (do_usuario_no_ranking u r) (gravar_pontuacao rodada oid agora c q)
  = Mongo.find (do_usuario_no_ranking u r) c.
Proof.
  intros Hne.
  assert (K : forall a b : ObjectId,
             a = p_usuario_id q -> b = oid -> Bson.eqb a u && Bson.eqb b r = false).
  { intros a b -> ->.
    destruct (Bson.eqb (p_usuario_id q) u) eqn:E1; [|reflexivity].
    destruct (Bson.eqb oid r) eqn:E2; [|reflexivity].
    apply bson_eqb_eq in E1, E2. subst. tauto. }
  unfold gravar_pontuacao. apply find_upsert_one_other.
  - intros d Hd. unfold do_usuario_no_ranking in *. cbn.
    apply andb_true_iff in Hd as [E1 E2]. apply bson_eqb_eq in E1, E2.
    split; apply K; assumption.
  - unfold do_usuario_no_ranking. cbn. apply K; reflexivity.
Qed.

Lemma fold_gravar_outros (u r : ObjectId) (ps : list Palpite) (c : list Pontuacao) :
  ~ (r = oid /\ In u (map p_usuario_id ps)) ->
  Mongo.find (do_usuario_no_ranking u r)
    (fold_left (gravar_pontuacao rodada oid agora) ps c)
  = Mongo.find (do_usuario_no_ranking u r) c.
Proof.
  revert c. induction ps as [|q ps IH]; intros c Hne; cbn [fold_left].
  - reflexivity.
  - rewrite IH.
    + apply gravar_outros. intros [-> ->]. apply Hne. split; [reflexivity|].
      left. reflexivity.
    + intros [-> Hin]. apply Hne. split; [reflexivity|]. right. exact Hin.
Qed.

Lemma gravar_proprio (c : list Pontuacao) (q : Palpite) :
  exists d,
    Mongo.find_one (do_usuario_no_ranking (p_usuario_id q) oid)
      (gravar_pontuacao rodada oid agora c q) = Some d /\
    r_usuario_id d = p_usuario_id q /\ r_rodada_id d = oid /\
    pontuacao_total d = pontuar_palpite rodada q.
Proof.
  unfold gravar_pontuacao. rewrite find_one_upsert_one.
  - destruct (Mongo.find_one _ c) as [d|] eqn:E.
    + apply find_some in E as [_ E]. unfold do_usuario_no_ranking in E.
      apply andb_true_iff in E as [E1 E2]. apply bson_eqb_eq in E1, E2.
      eexists. split; [reflexivity|]. cbn. auto.
    + eexists. split; [reflexivity|]. cbn. auto.
  - intros d H. exact H.
  - unfold do_usuario_no_ranking. cbn. rewrite !bson_eqb_refl. reflexivity.
Qed.

Lemma gravar_um_registro (c : list Pontuacao) (q : Palpite) :
  List.length (Mongo.find (do_usuario_no_ranking (p_usuario_id q) oid)
                 (gravar_pontuacao rodada oid agora c q))
  = Nat.max 1 (List.length (Mongo.find (do_usuario_no_ranking (p_usuario_id q) oid) c)).
Proof.
  unfold gravar_pontuacao. apply length_find_upsert_one.
  - intros d H. exact H.
  - unfold do_usuario_no_ranking. cbn. rewrite !bson_eqb_refl. reflexivity.
Qed.

Lemma fold_gravar_proprio (ps : list Palpite) :
  NoDup (map p_usuario_id ps) ->
  forall (c : list Pontuacao) (p : Palpite), In p ps ->
  exists d,
    Mongo.find_one (do_usuario_no_ranking (p_usuario_id p) oid)
      (fold_left (gravar_pontuacao rodada oid agora) ps c) = Some d /\
    r_usuario_id d = p_usuario_id p /\ r_rodada_id d = oid /\
    pontuacao_total d = pontuar_palpite rodada p /\
    ((List.length (Mongo.find (do_usuario_no_ranking (p_usuario_id p) oid) c) <= 1)%nat ->
     List.length (Mongo.find (do_usuario_no_ranking (p_usuario_id p) oid)
                    (fold_left (gravar_pontuacao rodada oid agora) ps c)) = 1%nat).
Proof.
  induction ps as [|q ps IH]; intros Hnd c p Hin; [destruct Hin|].
  cbn [map] in Hnd. inversion Hnd as [|? ? Hq Hnd']; subst.
  cbn [fold_left]. destruct Hin as [->|Hin].
  - assert (Hne : ~ (oid = oid /\ In (p_usuario_id p) (map p_usuario_id ps)))
      by tauto.
    rewrite find_one_hd, (fold_gravar_outros _ _ _ _ Hne), <- find_one_hd.
    destruct (gravar_proprio c p) as (d & Hd & Hu & Hr & Ht).
    exists d. repeat split; auto.
    intros Hle. rewrite gravar_um_registro. lia.
  - destruct (IH Hnd' (gravar_pontuacao rodada oid agora c q) p Hin)
      as (d & Hd & Hu & Hr & Ht & Hc).
    exists d. repeat split; auto.
    intros Hle. apply Hc. rewrite gravar_outros; [exact Hle|].
    intros [E _]. apply Hq. rewrite <- E. apply in_map. exact Hin.
Qed.
End Gravar.

(** *** Predictions of a round have distinct users *)

Lemma upsert_one_palpite_keys (u r : ObjectId) (ps : list PalpiteJogo) (t : datetime)
  (c : list Palpite) (k : ObjectId * ObjectId) :
  In k (map chave_palpite
          (Mongo.upsert_one (do_usuario_na_rodada u r)
             (fun p => mkPalpite (p_usuario_id p) (p_rodada_id p) ps t)
             (mkPalpite u r ps t) c)) ->
  In k (map chave_palpite c) \/ k = (u, r).
Proof.
  induction c as [|d c IH]; cbn [Mongo.upsert_one map In].
  - intros [<-|[]]. right. reflexivity.
  - destruct (do_usuario_na_rodada u r d); cbn [map In].
    + intros [<-|H]; auto.
    + intros [<-|H]; auto. destruct (IH H); auto.
Qed.

Lemma upsert_one_palpite_NoDup (u r : ObjectId) (ps : list PalpiteJogo) (t : datetime)
  (c : list Palpite) :
  NoDup (map chave_palpite c) ->
  NoDup (map chave_palpite
           (Mongo.upsert_one (do_usuario_na_rodada u r)
              (fun p => mkPalpite (p_usuario_id p) (p_rodada_id p) ps t)
              (mkPalpite u r ps t) c)).
Proof.
  induction c as [|d c IH]; cbn [Mongo.upsert_one map]; intros H.
  - repeat constructor. intros [].
  - inversion H as [|? ? Hd Hc]; subst.
    destruct (do_usuario_na_rodada u r d) eqn:E; cbn [map].
    + constructor; assumption.
    + constructor; [|apply IH; exact Hc].
      intros Hin. apply upsert_one_palpite_keys in Hin as [Hin|Hk];
        [contradiction|].
      unfold chave_palpite in Hk. injection Hk as Hu Hr.
      unfold do_usuario_na_rodada in E. rewrite Hu, Hr, !bson_eqb_refl in E.
      discriminate.
Qed.

(** The upsert of [salvar_aposta] keeps one prediction per user and round. *)
Lemma salvar_aposta_palpites_ok db sess form agora agora' rodada_id :
  palpites_ok db ->
  palpites_ok (fst (salvar_aposta db sess form agora agora' rodada_id)).
Proof.
  intros H. unfold salvar_aposta.
  destruct (Bson.of_str rodada_id) as [oid|]; [|exact H].
  destruct (Mongo.find_one _ _) as [rodada|]; [|exact H].
  destruct (Datetime.strptime _) as [limite|]; [|exact H].
  destruct (Datetime.geb agora limite); [exact H|].
  destruct (Bson.of_str sess) as [u|]; [|exact H].
  destruct (ler_palpites _ _) as [ps|]; [|exact H].
  destruct (forallb palpite_codificavel ps); [|exact H].
  unfold palpites_ok. cbn [fst palpites_collection].
  apply upsert_one_palpite_NoDup. exact H.
Qed.

Lemma palpites_ok_da_rodada (db : DB) (oid : ObjectId) :
  palpites_ok db ->
  NoDup (map p_usuario_id (Mongo.find (da_rodada oid) (palpites_collection db))).
Proof.
  unfold palpites_ok, Mongo.find.
  induction (palpites_collection db) as [|d c IH]; cbn [map filter]; intros H.
  - constructor.
  - inversion H as [|? ? Hd Hc]; subst.
    destruct (da_rodada oid d) eqn:E; [|apply IH; exact Hc].
    cbn [map]. constructor; [|apply IH; exact Hc].
    intros Hin. apply Hd.
    apply in_map_iff in Hin as (d' & Hu & Hin').
    apply filter_In in Hin' as [Hin' E'].
    apply in_map_iff. exists d'. split; [|exact Hin'].
    unfold da_rodada in E, E'. apply bson_eqb_eq in E, E'.
    unfold chave_palpite. congruence.
Qed.

(** C2: on a round that exists, has every match finalized, is not yet
    processed and has at least one prediction (one per user), the scoring
    action reports success; for every prediction of the round the score
    record of its user and the round holds the sum, over the prediction's
    entries, of the score against the match with the entry's identity, an
    entry without such a match counting 0; that record is the only one of its
    (user, round) when there was at most one before; records of other
    (user, round) pairs and the predictions are left alone; and the round is
    stored with its processed flag set. *)
Theorem calcular_ranking_efeito db agora rodada_id oid rodada :
  Bson.of_str rodada_id = Some oid ->
  Mongo.find_one (by_id oid) (rodadas_collection db) = Some rodada ->
  Forall (fun j => finalizado j = true) (jogos rodada) ->
  processada rodada = false ->
  let ps := Mongo.find (da_rodada oid) (palpites_collection db) in
  ps <> [] ->
  NoDup (map p_usuario_id ps) ->
  let db' := fst (calcular_ranking db agora rodada_id) in
  snd (calcular_ranking db agora rodada_id)
  = [(success, CalculoConcluido (numero rodada) (List.length ps))] /\
  (forall p, In p ps ->
     exists d,
       Mongo.find_one (do_usuario_no_ranking (p_usuario_id p) oid)
         (ranking_collection db') = Some d /\
       r_usuario_id d = p_usuario_id p /\ r_rodada_id d = oid /\
       pontuacao_total d = soma (map (pontos_da_entrada rodada) (palpites p)) /\
       ((List.length (Mongo.find (do_usuario_no_ranking (p_usuario_id p) oid)
                        (ranking_collection db)) <= 1)%nat ->
        List.length (Mongo.find (do_usuario_no_ranking (p_usuario_id p) oid)
                       (ranking_collection db')) = 1%nat)) /\
  (forall u r, ~ (r = oid /\ In u (map p_usuario_id ps)) ->
     Mongo.find (do_usuario_no_ranking u r) (ranking_collection db')
     = Mongo.find (do_usuario_no_ranking u r) (ranking_collection db)) /\
  Mongo.find_one (by_id oid) (rodadas_collection db')
  = Some (mkRodada (rodada_id_ rodada) (numero rodada) (data_limite_apostas rodada)
            (jogos rodada) true) /\
  palpites_collection db' = palpites_collection db.
Proof.
  intros Ho Hr Hf Hp ps Hne Hnd db'.
  assert (E : calcular_ranking db agora rodada_id
              = (mkDB (usuarios_collection db)
                   (Mongo.update_one (by_id oid)
                      (fun r => mkRodada (rodada_id_ r) (numero r)
                                  (data_limite_apostas r) (jogos r) true)
                      (rodadas_collection db))
                   (palpites_collection db)
                   (fold_left (gravar_pontuacao rodada oid agora) ps
                      (ranking_collection db)),
                 [(success, CalculoConcluido (numero rodada) (List.length ps))])).
  { unfold calcular_ranking.
    rewrite Ho, Hr, (jogos_nao_finalizados_nil _ Hf), Hp. fold ps.
    destruct ps; [contradiction|reflexivity]. }
  subst db'. rewrite E. cbn [fst snd ranking_collection rodadas_collection
                              palpites_collection].
  split; [reflexivity|]. split; [|split; [|split]].
  - intros p Hin.
    destruct (fold_gravar_proprio rodada oid agora ps Hnd (ranking_collection db) p Hin)
      as (d & Hd & Hu & Hro & Ht & Hc).
    exists d. rewrite <- pontuar_palpite_soma. auto.
  - intros u r H. apply fold_gravar_outros. exact H.
  - rewrite find_one_update_one by (intros d Hd; exact Hd).
    rewrite Hr. reflexivity.
  - reflexivity.
Qed.

Lemma calcular_ranking_efeito_witness :
  exists d,
    Mongo.find_one (do_usuario_no_ranking Exemplo.bia Exemplo.rodada1)
      (ranking_collection
         (fst (calcular_ranking Exemplo.db_encerrada Exemplo.tarde
                 Exemplo.rodada1_str))) = Some d /\
    pontuacao_total d = 5.
Proof.
  destruct (calcular_ranking_efeito Exemplo.db_encerrada Exemplo.tarde
              Exemplo.rodada1_str Exemplo.rodada1 Exemplo.rodada_encerrada)
    as (_ & H & _).
  - reflexivity.
  - reflexivity.
  - repeat constructor.
  - reflexivity.
  - discriminate.
  - repeat constructor; cbn; intuition discriminate.
  - destruct (H Exemplo.palpite_bia) as (d & Hd & _ & _ & Ht & _).
    + right. left. reflexivity.
    + exists d. split; [exact Hd | rewrite Ht; reflexivity].
Defined.

(** ** The leaderboard *)

(** *** The [$group] stage *)






Section Agrupar.



End Agrupar.


(** *** The [$sort] and [$limit] stages *)






Lemma ranking_final_totais (usuarios : list Usuario) (l : list (ObjectId * Z))
  (out : list (string * Z)) :
  ranking_final usuarios l = Some out ->
  map snd out = map snd (List.filter (tem_usuario usuarios) l).
Proof.
  revert out. induction l as [|[u t] l IH]; cbn [ranking_final filter]; intros out H.
  - injection H as <-. reflexivity.
  - unfold tem_usuario at 1. cbn [fst].
    destruct (Mongo.find_one (usuario_by_id u) usuarios) as [usr|].
    + destruct (Py.split_first (nome usr)) as [primeiro|]; [|discriminate].
      destruct (ranking_final usuarios l) as [resto|]; [|discriminate].
      injection H as <-. cbn [map snd]. f_equal. apply IH. reflexivity.
    + apply IH. exact H.
Qed.





(** ** Round creation and result recording *)




Lemma registrar_placares_map (form : Form) (js : list Jogo) :
  fst (fst (registrar_placares form js))
  = map (fun j => fst (fst (registrar_placar form j))) js.
Proof.
  induction js as [|j js IH]; cbn [registrar_placares map]; [reflexivity|].
  destruct (registrar_placar form j) as [[j' recebido] avisos].
  destruct (registrar_placares form js) as [[js' n] avisos'].
  cbn [fst] in *. rewrite IH. reflexivity.
Qed.

(** The update goes through when every score to be written fits. *)
Lemma placar_admin_salvar_jogos db form rodada_id oid rodada :
  Bson.of_str rodada_id = Some oid ->
  Mongo.find_one (by_id oid) (rodadas_collection db) = Some rodada ->
  forallb jogo_codificavel
    (map (fun j => fst (fst (registrar_placar form j))) (jogos rodada)) = true ->
  rodadas_collection (fst (placar_admin_salvar db form rodada_id))
  = Mongo.update_one (by_id oid)
      (fun r => mkRodada (rodada_id_ r) (numero r) (data_limite_apostas r)
                  (map (fun j => fst (fst (registrar_placar form j))) (jogos rodada))
                  (processada r))
      (rodadas_collection db).
Proof.
  intros Ho Hr. unfold placar_admin_salvar. rewrite Ho, Hr.
  rewrite <- registrar_placares_map.
  destruct (registrar_placares form (jogos rodada)) as [[js n] avisos].
  cbn [fst]. intros ->. reflexivity.
Qed.

(** Otherwise nothing is written, and the last message is the handler's
    error. *)
Lemma placar_admin_salvar_estouro db form rodada_id oid rodada :
  Bson.of_str rodada_id = Some oid ->
  Mongo.find_one (by_id oid) (rodadas_collection db) = Some rodada ->
  forallb jogo_codificavel
    (map (fun j => fst (fst (registrar_placar form j))) (jogos rodada)) = false ->
  placar_admin_salvar db form rodada_id
  = (db, snd (registrar_placares form (jogos rodada))
         ++ [(danger, ErroAoSalvarPlacares)]).
Proof.
  intros Ho Hr. unfold placar_admin_salvar. rewrite Ho, Hr.
  rewrite <- registrar_placares_map.
  destruct (registrar_placares form (jogos rodada)) as [[js n] avisos].
  cbn [fst snd]. intros ->. reflexivity.
Qed.

Lemma update_one_Forall {A : Type} (P : A -> Prop) (f : A -> bool) (set : A -> A)
  (c : list A) :
  (forall d, P d -> P (set d)) -> Forall P c -> Forall P (Mongo.update_one f set c).
Proof.
  intros Hs. induction 1 as [|d c Hd Hc IH]; cbn; [constructor|].
  destruct (f d); constructor; auto.
Qed.














(** The other handlers that write to the database leave the matches alone. *)
Lemma salvar_aposta_rodadas db sess form agora agora' rodada_id :
  rodadas_collection (fst (salvar_aposta db sess form agora agora' rodada_id))
  = rodadas_collection db.
Proof.
  unfold salvar_aposta.
  destruct (Bson.of_str rodada_id); [|reflexivity].
  destruct (Mongo.find_one _ _); [|reflexivity].
  destruct (Datetime.strptime _); [|reflexivity].
  destruct (Datetime.geb _ _); [reflexivity|].
  destruct (Bson.of_str sess); [|reflexivity].
  destruct (ler_palpites _ _) as [ps|]; [|reflexivity].
  destruct (forallb palpite_codificavel ps); reflexivity.
Qed.

Lemma calcular_ranking_rodadas_ok db agora rodada_id :
  rodadas_ok db -> rodadas_ok (fst (calcular_ranking db agora rodada_id)).
Proof.
  intros Hdb. unfold calcular_ranking.
  destruct (Bson.of_str rodada_id) as [oid|]; [|exact Hdb].
  destruct (Mongo.find_one _ _) as [rodada|] eqn:Hr; [|exact Hdb].
  destruct (List.filter _ (jogos rodada)); [|exact Hdb].
  destruct (processada rodada); [exact Hdb|].
  destruct (Mongo.find _ _); [exact Hdb|].
  unfold rodadas_ok in *. cbn [fst rodadas_collection].
  apply update_one_Forall; [|exact Hdb].
  intros d Hd. exact Hd.
Qed.

(** ** The handlers at work on the small pool *)

(** The scenario of the specification: official 2-1; 2-1 scores 10, 1-0
    scores 5, 0-2 scores nothing. *)
Example cenario_um_jogo :
  calcular_pontuacao_jogo (Some 2) (Some 1) (Some 2) (Some 1) = 10 /\
  calcular_pontuacao_jogo (Some 2) (Some 1) (Some 1) (Some 0) = 5 /\
  calcular_pontuacao_jogo (Some 2) (Some 1) (Some 0) (Some 2) = 0 /\
  calcular_pontuacao_jogo None None (Some 2) (Some 1) = 0.
Proof. repeat split; reflexivity. Qed.

(** Scoring the closed round: one record per bettor; the entry of Bia that
    names an unknown match adds nothing. *)
Example pontuacao_da_rodada :
  map (fun d => (r_usuario_id d, pontuacao_total d))
    (ranking_collection
       (fst (calcular_ranking Exemplo.db_encerrada Exemplo.tarde Exemplo.rodada1_str)))
  = [(Exemplo.ana, 15); (Exemplo.bia, 5); (Exemplo.caio, 0)] /\
  map processada
    (rodadas_collection
       (fst (calcular_ranking Exemplo.db_encerrada Exemplo.tarde Exemplo.rodada1_str)))
  = [true].
Proof. split; reflexivity. Qed.

(** A submission before the deadline replaces the stored prediction of the
    same user and round instead of adding a second one. *)
Example reenvio_substitui :
  map (fun p => (p_usuario_id p, map pj_placar_casa (palpites p)))
    (palpites_collection
       (fst (salvar_aposta Exemplo.db_apostada Exemplo.ana_str Exemplo.form_parcial
               Exemplo.cedo Exemplo.cedo Exemplo.rodada1_str)))
  = [(Exemplo.ana, [3; 0])].
Proof. reflexivity. Qed.

(** Creating a round from a form with one complete and one empty row. *)
Example rodada_criada :
  map (fun r => (numero r, data_limite_apostas r, List.length (jogos r), processada r))
    (rodadas_collection
       (fst (cadastrar_rodada Exemplo.db_aberta Exemplo.novo_id Exemplo.form_rodada)))
  = [(1, "2025-10-26T18:00"%string, 2%nat, false);
     (2, "2025-11-02T16:00"%string, 1%nat, false)].
Proof. reflexivity. Qed.

(** The leaderboard of the sample records, with first names. *)
Example ranking_exemplo :
  ranking (mkDB Exemplo.usuarios [] [] Exemplo.pontuacoes)
  = Some [("Ana"%string, 15); ("Bia"%string, 10)].
Proof. reflexivity. Qed.

(** * Further properties of the handlers *)

(** ** Scores are bounded *)

Lemma calcular_pontuacao_jogo_range (oh oa ph pa : option Z) :
  calcular_pontuacao_jogo oh oa ph pa = 0 \/
  calcular_pontuacao_jogo oh oa ph pa = 5 \/
  calcular_pontuacao_jogo oh oa ph pa = 10.
Proof.
  unfold calcular_pontuacao_jogo.
  destruct oh as [a|], oa as [b|], ph as [c|], pa as [d|]; auto.
  destruct ((a =? c) && (b =? d)); auto.
  cbv zeta.
  destruct ((if a >? b then 1 else if a <? b then -1 else 0)
            =? (if c >? d then 1 else if c <? d then -1 else 0)); auto.
Qed.

Lemma pontos_da_entrada_range (rodada : Rodada) (e : PalpiteJogo) :
  0 <= pontos_da_entrada rodada e <= 10.
Proof.
  unfold pontos_da_entrada.
  destruct (jogo_oficial_de rodada (pj_id_jogo e)) as [j|]; [|lia].
  destruct (calcular_pontuacao_jogo_range (placar_casa j) (placar_visitante j)
              (Some (pj_placar_casa e)) (Some (pj_placar_visitante e)))
    as [H|[H|H]]; rewrite H; lia.
Qed.

(** X1: the total that the scoring loop computes for a prediction is at
    least 0 and at most 10 points per entry of the prediction. *)
Theorem pontuar_palpite_limites (rodada : Rodada) (p : Palpite) :
  0 <= pontuar_palpite rodada p <= 10 * Z.of_nat (List.length (palpites p)).
Proof.
  rewrite pontuar_palpite_soma.
  induction (palpites p) as [|e l IH].
  - cbn. lia.
  - cbn [map soma fold_right List.length].
    fold (soma (map (pontos_da_entrada rodada) l)).
    pose proof (pontos_da_entrada_range rodada e). lia.
Qed.

(** ** Submission is all or nothing *)

Lemma placar_ou_zero_None (s : option string) :
  placar_ou_zero s = None <-> malformado s.
Proof.
  unfold placar_ou_zero, malformado. destruct s as [t|].
  - destruct (String.eqb_spec (Py.strip t) "") as [E|E].
    + rewrite andb_false_r. split; [discriminate|].
      intros (t' & Et & Hne & _). injection Et as <-. contradiction.
    + assert (Ht : Py.truthy t = true).
      { destruct t; [|reflexivity]. exfalso. apply E. reflexivity. }
      rewrite Ht. cbn [andb negb]. split.
      * intros Hi. exists t. auto.
      * intros (t' & Et & _ & Hi). injection Et as <-. exact Hi.
  - split; [discriminate|]. intros (t & Et & _). discriminate.
Qed.

Lemma ler_palpites_None (form : Form) (js : list Jogo) :
  ler_palpites form js = None <->
  exists j, In j js /\
    (malformado (form_get form ("placar_casa_" ++ Bson.str (id_jogo j))) \/
     malformado (form_get form ("placar_visitante_" ++ Bson.str (id_jogo j)))).
Proof.
  induction js as [|j js IH]; cbn -[String.append].
  - split; [discriminate|]. intros (j & [] & _).
  - destruct (placar_ou_zero (form_get form ("placar_casa_" ++ Bson.str (id_jogo j))))
      as [casa|] eqn:Ec.
    + destruct (placar_ou_zero
                  (form_get form ("placar_visitante_" ++ Bson.str (id_jogo j))))
        as [visitante|] eqn:Ev.
      * destruct (ler_palpites form js) as [resto|].
        -- split; [discriminate|].
           intros (j' & [<-|Hin] & Hm).
           ++ rewrite <- !placar_ou_zero_None in Hm.
              destruct Hm; congruence.
           ++ assert (X : Some resto = None) by (apply IH; exists j'; auto).
              discriminate X.
        -- split; [|reflexivity]. intros _.
           destruct (proj1 IH eq_refl) as (j' & Hin & Hm).
           exists j'. auto.
      * split; [|reflexivity]. intros _. exists j. split; [left; reflexivity|].
        right. apply placar_ou_zero_None. exact Ev.
    + split; [|reflexivity]. intros _. exists j. split; [left; reflexivity|].
      left. apply placar_ou_zero_None. exact Ec.
Qed.

Lemma placar_ou_zero_excessivo (s : option string) (n : Z) :
  placar_ou_zero s = Some n -> (Bson.int_8_bytes n = false <-> excessivo s).
Proof.
  unfold placar_ou_zero, excessivo. destruct s as [t|].
  - destruct (String.eqb_spec (Py.strip t) "") as [E|E].
    + rewrite andb_false_r. intros H. injection H as <-. split; [discriminate|].
      intros (t' & n & Et & Hne & _). injection Et as <-. contradiction.
    + assert (Ht : Py.truthy t = true).
      { destruct t; [|reflexivity]. exfalso. apply E. reflexivity. }
      rewrite Ht. cbn [andb negb]. intros Hi. split.
      * intros Hb. exists t, n. auto.
      * intros (t' & m & Et & _ & Hi' & Hb). injection Et as <-. congruence.
  - intros H. injection H as <-. split; [discriminate|].
    intros (t & n & Et & _). discriminate.
Qed.

(** The entries read from the form can all be written exactly when no
    submitted score is an integer beyond 8 bytes. *)
Lemma ler_palpites_codificavel (form : Form) (js : list Jogo)
  (ps : list PalpiteJogo) :
  ler_palpites form js = Some ps ->
  (forallb palpite_codificavel ps = false <->
   exists j, In j js /\
     (excessivo (form_get form ("placar_casa_" ++ Bson.str (id_jogo j))) \/
      excessivo (form_get form ("placar_visitante_" ++ Bson.str (id_jogo j))))).
Proof.
  intros H. apply ler_palpites_entries in H.
  induction H as [|j e js ps (_ & Hc & Hv) _ IH]; cbn [forallb].
  - split; [discriminate|]. intros (j & [] & _).
  - apply placar_ou_zero_excessivo in Hc, Hv.
    unfold palpite_codificavel at 1. rewrite !andb_false_iff, Hc, Hv, IH.
    split.
    + intros [[Hx|Hx]|(j' & Hin & Hx)].
      * exists j. split; [left; reflexivity | left; exact Hx].
      * exists j. split; [left; reflexivity | right; exact Hx].
      * exists j'. split; [right; exact Hin | exact Hx].
    + intros (j' & [<-|Hin] & Hx).
      * left. destruct Hx; auto.
      * right. exists j'. auto.
Qed.

(** X2: for a logged-in user and an existing round whose deadline is still
    ahead, and a form of plain texts ([form_simples]), the submission is
    stored exactly when no score field of any match of the round is malformed
    and none holds an integer beyond 8 bytes; otherwise the database is as it
    was. A malformed field makes the handler flash two messages, that of the
    scores and then that of its [except] clause; a score beyond 8 bytes only
    the latter. *)
Theorem salvar_aposta_tudo_ou_nada db sess form agora agora' rodada_id
  oid rodada limite u :
  Bson.of_str rodada_id = Some oid ->
  Mongo.find_one (by_id oid) (rodadas_collection db) = Some rodada ->
  Datetime.strptime (data_limite_apostas rodada) = Some limite ->
  Datetime.compare agora limite = Lt ->
  Bson.of_str sess = Some u ->
  form_simples form ->
  let mal :=
    exists j, In j (jogos rodada) /\
      (malformado (form_get form ("placar_casa_" ++ Bson.str (id_jogo j))) \/
       malformado (form_get form ("placar_visitante_" ++ Bson.str (id_jogo j)))) in
  let exc :=
    exists j, In j (jogos rodada) /\
      (excessivo (form_get form ("placar_casa_" ++ Bson.str (id_jogo j))) \/
       excessivo (form_get form ("placar_visitante_" ++ Bson.str (id_jogo j)))) in
  let out := salvar_aposta db sess form agora agora' rodada_id in
  (mal ->
   out = (db, [(danger, PlacaresDevemSerInteiros); (danger, ErroAoSalvarAposta)])) /\
  (~ mal -> exc -> out = (db, [(danger, ErroAoSalvarAposta)])) /\
  (~ mal -> ~ exc ->
   snd out = [(success, PalpitesSalvos (numero rodada))] /\
   exists ps,
     ler_palpites form (jogos rodada) = Some ps /\
     Mongo.find_one (do_usuario_na_rodada u oid) (palpites_collection (fst out))
     = Some (mkPalpite u oid ps agora')).
Proof.
  intros Ho Hr Hl Hc Hu _ mal exc out.
  assert (Eout : out =
    match ler_palpites form (jogos rodada) with
    | None => (db, [(danger, PlacaresDevemSerInteiros);
                    (danger, ErroAoSalvarAposta)])
    | Some ps =>
        if forallb palpite_codificavel ps then
          (mkDB (usuarios_collection db) (rodadas_collection db)
             (Mongo.upsert_one (do_usuario_na_rodada u oid)
                (fun p => mkPalpite (p_usuario_id p) (p_rodada_id p) ps agora')
                (mkPalpite u oid ps agora') (palpites_collection db))
             (ranking_collection db),
           [(success, PalpitesSalvos (numero rodada))])
        else (db, [(danger, ErroAoSalvarAposta)])
    end).
  { subst out. unfold salvar_aposta. rewrite Ho, Hr, Hl, Hu.
    apply datetime_geb_false_iff in Hc. rewrite Hc. reflexivity. }
  pose proof (ler_palpites_None form (jogos rodada)) as Hmal.
  pose proof (ler_palpites_codificavel form (jogos rodada)) as Hexc.
  fold mal in Hmal. fold exc in Hexc.
  destruct (ler_palpites form (jogos rodada)) as [ps|] eqn:Ep.
  - specialize (Hexc ps eq_refl). split; [|split].
    + intros Hm. apply Hmal in Hm. discriminate Hm.
    + intros _ He. apply Hexc in He. rewrite Eout, He. reflexivity.
    + intros _ He.
      destruct (forallb palpite_codificavel ps) eqn:Ecod;
        [|exfalso; apply He, Hexc; reflexivity].
      rewrite Eout. cbn [fst snd]. split; [reflexivity|].
      exists ps. split; [reflexivity|]. cbn [palpites_collection].
      rewrite find_one_upsert_one.
      * destruct (Mongo.find_one (do_usuario_na_rodada u oid)
                    (palpites_collection db)) as [d|] eqn:Ed; [|reflexivity].
        apply find_some in Ed as [_ Ed]. unfold do_usuario_na_rodada in Ed.
        apply andb_true_iff in Ed as [E1 E2].
        apply bson_eqb_eq in E1, E2. cbn [option_map]. rewrite E1, E2.
        reflexivity.
      * intros d H. exact H.
      * unfold do_usuario_na_rodada. cbn. rewrite !bson_eqb_refl. reflexivity.
  - split; [|split].
    + intros _. exact Eout.
    + intros Hn. exfalso. apply Hn, Hmal. reflexivity.
    + intros Hn. exfalso. apply Hn, Hmal. reflexivity.
Qed.

Lemma salvar_aposta_tudo_ou_nada_witness :
  salvar_aposta Exemplo.db_apostada Exemplo.ana_str Exemplo.form_enorme
    Exemplo.cedo Exemplo.cedo Exemplo.rodada1_str
  = (Exemplo.db_apostada, [(danger, ErroAoSalvarAposta)]).
Proof.
  refine (proj1 (proj2 (salvar_aposta_tudo_ou_nada Exemplo.db_apostada
                          Exemplo.ana_str Exemplo.form_enorme Exemplo.cedo
                          Exemplo.cedo Exemplo.rodada1_str Exemplo.rodada1
                          Exemplo.rodada_aberta Exemplo.limite Exemplo.ana
                          eq_refl eq_refl eq_refl eq_refl eq_refl _)) _ _).
  - repeat constructor.
  - intros (j & Hj & [(t & Et & _ & Hi)|(t & Et & _ & Hi)]);
      destruct Hj as [<-|[<-|[]]];
      vm_compute in Et; injection Et as <-;
      vm_compute in Hi; discriminate Hi.
  - exists (mkJogo Exemplo.jogo2 Exemplo.san Exemplo.cor None None false).
    split; [right; left; reflexivity|].
    left. exists "9223372036854775808"%string, 9223372036854775808.
    split; [reflexivity|]. split; [|split; reflexivity].
    intros E. vm_compute in E. discriminate E.
Defined.

(** ** Submission touches one prediction only *)

Lemma length_upsert_one {A : Type} (f : A -> bool) (set : A -> A) (novo : A)
  (c : list A) :
  (List.length c <= List.length (Mongo.upsert_one f set novo c)
   <= S (List.length c))%nat.
Proof.
  induction c as [|d c IH]; cbn; [lia|].
  destruct (f d); cbn; lia.
Qed.

Lemma do_usuario_na_rodada_outro (u r u' r' : ObjectId) (p : Palpite) :
  ~ (u' = u /\ r' = r) ->
  do_usuario_na_rodada u r p = true -> do_usuario_na_rodada u' r' p = false.
Proof.
  unfold do_usuario_na_rodada. intros Hne H.
  apply andb_true_iff in H as [E1 E2]. apply bson_eqb_eq in E1, E2.
  destruct (Bson.eqb (p_usuario_id p) u') eqn:F1; [|reflexivity].
  destruct (Bson.eqb (p_rodada_id p) r') eqn:F2; [|reflexivity].
  apply bson_eqb_eq in F1, F2. exfalso. apply Hne. split; congruence.
Qed.

(** X3: whatever its outcome, a submission leaves users, rounds and score
    records as they were, never removes a prediction document and adds at
    most one, and leaves the predictions of every other (user, round) pair
    untouched. *)
Theorem salvar_aposta_so_o_proprio_palpite db sess form agora agora' rodada_id :
  let db' := fst (salvar_aposta db sess form agora agora' rodada_id) in
  usuarios_collection db' = usuarios_collection db /\
  rodadas_collection db' = rodadas_collection db /\
  ranking_collection db' = ranking_collection db /\
  (List.length (palpites_collection db) <= List.length (palpites_collection db')
   <= S (List.length (palpites_collection db)))%nat /\
  (forall u r,
     ~ (Bson.of_str sess = Some u /\ Bson.of_str rodada_id = Some r) ->
     Mongo.find (do_usuario_na_rodada u r) (palpites_collection db')
     = Mongo.find (do_usuario_na_rodada u r) (palpites_collection db)).
Proof.
  unfold salvar_aposta.
  destruct (Bson.of_str rodada_id) as [oid|]; [|cbn; repeat split; auto; lia].
  destruct (Mongo.find_one _ _) as [rodada|]; [|cbn; repeat split; auto; lia].
  destruct (Datetime.strptime _) as [limite|]; [|cbn; repeat split; auto; lia].
  destruct (Datetime.geb agora limite); [cbn; repeat split; auto; lia|].
  destruct (Bson.of_str sess) as [u|]; [|cbn; repeat split; auto; lia].
  destruct (ler_palpites _ _) as [ps|]; [|cbn; repeat split; auto; lia].
  destruct (forallb palpite_codificavel ps); [|cbn; repeat split; auto; lia].
  cbn [fst usuarios_collection rodadas_collection ranking_collection
       palpites_collection].
  split; [reflexivity|]. split; [reflexivity|]. split; [reflexivity|].
  split; [apply length_upsert_one|].
  intros u' r' Hne.
  assert (Hne' : ~ (u' = u /\ r' = oid)) by (intros [-> ->]; apply Hne; auto).
  apply find_upsert_one_other.
  - intros d Hd. split.
    + apply (do_usuario_na_rodada_outro u oid); assumption.
    + apply (do_usuario_na_rodada_outro u oid); [assumption|].
      exact Hd.
  - apply (do_usuario_na_rodada_outro u oid); [assumption|].
    unfold do_usuario_na_rodada. cbn. rewrite !bson_eqb_refl. reflexivity.
Qed.

Lemma salvar_aposta_so_o_proprio_palpite_witness :
  Mongo.find (do_usuario_na_rodada Exemplo.ana Exemplo.rodada1)
    (palpites_collection
       (fst (salvar_aposta Exemplo.db_apostada Exemplo.bia_str Exemplo.form_parcial
               Exemplo.cedo Exemplo.cedo Exemplo.rodada1_str)))
  = [Exemplo.palpite_ana].
Proof.
  destruct (salvar_aposta_so_o_proprio_palpite Exemplo.db_apostada Exemplo.bia_str
              Exemplo.form_parcial Exemplo.cedo Exemplo.cedo Exemplo.rodada1_str)
    as (_ & _ & _ & _ & H).
  rewrite (H Exemplo.ana Exemplo.rodada1).
  - reflexivity.
  - intros [E _]. discriminate E.
Defined.

(** ** Looking a stored prediction up *)

Lemma Forall2_In_l {A B : Type} (R : A -> B -> Prop) (l : list A) (l' : list B) (x : A) :
  Forall2 R l l' -> In x l -> exists y, In y l' /\ R x y.
Proof.
  induction 1 as [|a b l l' Hab _ IH]; intros Hin; [destruct Hin|].
  destruct Hin as [<-|Hin].
  - exists b. split; [left; reflexivity | exact Hab].
  - destruct (IH Hin) as (y & Hy & Hr). exists y. split; [right|]; assumption.
Qed.

Lemma Forall2_In_r {A B : Type} (R : A -> B -> Prop) (l : list A) (l' : list B) (y : B) :
  Forall2 R l l' -> In y l' -> exists x, In x l /\ R x y.
Proof.
  induction 1 as [|a b l l' Hab _ IH]; intros Hin; [destruct Hin|].
  destruct Hin as [<-|Hin].
  - exists a. split; [left; reflexivity | exact Hab].
  - destruct (IH Hin) as (x & Hx & Hr). exists x. split; [right|]; assumption.
Qed.

(** X4: after a submission that was stored, [get_palpite_do_jogo] called for
    the same user and round and for any match of the round returns the entry
    of that match, holding the scores read from the match's two form
    fields. *)
Theorem get_palpite_do_jogo_apos_salvar db sess form agora agora' rodada_id db' n :
  salvar_aposta db sess form agora agora' rodada_id
    = (db', [(success, PalpitesSalvos n)]) ->
  exists oid rodada,
    Bson.of_str rodada_id = Some oid /\
    Mongo.find_one (by_id oid) (rodadas_collection db) = Some rodada /\
    forall j, In j (jogos rodada) ->
      exists e,
        get_palpite_do_jogo db' (Some sess) rodada_id (Bson.str (id_jogo j)) = Some e /\
        pj_id_jogo e = Bson.str (id_jogo j) /\
        placar_ou_zero (form_get form ("placar_casa_" ++ Bson.str (id_jogo j)))
          = Some (pj_placar_casa e) /\
        placar_ou_zero (form_get form ("placar_visitante_" ++ Bson.str (id_jogo j)))
          = Some (pj_placar_visitante e).
Proof.
  intros H.
  destruct (salvar_aposta_sucesso _ _ _ _ _ _ _ _ H)
    as (u & oid & rodada & limite & ps & Hu & Ho & Hr & _ & _ & Hp & Hf).
  exists oid, rodada. split; [exact Ho|]. split; [exact Hr|].
  intros j Hj. unfold get_palpite_do_jogo. rewrite Hu, Ho, Hf. cbn [palpites].
  apply ler_palpites_entries in Hp.
  destruct (Forall2_In_l _ _ _ j Hp Hj) as (e0 & He0 & Hi0 & _).
  destruct (List.find (fun palpite => String.eqb (pj_id_jogo palpite)
                                        (Bson.str (id_jogo j))) ps)
    as [e|] eqn:Ef.
  - apply find_some in Ef as [He Hid]. apply String.eqb_eq in Hid.
    destruct (Forall2_In_r _ _ _ e Hp He) as (j' & _ & Hi' & Hc' & Hv').
    exists e. split; [reflexivity|]. split; [exact Hid|].
    assert (Hs : Bson.str (id_jogo j') = Bson.str (id_jogo j)) by congruence.
    rewrite Hs in Hc', Hv'. auto.
  - exfalso. apply (find_none _ _ Ef) in He0.
    rewrite Hi0, String.eqb_refl in He0. discriminate.
Qed.

Lemma get_palpite_do_jogo_apos_salvar_witness :
  get_palpite_do_jogo
    (fst (salvar_aposta Exemplo.db_apostada Exemplo.bia_str Exemplo.form_parcial
            Exemplo.cedo Exemplo.cedo Exemplo.rodada1_str))
    (Some Exemplo.bia_str) Exemplo.rodada1_str "000000000000000000000001"
  = Some (mkPalpiteJogo "000000000000000000000001" 3 0).
Proof.
  destruct (get_palpite_do_jogo_apos_salvar Exemplo.db_apostada Exemplo.bia_str
              Exemplo.form_parcial Exemplo.cedo Exemplo.cedo Exemplo.rodada1_str
              (fst (salvar_aposta Exemplo.db_apostada Exemplo.bia_str
                      Exemplo.form_parcial Exemplo.cedo Exemplo.cedo
                      Exemplo.rodada1_str)) 1 eq_refl)
    as (oid & rodada & Ho & Hr & H).
  injection Ho as <-. injection Hr as <-.
  destruct (H (mkJogo Exemplo.jogo1 Exemplo.fla Exemplo.pal None None false))
    as (e & He & _).
  - left. reflexivity.
  - pose proof He as He'. vm_compute in He'. injection He' as <-. exact He.
Defined.

(** ** Sorting *)

Section Ordenar.
Context {A : Type}.
Variable leb : A -> A -> bool.
Hypothesis leb_total : forall a b, leb a b = true \/ leb b a = true.
Hypothesis leb_trans :
  forall a b c, leb a b = true -> leb b c = true -> leb a c = true.

Lemma inserir_por_perm (x : A) (l : list A) :
  Permutation (inserir_por leb x l) (x :: l).
Proof.
  induction l as [|y l IH]; cbn [inserir_por]; [reflexivity|].
  destruct (leb x y); [reflexivity|].
  rewrite IH. apply perm_swap.
Qed.

Lemma ordenar_por_perm (l : list A) : Permutation (ordenar_por leb l) l.
Proof.
  induction l as [|x l IH]; cbn [ordenar_por fold_right]; [reflexivity|].
  fold (ordenar_por leb l). rewrite inserir_por_perm. constructor. exact IH.
Qed.

Lemma inserir_por_sorted (x : A) (l : list A) :
  Sorted (fun a b => leb a b = true) l ->
  Sorted (fun a b => leb a b = true) (inserir_por leb x l).
Proof.
  induction l as [|y l IH]; cbn [inserir_por]; intros H.
  - repeat constructor.
  - destruct (leb x y) eqn:E.
    + constructor; [exact H|]. constructor. exact E.
    + assert (Hyx : leb y x = true).
      { destruct (leb_total x y) as [F|F]; [congruence|exact F]. }
      inversion H as [|? ? Hs Hh]; subst.
      constructor; [apply IH; exact Hs|].
      destruct l as [|z l]; cbn [inserir_por].
      * constructor. exact Hyx.
      * destruct (leb x z).
        -- constructor. exact Hyx.
        -- inversion Hh; subst. constructor. assumption.
Qed.

Lemma ordenar_por_sorted (l : list A) :
  StronglySorted (fun a b => leb a b = true) (ordenar_por leb l).
Proof.
  apply Sorted_StronglySorted.
  - intros a b c. apply leb_trans.
  - induction l as [|x l IH]; cbn [ordenar_por fold_right]; [constructor|].
    apply inserir_por_sorted. exact IH.
Qed.
End Ordenar.

(** The first element of a sorted list that passes a test stands before
    every other element that passes it. *)
Lemma find_sorted_first {A : Type} (R : A -> A -> Prop) (f : A -> bool)
  (l : list A) (x : A) :
  (forall a, R a a) -> StronglySorted R l -> List.find f l = Some x ->
  forall y, In y l -> f y = true -> R x y.
Proof.
  intros Hrefl Hs. induction Hs as [|a l Hs IH Hf]; cbn; [discriminate|].
  destruct (f a) eqn:E.
  - intros Hx y Hy _. injection Hx as <-. destruct Hy as [<-|Hy]; [apply Hrefl|].
    rewrite Forall_forall in Hf. apply Hf. exact Hy.
  - intros Hx y [<-|Hy] Hfy; [congruence|]. apply IH; assumption.
Qed.

(** *** The order of strings *)

Lemma string_compare_lt_trans (s1 s2 s3 : string) :
  String.compare s1 s2 = Lt -> String.compare s2 s3 = Lt ->
  String.compare s1 s3 = Lt.
Proof.
  revert s2 s3. induction s1 as [|a s1 IH]; intros [|b s2] [|c s3]; cbn;
    try discriminate; try reflexivity.
  unfold Ascii.compare.
  destruct (N.compare_spec (N_of_ascii a) (N_of_ascii b)) as [E1|E1|E1];
    destruct (N.compare_spec (N_of_ascii b) (N_of_ascii c)) as [E2|E2|E2];
    destruct (N.compare_spec (N_of_ascii a) (N_of_ascii c)) as [E3|E3|E3];
    try discriminate; try reflexivity; try lia.
  apply IH.
Qed.

Lemma string_leb_trans (s1 s2 s3 : string) :
  String.leb s1 s2 = true -> String.leb s2 s3 = true -> String.leb s1 s3 = true.
Proof.
  unfold String.leb.
  destruct (String.compare s1 s2) eqn:E1; [| |discriminate];
    destruct (String.compare s2 s3) eqn:E2; try discriminate; intros _ _.
  - pose proof (String.compare_eq_iff _ _ E1) as X. subst s2.
    rewrite E2. reflexivity.
  - pose proof (String.compare_eq_iff _ _ E1) as X. subst s2.
    rewrite E2. reflexivity.
  - pose proof (String.compare_eq_iff _ _ E2) as X. subst s3.
    rewrite E1. reflexivity.
  - rewrite (string_compare_lt_trans _ _ _ E1 E2). reflexivity.
Qed.

(** ** Consulting the predictions of a round *)

(** X5: at one instant, a round is open either for submission or for
    consultation, never for both: when [consulta_palpites] shows the round,
    every submission made at that instant is rejected for the deadline and
    changes nothing; when a submission is stored, the consultation at that
    instant is refused with the not-yet-available warning. *)
Theorem consulta_e_aposta_excludentes db agora rodada_id :
  (forall c, consulta_palpites db agora rodada_id = inr c ->
     forall sess form agora',
     exists n limite,
       salvar_aposta db sess form agora agora' rodada_id
       = (db, [(danger, PrazoEncerrado n limite)])) /\
  (forall sess form agora' n,
     snd (salvar_aposta db sess form agora agora' rodada_id)
       = [(success, PalpitesSalvos n)] ->
     exists limite,
       consulta_palpites db agora rodada_id
       = inl (warning, ConsultaIndisponivel n limite)).
Proof.
  unfold consulta_palpites, salvar_aposta, Datetime.geb.
  destruct (Bson.of_str rodada_id) as [oid|];
    [|split; [discriminate | intros; discriminate]].
  destruct (Mongo.find_one _ _) as [rodada|];
    [|split; [discriminate | intros; discriminate]].
  destruct (Datetime.strptime _) as [limite|];
    [|split; [discriminate | intros; discriminate]].
  destruct (Datetime.ltb agora limite); cbn [negb].
  - split; [discriminate|]. intros sess form agora' n H.
    destruct (Bson.of_str sess); [|discriminate].
    destruct (ler_palpites _ _) as [ps|]; [|discriminate].
    destruct (forallb palpite_codificavel ps); [|discriminate].
    cbn in H. injection H as <-. eauto.
  - split; [|intros; discriminate]. intros c _ sess form agora'. eauto.
Qed.

Lemma consulta_e_aposta_excludentes_witness :
  exists n limite,
    salvar_aposta Exemplo.db_encerrada Exemplo.ana_str Exemplo.form_parcial
      Exemplo.tarde Exemplo.tarde Exemplo.rodada1_str
    = (Exemplo.db_encerrada, [(danger, PrazoEncerrado n limite)]).
Proof.
  destruct (consulta_e_aposta_excludentes Exemplo.db_encerrada Exemplo.tarde
              Exemplo.rodada1_str) as [H _].
  destruct (consulta_palpites Exemplo.db_encerrada Exemplo.tarde Exemplo.rodada1_str)
    as [f|c] eqn:E; [vm_compute in E; discriminate E|].
  exact (H c eq_refl Exemplo.ana_str Exemplo.form_parcial Exemplo.tarde).
Defined.




(** ** The panel *)

Lemma painel_laco_disponiveis (relogio : nat -> datetime) (rs : list Rodada) :
  forall k a d,
    snd (painel_laco relogio k rs a d) = d ++ List.filter prazo_valido rs.
Proof.
  induction rs as [|r rs IH]; intros k a d; cbn [painel_laco filter].
  - rewrite app_nil_r. reflexivity.
  - unfold prazo_valido at 1.
    destruct (Datetime.strptime (data_limite_apostas r)) as [limite|].
    + destruct (Datetime.gtb limite (relogio k)); rewrite IH, <- app_assoc;
        reflexivity.
    + apply IH.
Qed.

Lemma painel_laco_aberta (relogio : nat -> datetime) (agora : datetime)
  (rs : list Rodada) :
  (forall k, relogio k = agora) ->
  forall k a d,
    fst (painel_laco relogio k rs a d)
    = match a with
      | Some _ => a
      | None => List.find (aberta_em agora) rs
      end.
Proof.
  intros Hc. induction rs as [|r rs IH]; intros k a d; cbn [painel_laco find].
  - destruct a; reflexivity.
  - unfold aberta_em at 1.
    destruct (Datetime.strptime (data_limite_apostas r)) as [limite|].
    + rewrite Hc. destruct (Datetime.gtb limite agora); rewrite IH;
        destruct a; reflexivity.
    + apply IH.
Qed.

Lemma numero_desc_total (a b : Rodada) :
  numero_desc a b = true \/ numero_desc b a = true.
Proof. unfold numero_desc. destruct (Z.leb_spec (numero b) (numero a)); [auto|right]. apply Z.leb_le. lia. Qed.

Lemma numero_desc_trans (a b c : Rodada) :
  numero_desc a b = true -> numero_desc b c = true -> numero_desc a c = true.
Proof. unfold numero_desc. rewrite !Z.leb_le. lia. Qed.

(** X7: the panel lists, by descending number, exactly the rounds whose stored
    deadline parses; and, when the clock does not advance during the request,
    the round it presents as open is a stored round whose deadline lies
    strictly after that instant and whose number is the greatest among such
    rounds, while no round is presented as open only when there is none. *)
Theorem painel_rodada_aberta (db : DB) (relogio : nat -> datetime) (agora : datetime) :
  (forall k, relogio k = agora) ->
  snd (painel db relogio)
  = List.filter prazo_valido (ordenar_por numero_desc (rodadas_collection db)) /\
  (forall r, fst (painel db relogio) = Some r ->
     In r (rodadas_collection db) /\ aberta_em agora r = true /\
     forall r', In r' (rodadas_collection db) -> aberta_em agora r' = true ->
                numero r' <= numero r) /\
  (fst (painel db relogio) = None ->
   forall r, In r (rodadas_collection db) -> aberta_em agora r = false).
Proof.
  intros Hc. unfold painel.
  rewrite painel_laco_disponiveis, (painel_laco_aberta relogio agora _ Hc).
  pose proof (ordenar_por_perm numero_desc (rodadas_collection db)) as Hperm.
  pose proof (ordenar_por_sorted numero_desc numero_desc_total numero_desc_trans
                (rodadas_collection db)) as Hsort.
  split; [reflexivity|]. split.
  - intros r Hf. pose proof Hf as Hf'. apply find_some in Hf' as [Hin Hab].
    split; [apply (Permutation_in _ Hperm); exact Hin|]. split; [exact Hab|].
    intros r' Hin' Hab'.
    apply (Permutation_in _ (Permutation_sym Hperm)) in Hin'.
    pose proof (find_sorted_first _ _ _ _
                  (fun a => proj2 (Z.leb_le _ _) (Z.le_refl (numero a)))
                  Hsort Hf r' Hin' Hab') as H.
    unfold numero_desc in H. apply Z.leb_le in H. exact H.
  - intros Hn r Hin.
    apply (Permutation_in _ (Permutation_sym Hperm)) in Hin.
    exact (find_none _ _ Hn r Hin).
Qed.

Lemma painel_rodada_aberta_witness :
  fst (painel Exemplo.db_aberta (fun _ => Exemplo.cedo)) = Some Exemplo.rodada_aberta /\
  aberta_em Exemplo.cedo Exemplo.rodada_aberta = true.
Proof.
  destruct (painel_rodada_aberta Exemplo.db_aberta (fun _ => Exemplo.cedo)
              Exemplo.cedo (fun k => eq_refl)) as (_ & H & _).
  split; [reflexivity|].
  exact (proj1 (proj2 (H Exemplo.rodada_aberta eq_refl))).
Defined.

(** ** Deleting a round *)

Lemma delete_one_spec {A : Type} (f : A -> bool) (c : list A) :
  match List.find f c with
  | Some _ => snd (delete_one f c) = true /\
              List.length c = S (List.length (fst (delete_one f c)))
  | None => delete_one f c = (c, false)
  end.
Proof.
  induction c as [|d c IH]; cbn [find delete_one]; [reflexivity|].
  destruct (f d); [cbn; auto|].
  destruct (List.find f c), (delete_one f c) as [c'' deleted]; cbn in *.
  - destruct IH as [-> ->]. auto.
  - injection IH as -> ->. reflexivity.
Qed.

Lemma delete_one_filter {A : Type} (f g : A -> bool) (c : list A) :
  (forall d, f d = true -> g d = false) ->
  List.filter g (fst (delete_one f c)) = List.filter g c.
Proof.
  intros H. induction c as [|d c IH]; cbn [delete_one filter]; [reflexivity|].
  destruct (f d) eqn:E.
  - cbn [fst]. rewrite (H d E). reflexivity.
  - destruct (delete_one f c) as [c'' deleted]. cbn [fst filter] in *.
    rewrite IH. reflexivity.
Qed.

Lemma delete_many_filter_same {A : Type} (f : A -> bool) (c : list A) :
  List.filter f (delete_many f c) = [].
Proof.
  unfold delete_many. induction c as [|d c IH]; cbn; [reflexivity|].
  destruct (f d) eqn:E; cbn; [exact IH|]. rewrite E. exact IH.
Qed.

Lemma delete_many_filter_other {A : Type} (f g : A -> bool) (c : list A) :
  (forall d, f d = true -> g d = false) ->
  List.filter g (delete_many f c) = List.filter g c.
Proof.
  intros H. unfold delete_many. induction c as [|d c IH]; cbn; [reflexivity|].
  destruct (f d) eqn:E; cbn.
  - rewrite (H d E). exact IH.
  - rewrite IH. reflexivity.
Qed.

Lemma bson_eqb_outro (a b c : ObjectId) :
  b <> c -> Bson.eqb a b = true -> Bson.eqb a c = false.
Proof.
  intros Hne H. apply bson_eqb_eq in H. subst a.
  destruct (Bson.eqb b c) eqn:E; [|reflexivity].
  apply bson_eqb_eq in E. contradiction.
Qed.

(** X8: deleting a round that is not stored changes nothing; deleting a
    stored one removes one round document and every prediction and score
    record of that round, and leaves the users and every document of any
    other round as they were. *)
Theorem excluir_rodada_cascata db rodada_id oid :
  Bson.of_str rodada_id = Some oid ->
  let db' := fst (excluir_rodada db rodada_id) in
  (Mongo.find_one (by_id oid) (rodadas_collection db) = None ->
   excluir_rodada db rodada_id = (db, [(danger, ExcluirRodadaNaoEncontrada)])) /\
  (Mongo.find_one (by_id oid) (rodadas_collection db) <> None ->
   snd (excluir_rodada db rodada_id) = [(success, RodadaExcluida)] /\
   List.length (rodadas_collection db) = S (List.length (rodadas_collection db')) /\
   Mongo.find (da_rodada oid) (palpites_collection db') = [] /\
   Mongo.find (registro_da_rodada oid) (ranking_collection db') = [] /\
   usuarios_collection db' = usuarios_collection db /\
   forall r, r <> oid ->
     Mongo.find (by_id r) (rodadas_collection db')
       = Mongo.find (by_id r) (rodadas_collection db) /\
     Mongo.find (da_rodada r) (palpites_collection db')
       = Mongo.find (da_rodada r) (palpites_collection db) /\
     Mongo.find (registro_da_rodada r) (ranking_collection db')
       = Mongo.find (registro_da_rodada r) (ranking_collection db)).
Proof.
  intros Ho db'. subst db'. unfold excluir_rodada. rewrite Ho.
  pose proof (delete_one_spec (by_id oid) (rodadas_collection db)) as Hd.
  pose proof (fun r (H : r <> oid) =>
                delete_one_filter (by_id oid) (by_id r) (rodadas_collection db)
                  (fun d => bson_eqb_outro _ _ _ (not_eq_sym H))) as Hk.
  unfold Mongo.find_one, Mongo.find in *.
  destruct (List.find (by_id oid) (rodadas_collection db)) as [x|].
  - split; [discriminate|]. intros _.
    destruct (delete_one (by_id oid) (rodadas_collection db)) as [rs' deleted].
    cbn [fst snd] in *. destruct Hd as [-> Hlen].
    cbn [fst snd rodadas_collection palpites_collection ranking_collection
         usuarios_collection].
    split; [reflexivity|]. split; [exact Hlen|].
    split; [apply delete_many_filter_same|].
    split; [apply delete_many_filter_same|].
    split; [reflexivity|].
    intros r Hr. split; [apply Hk; exact Hr|]. split.
    + apply delete_many_filter_other. intros d.
      apply bson_eqb_outro. auto.
    + apply delete_many_filter_other. intros d.
      apply bson_eqb_outro. auto.
  - split; [|intros H; contradiction]. intros _. rewrite Hd. reflexivity.
Qed.

Lemma excluir_rodada_cascata_witness :
  snd (excluir_rodada Exemplo.db_encerrada Exemplo.rodada1_str)
    = [(success, RodadaExcluida)] /\
  palpites_collection (fst (excluir_rodada Exemplo.db_encerrada Exemplo.rodada1_str))
    = [].
Proof.
  destruct (excluir_rodada_cascata Exemplo.db_encerrada Exemplo.rodada1_str
              Exemplo.rodada1 eq_refl) as [_ H].
  destruct H as (Hs & _); [discriminate|].
  split; [exact Hs | reflexivity].
Defined.

(** ** The leaderboard after a round is deleted or scored *)

Lemma soma_cons (x : Z) (l : list Z) : soma (x :: l) = x + soma l.
Proof. reflexivity. Qed.

Lemma soma_app (l1 l2 : list Z) : soma (l1 ++ l2) = soma l1 + soma l2.
Proof.
  induction l1 as [|x l1 IH]; [reflexivity|].
  rewrite <- app_comm_cons, !soma_cons, IH. lia.
Qed.

Lemma total_do_usuario_app (u : ObjectId) (c1 c2 : list Pontuacao) :
  total_do_usuario u (c1 ++ c2) = total_do_usuario u c1 + total_do_usuario u c2.
Proof.
  unfold total_do_usuario. rewrite filter_app, map_app. apply soma_app.
Qed.

(** X9: deleting a round lowers each user's leaderboard total by exactly the
    points of that user's score records of the deleted round. *)
Theorem excluir_rodada_total db rodada_id oid (u : ObjectId) :
  Bson.of_str rodada_id = Some oid ->
  Mongo.find_one (by_id oid) (rodadas_collection db) <> None ->
  total_do_usuario u (ranking_collection (fst (excluir_rodada db rodada_id)))
  = total_do_usuario u (ranking_collection db)
    - soma (map pontuacao_total
              (Mongo.find (do_usuario_no_ranking u oid) (ranking_collection db))).
Proof.
  intros Ho Hf. unfold excluir_rodada. rewrite Ho.
  pose proof (delete_one_spec (by_id oid) (rodadas_collection db)) as Hd.
  unfold Mongo.find_one in Hf.
  destruct (List.find (by_id oid) (rodadas_collection db)); [|contradiction].
  destruct (delete_one (by_id oid) (rodadas_collection db)) as [rs' deleted].
  cbn [snd] in Hd. destruct Hd as [-> _]. cbn [fst ranking_collection].
  unfold total_do_usuario, delete_many, Mongo.find, do_usuario_no_ranking,
    registro_da_rodada.
  induction (ranking_collection db) as [|d c IH]; cbn [filter map].
  - reflexivity.
  - destruct (Bson.eqb (r_rodada_id d) oid) eqn:E1;
      destruct (Bson.eqb (r_usuario_id d) u) eqn:E2;
      cbn [negb andb filter map]; rewrite ?E2; cbn [map]; rewrite ?soma_cons; lia.
Qed.

Lemma excluir_rodada_total_witness :
  total_do_usuario Exemplo.ana
    (ranking_collection
       (fst (excluir_rodada
               (mkDB Exemplo.usuarios [Exemplo.rodada_encerrada] [] Exemplo.pontuacoes)
               Exemplo.rodada1_str)))
  = 15 - 5.
Proof.
  rewrite (excluir_rodada_total
             (mkDB Exemplo.usuarios [Exemplo.rodada_encerrada] [] Exemplo.pontuacoes)
             Exemplo.rodada1_str Exemplo.rodada1 Exemplo.ana eq_refl).
  - reflexivity.
  - discriminate.
Defined.

Lemma upsert_one_sem_match {A : Type} (f : A -> bool) (set : A -> A) (novo : A)
  (c : list A) :
  (forall d, In d c -> f d = false) -> Mongo.upsert_one f set novo c = c ++ [novo].
Proof.
  induction c as [|d c IH]; intros H; cbn; [reflexivity|].
  rewrite (H d (or_introl eq_refl)). rewrite IH; [reflexivity|].
  intros d' Hd'. apply H. right. exact Hd'.
Qed.

Lemma fold_gravar_novos (rodada : Rodada) (oid : ObjectId) (agora : datetime)
  (ps : list Palpite) :
  NoDup (map p_usuario_id ps) ->
  forall c,
    (forall d q, In d c -> In q ps ->
                 do_usuario_no_ranking (p_usuario_id q) oid d = false) ->
    fold_left (gravar_pontuacao rodada oid agora) ps c
    = c ++ map (fun p => mkPontuacao (p_usuario_id p) oid
                           (pontuar_palpite rodada p) agora) ps.
Proof.
  induction ps as [|q ps IH]; intros Hnd c Hc; cbn [fold_left map].
  - rewrite app_nil_r. reflexivity.
  - cbn [map] in Hnd. inversion Hnd as [|? ? Hq Hnd']; subst.
    unfold gravar_pontuacao at 2.
    rewrite upsert_one_sem_match
      by (intros d Hd; apply (Hc d q Hd); left; reflexivity).
    rewrite IH; [rewrite <- app_assoc; reflexivity | exact Hnd' |].
    intros d q' Hd Hq'. apply in_app_or in Hd as [Hd|[<-|[]]].
    + apply (Hc d q' Hd). right. exact Hq'.
    + unfold do_usuario_no_ranking. cbn.
      destruct (Bson.eqb (p_usuario_id q) (p_usuario_id q')) eqn:E; [|reflexivity].
      apply bson_eqb_eq in E. exfalso. apply Hq. rewrite E.
      apply in_map. exact Hq'.
Qed.

(** X10: when a round with no score record yet is scored, the score
    collection grows by one record per prediction of the round, in the order
    of the predictions, and each user's leaderboard total grows by the total
    of that user's prediction (by nothing for a user without one). *)
Theorem calcular_ranking_no_placar_geral db agora rodada_id oid rodada :
  Bson.of_str rodada_id = Some oid ->
  Mongo.find_one (by_id oid) (rodadas_collection db) = Some rodada ->
  Forall (fun j => finalizado j = true) (jogos rodada) ->
  processada rodada = false ->
  let ps := Mongo.find (da_rodada oid) (palpites_collection db) in
  ps <> [] ->
  NoDup (map p_usuario_id ps) ->
  Mongo.find (registro_da_rodada oid) (ranking_collection db) = [] ->
  let db' := fst (calcular_ranking db agora rodada_id) in
  ranking_collection db'
  = ranking_collection db
    ++ map (fun p => mkPontuacao (p_usuario_id p) oid (pontuar_palpite rodada p) agora)
         ps /\
  forall u,
    total_do_usuario u (ranking_collection db')
    = total_do_usuario u (ranking_collection db)
      + soma (map (pontuar_palpite rodada)
                (List.filter (fun p => Bson.eqb (p_usuario_id p) u) ps)).
Proof.
  intros Ho Hr Hf Hp ps Hne Hnd Hfresh db'.
  assert (E : ranking_collection db'
              = ranking_collection db
                ++ map (fun p => mkPontuacao (p_usuario_id p) oid
                                   (pontuar_palpite rodada p) agora) ps).
  { subst db'. unfold calcular_ranking.
    rewrite Ho, Hr, (jogos_nao_finalizados_nil _ Hf), Hp. fold ps.
    destruct ps as [|p0 ps0] eqn:Eps; [contradiction|]. rewrite <- Eps in *.
    cbn [fst ranking_collection].
    apply fold_gravar_novos; [exact Hnd|].
    intros d q Hd _. unfold do_usuario_no_ranking.
    assert (Hd' : registro_da_rodada oid d = false).
    { destruct (registro_da_rodada oid d) eqn:F; [|reflexivity].
      assert (X : In d (Mongo.find (registro_da_rodada oid) (ranking_collection db)))
        by (apply filter_In; auto).
      rewrite Hfresh in X. destruct X. }
    unfold registro_da_rodada in Hd'. rewrite Hd'. apply andb_false_r. }
  split; [exact E|].
  intros u. rewrite E, total_do_usuario_app. f_equal.
  unfold total_do_usuario. clear. induction ps as [|p ps IH]; cbn [map filter].
  - reflexivity.
  - cbn [r_usuario_id]. destruct (Bson.eqb (p_usuario_id p) u); cbn [map];
      rewrite ?soma_cons; cbn [pontuacao_total]; [rewrite IH; reflexivity | exact IH].
Qed.

Lemma calcular_ranking_no_placar_geral_witness :
  total_do_usuario Exemplo.ana
    (ranking_collection
       (fst (calcular_ranking Exemplo.db_encerrada Exemplo.tarde Exemplo.rodada1_str)))
  = total_do_usuario Exemplo.ana (ranking_collection Exemplo.db_encerrada)
    + soma (map (pontuar_palpite Exemplo.rodada_encerrada)
              (List.filter (fun p => Bson.eqb (p_usuario_id p) Exemplo.ana)
                 (Mongo.find (da_rodada Exemplo.rodada1)
                    (palpites_collection Exemplo.db_encerrada)))).
Proof.
  apply (calcular_ranking_no_placar_geral Exemplo.db_encerrada Exemplo.tarde
           Exemplo.rodada1_str Exemplo.rodada1 Exemplo.rodada_encerrada).
  - reflexivity.
  - reflexivity.
  - repeat constructor.
  - reflexivity.
  - discriminate.
  - repeat constructor; cbn; intuition discriminate.
  - reflexivity.
Defined.

(** ** Creating a round *)

Lemma montar_jogos_spec (novo_id : nat -> ObjectId) (casas visitantes : list string) :
  forall acc js,
    montar_jogos novo_id casas visitantes acc = inr js ->
    exists novos,
      js = acc ++ novos /\
      map id_jogo novos
        = map novo_id (seq (List.length acc) (List.length novos)) /\
      Forall (fun j => placar_casa j = None /\ placar_visitante j = None /\
                       finalizado j = false) novos.
Proof.
  revert visitantes. induction casas as [|casa casas IH];
    intros visitantes acc js; cbn [montar_jogos].
  - intros H. injection H as <-. exists []. rewrite app_nil_r. repeat split.
    constructor.
  - destruct visitantes as [|visitante visitantes]; [discriminate|].
    destruct (negb (Py.truthy casa) && negb (Py.truthy visitante))%bool;
      [apply IH|].
    destruct (negb (Py.truthy casa) || negb (Py.truthy visitante))%bool;
      [discriminate|].
    destruct (Bson.of_str casa) as [casa_id|]; [|discriminate].
    destruct (Bson.of_str visitante) as [visitante_id|]; [|discriminate].
    intros H. apply IH in H as (novos & -> & Hids & Hall).
    rewrite length_app in Hids. cbn [List.length] in Hids.
    exists (mkJogo (novo_id (List.length acc)) casa_id visitante_id None None false
              :: novos).
    rewrite <- app_assoc. split; [reflexivity|]. split.
    + cbn [map List.length seq id_jogo]. f_equal.
      rewrite Hids. f_equal. f_equal. lia.
    + constructor; [cbn; auto | exact Hall].
Qed.

(** An early exit of the loop never carries the success category. *)
Lemma montar_jogos_inl (novo_id : nat -> ObjectId) (casas visitantes : list string) :
  forall acc f, montar_jogos novo_id casas visitantes acc = inl f -> fst f = danger.
Proof.
  revert visitantes. induction casas as [|casa casas IH];
    intros visitantes acc f; cbn [montar_jogos]; [discriminate|].
  destruct visitantes as [|visitante visitantes];
    [intros E; injection E as <-; reflexivity|].
  destruct (negb (Py.truthy casa) && negb (Py.truthy visitante))%bool;
    [apply IH|].
  destruct (negb (Py.truthy casa) || negb (Py.truthy visitante))%bool;
    [intros E; injection E as <-; reflexivity|].
  destruct (Bson.of_str casa); [|intros E; injection E as <-; reflexivity].
  destruct (Bson.of_str visitante); [|intros E; injection E as <-; reflexivity].
  apply IH.
Qed.

(** X11: [cadastrar_rodada] stores something only when it flashes the
    success message, and then it appends exactly one round: with the
    submitted number, which no stored round had; with a deadline that parses;
    not processed; with at least one match, the matches carrying the fresh
    identifiers in order, no score and no finalized flag. *)
Theorem cadastrar_rodada_rodada_nova db novo_id form :
  (forall n k,
     snd (cadastrar_rodada db novo_id form) = [(success, RodadaCadastrada n k)] ->
     exists r,
       fst (cadastrar_rodada db novo_id form)
         = mkDB (usuarios_collection db) (rodadas_collection db ++ [r])
                (palpites_collection db) (ranking_collection db) /\
       numero r = n /\
       Mongo.find_one (fun r0 => numero r0 =? n) (rodadas_collection db) = None /\
       prazo_valido r = true /\ processada r = false /\
       rodada_id_ r = novo_id k /\
       List.length (jogos r) = k /\ (0 < k)%nat /\
       map id_jogo (jogos r) = map novo_id (seq 0 k) /\
       Forall (fun j => placar_casa j = None /\ placar_visitante j = None /\
                        finalizado j = false) (jogos r)) /\
  ((forall n k,
      snd (cadastrar_rodada db novo_id form) <> [(success, RodadaCadastrada n k)]) ->
   fst (cadastrar_rodada db novo_id form) = db).
Proof.
  unfold cadastrar_rodada.
  destruct (form_get form "numero_rodada") as [numero_str|];
    [|split; [intros; discriminate | reflexivity]].
  destruct (Py.int numero_str) as [numero_rodada|];
    [|split; [intros; discriminate | reflexivity]].
  destruct (negb (Bson.int_8_bytes numero_rodada));
    [split; [intros; discriminate | reflexivity]|].
  destruct (Mongo.find_one _ _) eqn:Ef;
    [split; [intros; discriminate | reflexivity]|].
  destruct (form_get form "data_limite") as [data|];
    [|split; [intros; discriminate | reflexivity]].
  destruct (form_get form "hora_limite") as [hora|];
    [|split; [intros; discriminate | reflexivity]].
  destruct (negb (Py.truthy data) || negb (Py.truthy hora))%bool;
    [split; [intros; discriminate | reflexivity]|].
  destruct (Datetime.strptime _) as [d|] eqn:Ed;
    [|split; [intros; discriminate | reflexivity]].
  destruct (montar_jogos _ _ _ _) as [f|js] eqn:Em.
  - split; [|reflexivity]. cbn [snd]. intros n k H. injection H as ->.
    apply montar_jogos_inl in Em. discriminate Em.
  - apply montar_jogos_spec in Em as (novos & -> & Hids & Hall).
    cbn [app List.length] in *.
    destruct novos as [|j novos]; [split; [intros; discriminate | reflexivity]|].
    split.
    + cbn [snd fst]. intros n k H. injection H as <- <-.
      eexists. split; [reflexivity|]. cbn [numero prazo_valido processada
                                             rodada_id_ jogos data_limite_apostas].
      unfold prazo_valido. cbn [data_limite_apostas]. rewrite Ed.
      repeat split; auto. cbn [List.length]. lia.
    + intros H. exfalso. apply (H numero_rodada (List.length (j :: novos))).
      reflexivity.
Qed.

Lemma cadastrar_rodada_rodada_nova_witness :
  exists r,
    rodadas_collection
      (fst (cadastrar_rodada Exemplo.db_aberta Exemplo.novo_id Exemplo.form_rodada))
    = [Exemplo.rodada_aberta; r] /\
    numero r = 2 /\ List.length (jogos r) = 1%nat.
Proof.
  destruct (proj1 (cadastrar_rodada_rodada_nova Exemplo.db_aberta Exemplo.novo_id
                     Exemplo.form_rodada) 2 1%nat eq_refl)
    as (r & Hdb & Hn & _ & _ & _ & _ & Hlen & _).
  exists r. rewrite Hdb. repeat split; assumption.
Defined.

(** *** Numbers stay unique and deadlines parseable *)

Lemma map_update_one {A B : Type} (g : A -> B) (f : A -> bool) (set : A -> A)
  (c : list A) :
  (forall d, List.find f c = Some d -> g (set d) = g d) ->
  map g (Mongo.update_one f set c) = map g c.
Proof.
  induction c as [|d c IH]; cbn [Mongo.update_one map find]; intros H;
    [reflexivity|].
  destruct (f d) eqn:E; cbn [map].
  - rewrite (H d eq_refl). reflexivity.
  - rewrite IH; [reflexivity | exact H].
Qed.

Lemma delete_one_In {A : Type} (f : A -> bool) (c : list A) (x : A) :
  In x (fst (delete_one f c)) -> In x c.
Proof.
  induction c as [|d c IH]; cbn [delete_one]; [auto|].
  destruct (f d); cbn [fst]; [right; assumption|].
  destruct (delete_one f c) as [c'' deleted]. cbn [fst] in *.
  intros [<-|H]; [left; reflexivity | right; apply IH; exact H].
Qed.

Lemma delete_one_NoDup_map {A B : Type} (g : A -> B) (f : A -> bool) (c : list A) :
  NoDup (map g c) -> NoDup (map g (fst (delete_one f c))).
Proof.
  induction c as [|d c IH]; cbn [delete_one map]; intros H; [exact H|].
  inversion H as [|? ? Hd Hc]; subst.
  destruct (f d); cbn [fst]; [exact Hc|].
  pose proof (delete_one_In f c) as Hin.
  destruct (delete_one f c) as [c'' deleted]. cbn [fst map] in *.
  constructor; [|apply IH; exact Hc].
  intros Hx. apply Hd. apply in_map_iff in Hx as (y & <- & Hy).
  apply in_map. apply Hin. exact Hy.
Qed.

Lemma find_numero_None (n : Z) (c : list Rodada) :
  Mongo.find_one (fun r0 => numero r0 =? n) c = None -> ~ In n (map numero c).
Proof.
  intros Hf Hin. apply in_map_iff in Hin as (r & Hn & Hr).
  apply (find_none _ _ Hf) in Hr. cbn in Hr. rewrite Hn, Z.eqb_refl in Hr.
  discriminate.
Qed.

Lemma NoDup_app_one {A : Type} (l : list A) (x : A) :
  NoDup l -> ~ In x l -> NoDup (l ++ [x]).
Proof.
  induction l as [|a l IH]; cbn; intros Hnd Hx.
  - repeat constructor. intros [].
  - inversion Hnd as [|? ? Ha Hl]; subst. constructor.
    + intros Hin. apply in_app_or in Hin as [Hin|[<-|[]]]; [contradiction|].
      apply Hx. left. reflexivity.
    + apply IH; [exact Hl|]. intros Hin. apply Hx. right. exact Hin.
Qed.

(** X12: every handler that writes to the round collection keeps two
    facts about it: no two stored rounds share a number, and every stored
    deadline parses. *)
Theorem rodadas_bem_formadas_mantidas (db : DB) :
  rodadas_bem_formadas db ->
  (forall novo_id form,
     rodadas_bem_formadas (fst (cadastrar_rodada db novo_id form))) /\
  (forall form rodada_id,
     rodadas_bem_formadas (fst (placar_admin_salvar db form rodada_id))) /\
  (forall agora rodada_id,
     rodadas_bem_formadas (fst (calcular_ranking db agora rodada_id))) /\
  (forall rodada_id, rodadas_bem_formadas (fst (excluir_rodada db rodada_id))) /\
  (forall sess form agora agora' rodada_id,
     rodadas_bem_formadas (fst (salvar_aposta db sess form agora agora' rodada_id))).
Proof.
  intros [Hn Hp]. split; [|split; [|split; [|split]]].
  - intros novo_id form.
    destruct (cadastrar_rodada_rodada_nova db novo_id form) as [Hs Hf].
    destruct (snd (cadastrar_rodada db novo_id form)) as [|[[] []] []] eqn:E;
      try (rewrite Hf; [split; assumption | intros n k; discriminate]).
    destruct (Hs _ _ eq_refl) as (r & -> & Hnum & Hnone & Hpz & _).
    unfold rodadas_bem_formadas. cbn [rodadas_collection]. split.
    + rewrite map_app. cbn [map]. apply NoDup_app_one; [exact Hn|].
      rewrite Hnum. apply find_numero_None. exact Hnone.
    + apply Forall_app. split; [exact Hp|]. constructor; [exact Hpz|constructor].
  - intros form rodada_id. unfold rodadas_bem_formadas.
    destruct (Bson.of_str rodada_id) as [oid|] eqn:Ho;
      [|unfold placar_admin_salvar; rewrite Ho; split; assumption].
    destruct (Mongo.find_one (by_id oid) (rodadas_collection db)) as [rodada|] eqn:Hr;
      [|unfold placar_admin_salvar; rewrite Ho, Hr; split; assumption].
    destruct (forallb jogo_codificavel
                (map (fun j => fst (fst (registrar_placar form j))) (jogos rodada)))
      eqn:Ecod;
      [|rewrite (placar_admin_salvar_estouro _ _ _ _ _ Ho Hr Ecod);
        split; assumption].
    rewrite (placar_admin_salvar_jogos _ _ _ _ _ Ho Hr Ecod). split.
    + rewrite map_update_one; [exact Hn | reflexivity].
    + apply update_one_Forall; [|exact Hp]. intros d Hd. exact Hd.
  - intros agora rodada_id. unfold rodadas_bem_formadas, calcular_ranking.
    destruct (Bson.of_str rodada_id) as [oid|]; [|split; assumption].
    destruct (Mongo.find_one _ _) as [rodada|]; [|split; assumption].
    destruct (List.filter _ (jogos rodada)); [|split; assumption].
    destruct (processada rodada); [split; assumption|].
    destruct (Mongo.find _ _); [split; assumption|].
    cbn [fst rodadas_collection]. split.
    + rewrite map_update_one; [exact Hn | reflexivity].
    + apply update_one_Forall; [|exact Hp]. intros d Hd. exact Hd.
  - intros rodada_id. unfold rodadas_bem_formadas, excluir_rodada.
    destruct (Bson.of_str rodada_id) as [oid|]; [|split; assumption].
    pose proof (delete_one_NoDup_map numero (by_id oid) _ Hn) as Hn'.
    pose proof (delete_one_In (by_id oid) (rodadas_collection db)) as Hin.
    destruct (delete_one (by_id oid) (rodadas_collection db)) as [rs' [|]];
      [|split; assumption].
    cbn [fst rodadas_collection] in *. split; [exact Hn'|].
    rewrite Forall_forall in *. intros x Hx. apply Hp, Hin, Hx.
  - intros sess form agora agora' rodada_id. unfold rodadas_bem_formadas.
    rewrite salvar_aposta_rodadas. split; assumption.
Qed.

Lemma rodadas_bem_formadas_mantidas_witness :
  rodadas_bem_formadas
    (fst (cadastrar_rodada Exemplo.db_aberta Exemplo.novo_id Exemplo.form_rodada)).
Proof.
  apply (rodadas_bem_formadas_mantidas Exemplo.db_aberta).
  split.
  - repeat constructor. intros [].
  - repeat constructor.
Defined.

(** X13: while every stored deadline parses, neither a submission nor a
    consultation ever ends in its invalid-deadline-format message. *)
Theorem formato_invalido_inalcancavel (db : DB) rodada_id :
  Forall (fun r => prazo_valido r = true) (rodadas_collection db) ->
  (forall sess form agora agora',
     snd (salvar_aposta db sess form agora agora' rodada_id)
     <> [(danger, FormatoDataLimiteInvalido)]) /\
  (forall agora,
     consulta_palpites db agora rodada_id <> inl (danger, ConsultaFormatoInvalido)).
Proof.
  intros Hp.
  assert (K : forall oid rodada,
             Mongo.find_one (by_id oid) (rodadas_collection db) = Some rodada ->
             Datetime.strptime (data_limite_apostas rodada) <> None).
  { intros oid rodada Hr E. apply find_some in Hr as [Hin _].
    rewrite Forall_forall in Hp. specialize (Hp _ Hin).
    unfold prazo_valido in Hp. rewrite E in Hp. discriminate. }
  split.
  - intros sess form agora agora'. unfold salvar_aposta.
    destruct (Bson.of_str rodada_id) as [oid|]; [|discriminate].
    destruct (Mongo.find_one _ _) as [rodada|] eqn:Hr; [|discriminate].
    specialize (K _ _ Hr).
    destruct (Datetime.strptime _) as [limite|]; [|contradiction].
    destruct (Datetime.geb agora limite); [discriminate|].
    destruct (Bson.of_str sess); [|discriminate].
    destruct (ler_palpites _ _) as [ps|]; [|discriminate].
    destruct (forallb palpite_codificavel ps); discriminate.
  - intros agora. unfold consulta_palpites.
    destruct (Bson.of_str rodada_id) as [oid|]; [|discriminate].
    destruct (Mongo.find_one _ _) as [rodada|] eqn:Hr; [|discriminate].
    specialize (K _ _ Hr).
    destruct (Datetime.strptime _) as [limite|]; [|contradiction].
    destruct (Datetime.ltb agora limite); [discriminate|].
    destruct (mapear_palpites _ _); discriminate.
Qed.

Lemma formato_invalido_inalcancavel_witness :
  snd (salvar_aposta Exemplo.db_aberta Exemplo.ana_str Exemplo.form_parcial
         Exemplo.cedo Exemplo.cedo Exemplo.rodada1_str)
  <> [(danger, FormatoDataLimiteInvalido)].
Proof.
  refine (proj1 (formato_invalido_inalcancavel Exemplo.db_aberta
                   Exemplo.rodada1_str _) _ _ _ _).
  repeat constructor.
Defined.

Lemma find_one_app_novo {A : Type} (f : A -> bool) (c : list A) (x : A) :
  (forall d, In d c -> f d = false) -> f x = true ->
  Mongo.find_one f (c ++ [x]) = Some x.
Proof.
  intros Hc Hx. unfold Mongo.find_one.
  induction c as [|d c IH]; cbn.
  - rewrite Hx. reflexivity.
  - rewrite (Hc d (or_introl eq_refl)). apply IH.
    intros d' Hd'. apply Hc. right. exact Hd'.
Qed.

(** X14: a round that has just been created cannot be scored: provided its
    fresh identifier is not the identifier of an older round, the scoring
    action answers that a match still lacks its official score and changes
    nothing. *)
Theorem rodada_nova_nao_pontuavel db novo_id form n k agora rodada_id :
  snd (cadastrar_rodada db novo_id form) = [(success, RodadaCadastrada n k)] ->
  (forall r0, In r0 (rodadas_collection db) -> rodada_id_ r0 <> novo_id k) ->
  Bson.of_str rodada_id = Some (novo_id k) ->
  calcular_ranking (fst (cadastrar_rodada db novo_id form)) agora rodada_id
  = (fst (cadastrar_rodada db novo_id form), [(warning, JogoSemPlacarOficial n)]).
Proof.
  intros Hs Hfresh Ho.
  destruct (proj1 (cadastrar_rodada_rodada_nova db novo_id form) n k Hs)
    as (r & -> & Hn & _ & _ & _ & Hid & Hlen & Hk & _ & Hall).
  unfold calcular_ranking. rewrite Ho. cbn [rodadas_collection].
  rewrite (find_one_app_novo (by_id (novo_id k)) _ r).
  - destruct (jogos r) as [|j js]; [cbn in Hlen; lia|].
    inversion Hall as [|? ? (_ & _ & Hf) _]; subst.
    cbn [filter]. rewrite Hf. cbn. reflexivity.
  - intros d Hd. unfold by_id.
    destruct (Bson.eqb (rodada_id_ d) (novo_id k)) eqn:E; [|reflexivity].
    apply bson_eqb_eq in E. exfalso. exact (Hfresh d Hd E).
  - unfold by_id. rewrite Hid. apply bson_eqb_refl.
Qed.

Lemma rodada_nova_nao_pontuavel_witness :
  calcular_ranking
    (fst (cadastrar_rodada Exemplo.db_aberta Exemplo.novo_id Exemplo.form_rodada))
    Exemplo.tarde "000000000000000000000011"
  = (fst (cadastrar_rodada Exemplo.db_aberta Exemplo.novo_id Exemplo.form_rodada),
     [(warning, JogoSemPlacarOficial 2)]).
Proof.
  apply (rodada_nova_nao_pontuavel Exemplo.db_aberta Exemplo.novo_id
           Exemplo.form_rodada 2 1%nat Exemplo.tarde).
  - reflexivity.
  - intros r0 [<-|[]]. discriminate.
  - reflexivity.
Defined.

(** ** Recording results *)

Lemma registrar_placar_idem (form : Form) (j : Jogo) :
  registrar_placar form (fst (fst (registrar_placar form j)))
  = registrar_placar form j.
Proof.
  unfold registrar_placar at 2.
  destruct (placar_ou_none (form_get form ("placar_casa_" ++ Bson.str (id_jogo j))))
    as [casa|] eqn:Ec; cbn [fst].
  - destruct (placar_ou_none
                (form_get form ("placar_visitante_" ++ Bson.str (id_jogo j))))
      as [visitante|] eqn:Ev; cbn [fst].
    + destruct casa as [a|], visitante as [b|]; cbn [fst];
        unfold registrar_placar; cbn [id_jogo time_casa_id time_visitante_id];
        rewrite Ec, Ev; reflexivity.
    + unfold registrar_placar. rewrite Ec, Ev. reflexivity.
  - unfold registrar_placar. rewrite Ec. reflexivity.
Qed.

Lemma registrar_placares_idem (form : Form) (js : list Jogo) :
  registrar_placares form (map (fun j => fst (fst (registrar_placar form j))) js)
  = registrar_placares form js.
Proof.
  induction js as [|j js IH]; cbn [map registrar_placares]; [reflexivity|].
  rewrite registrar_placar_idem, IH. reflexivity.
Qed.

Lemma update_one_idem {A : Type} (f : A -> bool) (set : A -> A) (c : list A) :
  (forall d, f d = true -> f (set d) = true) ->
  (forall d, set (set d) = set d) ->
  Mongo.update_one f set (Mongo.update_one f set c) = Mongo.update_one f set c.
Proof.
  intros Hk Hi. induction c as [|d c IH]; cbn; [reflexivity|].
  destruct (f d) eqn:E; cbn.
  - rewrite (Hk d E), Hi. reflexivity.
  - rewrite E, IH. reflexivity.
Qed.

(** X15: recording results is idempotent: sending the same form for the same
    round a second time returns the database of the first time, with the
    same messages. *)
Theorem placar_admin_salvar_idempotente db form rodada_id :
  placar_admin_salvar (fst (placar_admin_salvar db form rodada_id)) form rodada_id
  = placar_admin_salvar db form rodada_id.
Proof.
  destruct (Bson.of_str rodada_id) as [oid|] eqn:Ho;
    [|unfold placar_admin_salvar; rewrite !Ho; reflexivity].
  destruct (Mongo.find_one (by_id oid) (rodadas_collection db)) as [rodada|] eqn:Hr;
    [|unfold placar_admin_salvar; rewrite !Ho, !Hr; cbn [fst]; rewrite Hr;
      reflexivity].
  destruct (forallb jogo_codificavel
              (map (fun j => fst (fst (registrar_placar form j))) (jogos rodada)))
    eqn:Ecod.
  - pose proof (placar_admin_salvar_jogos db form rodada_id oid rodada Ho Hr Ecod)
      as Hj.
    unfold placar_admin_salvar at 1. rewrite Ho, Hj.
    rewrite find_one_update_one by (intros d Hd; exact Hd).
    rewrite Hr. cbn [option_map jogos numero].
    rewrite registrar_placares_idem.
    unfold placar_admin_salvar. rewrite Ho, Hr.
    pose proof (registrar_placares_map form (jogos rodada)) as Hm.
    destruct (registrar_placares form (jogos rodada)) as [[js n] avisos].
    cbn [fst] in Hm. subst js. rewrite Ecod.
    cbn [fst usuarios_collection rodadas_collection palpites_collection
         ranking_collection].
    rewrite length_map. f_equal. f_equal.
    apply update_one_idem; [intros d Hd; exact Hd | reflexivity].
  - pose proof (placar_admin_salvar_estouro db form rodada_id oid rodada Ho Hr Ecod)
      as He.
    rewrite He. cbn [fst]. exact He.
Qed.

Lemma placar_admin_salvar_outras db form rodada_id :
  usuarios_collection (fst (placar_admin_salvar db form rodada_id))
    = usuarios_collection db /\
  palpites_collection (fst (placar_admin_salvar db form rodada_id))
    = palpites_collection db /\
  ranking_collection (fst (placar_admin_salvar db form rodada_id))
    = ranking_collection db.
Proof.
  unfold placar_admin_salvar.
  destruct (Bson.of_str rodada_id) as [oid|]; [|auto].
  destruct (Mongo.find_one _ _) as [rodada|]; [|auto].
  destruct (registrar_placares form (jogos rodada)) as [[js n] avisos].
  destruct (forallb jogo_codificavel js); cbn; auto.
Qed.

Lemma registrar_placar_esqueleto (form : Form) (j : Jogo) :
  esqueleto_jogo (fst (fst (registrar_placar form j))) = esqueleto_jogo j.
Proof.
  unfold registrar_placar.
  destruct (placar_ou_none _) as [[a|]|]; [| |reflexivity];
    destruct (placar_ou_none _) as [[b|]|]; reflexivity.
Qed.

(** X16: recording results changes nothing but official scores and
    finalized flags: users, predictions and score records are left as they
    were (also when the round is already processed), and every round keeps its
    identifier, number, deadline, processed flag and its matches' identifiers
    and teams, in the same order. *)
Theorem placar_admin_salvar_so_placares db form rodada_id :
  usuarios_collection (fst (placar_admin_salvar db form rodada_id))
    = usuarios_collection db /\
  palpites_collection (fst (placar_admin_salvar db form rodada_id))
    = palpites_collection db /\
  ranking_collection (fst (placar_admin_salvar db form rodada_id))
    = ranking_collection db /\
  map esqueleto (rodadas_collection (fst (placar_admin_salvar db form rodada_id)))
    = map esqueleto (rodadas_collection db).
Proof.
  destruct (placar_admin_salvar_outras db form rodada_id) as (Hu & Hp & Hk).
  repeat split; try assumption.
  destruct (Bson.of_str rodada_id) as [oid|] eqn:Ho;
    [|unfold placar_admin_salvar; rewrite Ho; reflexivity].
  destruct (Mongo.find_one (by_id oid) (rodadas_collection db)) as [rodada|] eqn:Hr;
    [|unfold placar_admin_salvar; rewrite Ho, Hr; reflexivity].
  destruct (forallb jogo_codificavel
              (map (fun j => fst (fst (registrar_placar form j))) (jogos rodada)))
    eqn:Ecod;
    [|rewrite (placar_admin_salvar_estouro _ _ _ _ _ Ho Hr Ecod); reflexivity].
  rewrite (placar_admin_salvar_jogos _ _ _ _ _ Ho Hr Ecod).
  apply map_update_one. intros d Hd.
  unfold Mongo.find_one in Hr. rewrite Hr in Hd. injection Hd as <-.
  unfold esqueleto. cbn [rodada_id_ numero data_limite_apostas processada jogos].
  f_equal. rewrite map_map. apply map_ext. intros j.
  apply registrar_placar_esqueleto.
Qed.

Lemma registrar_placar_completo (form : Form) (j : Jogo) :
  placar_completo form j ->
  finalizado (fst (fst (registrar_placar form j))) = true /\
  jogo_codificavel (fst (fst (registrar_placar form j))) = true.
Proof.
  intros (a & b & Ha & Hb & Ia & Ib). unfold registrar_placar.
  rewrite Ha, Hb. unfold jogo_codificavel. cbn. rewrite Ia, Ib. auto.
Qed.

(** X17: once a form of plain texts that holds both scores of every match
    of a round, each an integer that fits in 8 bytes, has been recorded,
    every match of the round is finalized, and scoring the round, if it is
    not processed yet and has predictions, succeeds. *)
Theorem placares_completos_liberam_pontuacao db form rodada_id oid rodada agora :
  Bson.of_str rodada_id = Some oid ->
  Mongo.find_one (by_id oid) (rodadas_collection db) = Some rodada ->
  form_simples form ->
  Forall (placar_completo form) (jogos rodada) ->
  let db' := fst (placar_admin_salvar db form rodada_id) in
  (exists rodada',
     Mongo.find_one (by_id oid) (rodadas_collection db') = Some rodada' /\
     Forall (fun j => finalizado j = true) (jogos rodada')) /\
  (processada rodada = false ->
   Mongo.find (da_rodada oid) (palpites_collection db) <> [] ->
   snd (calcular_ranking db' agora rodada_id)
   = [(success, CalculoConcluido (numero rodada)
                  (List.length (Mongo.find (da_rodada oid) (palpites_collection db))))]).
Proof.
  intros Ho Hr _ Hc db'.
  assert (Ecod : forallb jogo_codificavel
                   (map (fun j => fst (fst (registrar_placar form j)))
                      (jogos rodada)) = true).
  { apply forallb_forall. intros j' Hj'.
    apply in_map_iff in Hj' as (j & <- & Hj).
    rewrite Forall_forall in Hc. apply registrar_placar_completo, Hc, Hj. }
  assert (Hf : Mongo.find_one (by_id oid) (rodadas_collection db')
               = Some (mkRodada (rodada_id_ rodada) (numero rodada)
                         (data_limite_apostas rodada)
                         (map (fun j => fst (fst (registrar_placar form j)))
                            (jogos rodada))
                         (processada rodada))).
  { subst db'. rewrite (placar_admin_salvar_jogos _ _ _ _ _ Ho Hr Ecod).
    rewrite find_one_update_one by (intros d Hd; exact Hd).
    rewrite Hr. reflexivity. }
  assert (Hall : Forall (fun j => finalizado j = true)
                   (map (fun j => fst (fst (registrar_placar form j))) (jogos rodada))).
  { apply Forall_map. eapply Forall_impl; [|exact Hc].
    intros j. apply registrar_placar_completo. }
  split.
  - eexists. split; [exact Hf|]. exact Hall.
  - intros Hp Hne. unfold calcular_ranking. rewrite Ho, Hf.
    cbn [jogos processada numero]. rewrite (jogos_nao_finalizados_nil _ Hall), Hp.
    subst db'. rewrite (proj1 (proj2 (placar_admin_salvar_outras db form rodada_id))).
    destruct (Mongo.find (da_rodada oid) (palpites_collection db));
      [contradiction|reflexivity].
Qed.

Lemma placares_completos_liberam_pontuacao_witness :
  snd (calcular_ranking
         (fst (placar_admin_salvar Exemplo.db_parcial Exemplo.form_negativa
                 Exemplo.rodada1_str))
         Exemplo.tarde Exemplo.rodada1_str)
  = [(success, CalculoConcluido 1 1)].
Proof.
  refine (proj2 (placares_completos_liberam_pontuacao Exemplo.db_parcial
                   Exemplo.form_negativa Exemplo.rodada1_str Exemplo.rodada1
                   Exemplo.rodada_parcial Exemplo.tarde eq_refl eq_refl _ _) _ _).
  - repeat constructor.
  - constructor; [exists (-1), 0; repeat split; reflexivity|].
    constructor; [exists 1, 1; repeat split; reflexivity|]. constructor.
  - reflexivity.
  - discriminate.
Defined.

(** ** Deadlines compared as text *)

Lemma digit_char_compare (a b : Z) :
  0 <= a <= 9 -> 0 <= b <= 9 ->
  Ascii.compare (digit_char a) (digit_char b) = (a ?= b).
Proof.
  intros Ha Hb. unfold Ascii.compare, digit_char.
  rewrite !N_ascii_embedding by lia.
  rewrite Z2N.inj_compare by lia. apply Z.add_compare_mono_l.
Qed.

Lemma compare_divmod (p a b : Z) :
  0 < p -> 0 <= a -> 0 <= b ->
  match a / p ?= b / p with
  | Eq => a mod p ?= b mod p
  | c => c
  end = (a ?= b).
Proof.
  intros Hp Ha Hb.
  pose proof (Z.div_mod a p ltac:(lia)) as Ea.
  pose proof (Z.div_mod b p ltac:(lia)) as Eb.
  pose proof (Z.mod_pos_bound a p Hp) as Ba.
  pose proof (Z.mod_pos_bound b p Hp) as Bb.
  destruct (Z.compare_spec (a / p) (b / p)) as [E|E|E].
  - destruct (Z.compare_spec (a mod p) (b mod p)) as [F|F|F]; symmetry.
    + apply Z.compare_eq_iff. rewrite Ea, Eb, E, F. reflexivity.
    + apply Z.compare_lt_iff. rewrite Ea, Eb, E. lia.
    + apply Z.compare_gt_iff. rewrite Ea, Eb, E. lia.
  - symmetry. apply Z.compare_lt_iff. nia.
  - symmetry. apply Z.compare_gt_iff. nia.
Qed.

(** Zero-padded numbers of equal width compare as text the way they compare
    as numbers. *)
Lemma dec_compare (w : nat) :
  forall a b s1 s2,
    0 <= a < 10 ^ Z.of_nat w -> 0 <= b < 10 ^ Z.of_nat w ->
    String.compare (dec w a ++ s1) (dec w b ++ s2)
    = match a ?= b with
      | Eq => String.compare s1 s2
      | c => c
      end.
Proof.
  induction w as [|w IH]; intros a b s1 s2 Ha Hb.
  - cbn in Ha, Hb. assert (a = 0) by lia. assert (b = 0) by lia. subst.
    reflexivity.
  - rewrite Nat2Z.inj_succ, Z.pow_succ_r in Ha, Hb by lia.
    set (p := 10 ^ Z.of_nat w) in *.
    assert (Hp : 0 < p) by (apply Z.pow_pos_nonneg; lia).
    cbn [dec append String.compare]. fold p.
    rewrite digit_char_compare.
    + rewrite IH by (apply Z.mod_pos_bound; exact Hp).
      rewrite <- (compare_divmod p a b) by lia.
      destruct (a / p ?= b / p); [|reflexivity|reflexivity].
      destruct (a mod p ?= b mod p); reflexivity.
    + split; [apply Z.div_pos; lia|].
      assert (a / p < 10) by (apply Z.div_lt_upper_bound; lia). lia.
    + split; [apply Z.div_pos; lia|].
      assert (b / p < 10) by (apply Z.div_lt_upper_bound; lia). lia.
Qed.

Lemma dec_sep_compare (w : nat) (a b : Z) (c : ascii) (s1 s2 : string) :
  0 <= a < 10 ^ Z.of_nat w -> 0 <= b < 10 ^ Z.of_nat w ->
  String.compare (dec w a ++ String c s1) (dec w b ++ String c s2)
  = match a ?= b with
    | Eq => String.compare s1 s2
    | c => c
    end.
Proof.
  intros Ha Hb. rewrite dec_compare by assumption.
  cbn [String.compare]. unfold Ascii.compare. rewrite N.compare_refl.
  reflexivity.
Qed.

Lemma append_empty (s : string) : (s ++ "")%string = s.
Proof. induction s as [|c s IH]; cbn; [reflexivity|]. rewrite IH. reflexivity. Qed.

Lemma dec_end_compare (w : nat) (a b : Z) :
  0 <= a < 10 ^ Z.of_nat w -> 0 <= b < 10 ^ Z.of_nat w ->
  String.compare (dec w a) (dec w b)
  = match a ?= b with
    | Eq => Eq
    | c => c
    end.
Proof.
  intros Ha Hb.
  rewrite <- (append_empty (dec w a)), <- (append_empty (dec w b)).
  rewrite dec_compare by assumption. reflexivity.
Qed.

Lemma strftime_eq (d : datetime) :
  strftime d
  = (dec 4 (Datetime.year d)
     ++ String "-" (dec 2 (Datetime.month d)
     ++ String "-" (dec 2 (Datetime.day d)
     ++ String "T" (dec 2 (Datetime.hour d)
     ++ String ":" (dec 2 (Datetime.minute d))))))%string.
Proof. reflexivity. Qed.

(** The texts that [strftime] gives for two valid dates compare as the
    dates do, up to the minute. *)
Lemma strftime_compare (d1 d2 : datetime) :
  data_valida d1 -> data_valida d2 ->
  String.compare (strftime d1) (strftime d2)
  = Datetime.compare (no_minuto d1) (no_minuto d2).
Proof.
  intros (Hy1 & Hm1 & Hd1 & HH1 & HM1 & _) (Hy2 & Hm2 & Hd2 & HH2 & HM2 & _).
  assert (E4 : 10 ^ Z.of_nat 4 = 10000) by reflexivity.
  assert (E2 : 10 ^ Z.of_nat 2 = 100) by reflexivity.
  rewrite !strftime_eq.
  rewrite !dec_sep_compare, dec_end_compare by (rewrite ?E4, ?E2; lia).
  unfold Datetime.compare, no_minuto, Datetime.fields.
  cbn [Datetime.year Datetime.month Datetime.day Datetime.hour Datetime.minute
       Datetime.second Datetime.microsecond Datetime.lex].
  rewrite !Z.compare_refl.
  repeat first [ reflexivity
               | match goal with
                 | |- context [?a ?= ?b] => destruct (a ?= b)
                 end ].
Qed.

Lemma no_minuto_id (d : datetime) :
  Datetime.second d = 0 -> Datetime.microsecond d = 0 -> no_minuto d = d.
Proof. destruct d. cbn. intros -> ->. reflexivity. Qed.

Ltac por_campos :=
  repeat match goal with
         | H : context [?a ?= ?b] |- _ => destruct (Z.compare_spec a b)
         | |- context [?a ?= ?b] => destruct (Z.compare_spec a b)
         end;
  subst; try congruence; try lia.

(** X18: for a round whose stored deadline is the text that [strftime] gives
    for its parsed value, the text filter of [get_proxima_rodada_aberta] and
    [admin_status_apostas] passes exactly when the deadline is not before the
    current time cut to the minute. So it passes whenever the round is still
    open for submission; and when it passes although submissions are closed,
    the current time lies in the very minute of the deadline. *)
Theorem prazo_como_texto (r : Rodada) (limite agora : datetime) :
  Datetime.strptime (data_limite_apostas r) = Some limite ->
  data_limite_apostas r = strftime limite ->
  data_valida limite -> data_valida agora ->
  Datetime.second limite = 0 -> Datetime.microsecond limite = 0 ->
  (prazo_gte (strftime agora) r = true
   <-> Datetime.compare limite (no_minuto agora) <> Lt) /\
  (aberta_em agora r = true -> prazo_gte (strftime agora) r = true) /\
  (prazo_gte (strftime agora) r = true -> aberta_em agora r = false ->
   limite = no_minuto agora).
Proof.
  intros Hs Ht Hvl Hva Hsec Hmic.
  assert (Hiff : prazo_gte (strftime agora) r = true
                 <-> Datetime.compare limite (no_minuto agora) <> Lt).
  { unfold prazo_gte, String.ltb. rewrite Ht, strftime_compare by assumption.
    rewrite (no_minuto_id limite Hsec Hmic).
    destruct (Datetime.compare limite (no_minuto agora)); cbn;
      split; congruence. }
  split; [exact Hiff|].
  unfold aberta_em. rewrite Hs. unfold Datetime.gtb, Datetime.ltb.
  destruct Hva as (_ & _ & _ & _ & _ & Hsa & Hma).
  rewrite Hiff. clear Hiff Hs Ht Hvl.
  destruct limite as [y m d H M s u], agora as [y' m' d' H' M' s' u'].
  unfold Datetime.compare, no_minuto, Datetime.fields in *.
  cbn [Datetime.year Datetime.month Datetime.day Datetime.hour Datetime.minute
       Datetime.second Datetime.microsecond Datetime.lex] in *.
  subst s u. split.
  - intros Hopen Hlt. por_campos.
  - intros Hge Hclosed.
    assert (y = y' /\ m = m' /\ d = d' /\ H = H' /\ M = M') as (-> & -> & -> & -> & ->).
    { por_campos; try (exfalso; apply Hge; reflexivity); repeat split; lia. }
    reflexivity.
Qed.

Lemma prazo_como_texto_witness :
  prazo_gte (strftime Exemplo.cedo) Exemplo.rodada_aberta = true /\
  prazo_gte (strftime Exemplo.tarde) Exemplo.rodada_aberta = false.
Proof.
  destruct (prazo_como_texto Exemplo.rodada_aberta Exemplo.limite Exemplo.cedo)
    as (_ & H & _).
  - reflexivity.
  - reflexivity.
  - unfold data_valida. cbn. lia.
  - unfold data_valida. cbn. lia.
  - reflexivity.
  - reflexivity.
  - split; [apply H; reflexivity | reflexivity].
Defined.

(** ** The next open round and the betting status *)

Lemma numero_asc_total (a b : Rodada) :
  numero_asc a b = true \/ numero_asc b a = true.
Proof.
  unfold numero_asc. destruct (Z.leb_spec (numero a) (numero b)); [auto|right].
  apply Z.leb_le. lia.
Qed.

Lemma numero_asc_trans (a b c : Rodada) :
  numero_asc a b = true -> numero_asc b c = true -> numero_asc a c = true.
Proof. unfold numero_asc. rewrite !Z.leb_le. lia. Qed.

(** X19: [get_proxima_rodada_aberta] returns a stored round whose deadline
    text is not below the text of the current time, and the one with the
    smallest number among such rounds; it returns nothing only when no stored
    round passes that test. *)
Theorem get_proxima_rodada_aberta_menor (db : DB) (agora : datetime) :
  (forall r, get_proxima_rodada_aberta db agora = Some r ->
     In r (rodadas_collection db) /\ prazo_gte (strftime agora) r = true /\
     forall r', In r' (rodadas_collection db) ->
                prazo_gte (strftime agora) r' = true -> numero r <= numero r') /\
  (get_proxima_rodada_aberta db agora = None ->
   forall r, In r (rodadas_collection db) -> prazo_gte (strftime agora) r = false).
Proof.
  unfold get_proxima_rodada_aberta.
  pose proof (ordenar_por_perm numero_asc (rodadas_collection db)) as Hperm.
  pose proof (ordenar_por_sorted numero_asc numero_asc_total numero_asc_trans
                (rodadas_collection db)) as Hsort.
  split.
  - intros r Hf. pose proof Hf as Hf'. apply find_some in Hf' as [Hin Hok].
    split; [apply (Permutation_in _ Hperm); exact Hin|]. split; [exact Hok|].
    intros r' Hin' Hok'.
    apply (Permutation_in _ (Permutation_sym Hperm)) in Hin'.
    pose proof (find_sorted_first _ _ _ _
                  (fun a => proj2 (Z.leb_le _ _) (Z.le_refl (numero a)))
                  Hsort Hf r' Hin' Hok') as H.
    unfold numero_asc in H. apply Z.leb_le in H. exact H.
  - intros Hn r Hin.
    apply (Permutation_in _ (Permutation_sym Hperm)) in Hin.
    exact (find_none _ _ Hn r Hin).
Qed.

Lemma get_proxima_rodada_aberta_menor_witness :
  get_proxima_rodada_aberta Exemplo.db_aberta Exemplo.cedo = Some Exemplo.rodada_aberta /\
  prazo_gte (strftime Exemplo.cedo) Exemplo.rodada_aberta = true.
Proof.
  split; [reflexivity|].
  exact (proj1 (proj2 (proj1 (get_proxima_rodada_aberta_menor Exemplo.db_aberta
                                 Exemplo.cedo) Exemplo.rodada_aberta eq_refl))).
Defined.

Lemma status_leb_total (a b : Status) :
  status_leb a b = true \/ status_leb b a = true.
Proof.
  unfold status_leb. destruct (snd a), (snd b); auto; apply String.leb_total.
Qed.

Lemma status_leb_trans (a b c : Status) :
  status_leb a b = true -> status_leb b c = true -> status_leb a c = true.
Proof.
  unfold status_leb. destruct (snd a), (snd b), (snd c);
    try discriminate; auto; apply string_leb_trans.
Qed.

(** X20: when a round passes the text test, [admin_status_apostas] renders
    the number of the round [get_proxima_rodada_aberta] returns and, up to
    order, one line per user that is no administrator, with the flag set
    exactly when a prediction of that user for that round is stored; every
    line without a bet comes before every line with one, and lines with the
    same flag are in ascending order of the name. Without such a round it
    only flashes a warning. *)
Theorem admin_status_apostas_lista (db : DB) (agora : datetime) :
  (get_proxima_rodada_aberta db agora = None ->
   admin_status_apostas db agora = inl (warning, NenhumaRodadaAberta)) /\
  (forall r, get_proxima_rodada_aberta db agora = Some r ->
     exists l,
       admin_status_apostas db agora = inr (l, numero r) /\
       Permutation l
         (map (status_do_usuario db (rodada_id_ r))
            (List.filter (fun u => negb (is_admin u)) (usuarios_collection db))) /\
       StronglySorted (fun a b => status_leb a b = true) l /\
       (forall i j a b,
          nth_error l i = Some a -> nth_error l j = Some b ->
          snd a = true -> snd b = false -> (j < i)%nat)).
Proof.
  unfold admin_status_apostas. split.
  - intros ->. reflexivity.
  - intros r ->. eexists. split; [reflexivity|].
    split; [apply ordenar_por_perm|].
    pose proof (ordenar_por_sorted status_leb status_leb_total status_leb_trans
                  (map (status_do_usuario db (rodada_id_ r))
                     (Mongo.find (fun u => negb (is_admin u)) (usuarios_collection db))))
      as Hs.
    split; [exact Hs|].
    revert Hs. generalize (ordenar_por status_leb
                             (map (status_do_usuario db (rodada_id_ r))
                                (Mongo.find (fun u => negb (is_admin u))
                                   (usuarios_collection db)))).
    intros l Hs. induction Hs as [|x l Hs IH Hx]; intros i j a b Hi Hj Ha Hb.
    + destruct i; discriminate.
    + destruct i as [|i], j as [|j]; cbn in Hi, Hj.
      * injection Hi as <-. injection Hj as <-. congruence.
      * injection Hi as <-. apply nth_error_In in Hj.
        rewrite Forall_forall in Hx. specialize (Hx b Hj).
        unfold status_leb in Hx. rewrite Ha, Hb in Hx. discriminate.
      * lia.
      * specialize (IH i j a b Hi Hj Ha Hb). lia.
Qed.

Lemma admin_status_apostas_lista_witness :
  admin_status_apostas Exemplo.db_apostada Exemplo.cedo
  = inr ([("Bia Lima", "bia", false); ("Caio Reis", "caio", false);
          ("Ana Souza", "ana", true)]%string, 1).
Proof.
  destruct (proj2 (admin_status_apostas_lista Exemplo.db_apostada Exemplo.cedo)
              Exemplo.rodada_aberta eq_refl) as (l & H & _).
  rewrite H. vm_compute in H. injection H as <-. reflexivity.
Defined.

(** ** Teams *)

Lemma bson_eqb_false (a b : ObjectId) : Bson.eqb a b = false <-> a <> b.
Proof.
  split.
  - intros H E. apply bson_eqb_eq in E. congruence.
  - intros H. destruct (Bson.eqb a b) eqn:E; [|reflexivity].
    apply bson_eqb_eq in E. contradiction.
Qed.

Lemma delete_one_mantem {A : Type} (f : A -> bool) (c : list A) (x : A) :
  In x c -> f x = false -> In x (fst (delete_one f c)).
Proof.
  induction c as [|d c IH]; cbn [delete_one]; [auto|].
  intros [->|Hin] Hx.
  - rewrite Hx. destruct (delete_one f c). left. reflexivity.
  - destruct (f d); [exact Hin|].
    specialize (IH Hin Hx). destruct (delete_one f c). right. exact IH.
Qed.

Lemma find_one_delete_one_outro {A : Type} (f g : A -> bool) (c : list A) :
  (forall d, f d = true -> g d = false) ->
  Mongo.find_one g (fst (delete_one f c)) = Mongo.find_one g c.
Proof.
  intros H. rewrite !find_one_hd. unfold Mongo.find.
  rewrite (delete_one_filter f g c H). reflexivity.
Qed.

Lemma find_one_delete_one_mesmo (oid : ObjectId) (times : list TimeDoc) :
  NoDup (map time_id_ times) ->
  Mongo.find_one (time_by_id oid) (fst (delete_one (time_by_id oid) times)) = None.
Proof.
  unfold Mongo.find_one.
  induction times as [|t times IH]; cbn [delete_one map]; intros Hnd;
    [reflexivity|].
  inversion Hnd as [|? ? Ht Hts]; subst.
  destruct (time_by_id oid t) eqn:E; cbn [fst].
  - destruct (List.find (time_by_id oid) times) as [t'|] eqn:Ef; [|reflexivity].
    apply find_some in Ef as [Hin Hid]. exfalso. apply Ht.
    unfold time_by_id in E, Hid. apply bson_eqb_eq in E, Hid.
    rewrite E, <- Hid. apply in_map. exact Hin.
  - specialize (IH Hts). destruct (delete_one (time_by_id oid) times).
    cbn [fst find] in *. rewrite E. exact IH.
Qed.

Lemma escalado_false (t : ObjectId) (r : Rodada) (j : Jogo) :
  escalado t r = false -> In j (jogos r) ->
  time_casa_id j <> t /\ time_visitante_id j <> t.
Proof.
  unfold escalado. intros H Hj. apply orb_false_iff in H as [Hc Hv].
  split; apply bson_eqb_false.
  - destruct (Bson.eqb (time_casa_id j) t) eqn:E; [|reflexivity].
    rewrite <- Hc. symmetry. apply existsb_exists. exists j. auto.
  - destruct (Bson.eqb (time_visitante_id j) t) eqn:E; [|reflexivity].
    rewrite <- Hv. symmetry. apply existsb_exists. exists j. auto.
Qed.

Lemma time_by_id_outro (a b : ObjectId) (t : TimeDoc) :
  b <> a -> time_by_id a t = true -> time_by_id b t = false.
Proof.
  unfold time_by_id. intros Hne H. apply bson_eqb_eq in H.
  apply bson_eqb_false. congruence.
Qed.

(** X21: [excluir_time] never removes a team that plays in a stored round;
    so when every team the stored rounds refer to is stored, this is still
    so afterwards. *)
Theorem excluir_time_mantem_referencias (times : list TimeDoc) (db : DB)
  (time_id : string) :
  (forall t r, In t times -> In r (rodadas_collection db) ->
     escalado (time_id_ t) r = true ->
     In t (fst (excluir_time times db time_id))) /\
  (times_referenciados times db ->
   times_referenciados (fst (excluir_time times db time_id)) db).
Proof.
  unfold excluir_time.
  destruct (Bson.of_str time_id) as [oid|]; [|split; auto].
  destruct (Mongo.find_one (escalado oid) (rodadas_collection db)) eqn:Ef;
    [split; auto|].
  match goal with
  | |- context [fst ?e] =>
      assert (Hfst : fst e = fst (delete_one (time_by_id oid) times))
        by (destruct (delete_one (time_by_id oid) times) as [times' []];
            reflexivity);
      rewrite !Hfst; clear Hfst
  end.
  split.
  - intros t r Ht Hr He. apply delete_one_mantem; [exact Ht|].
    unfold time_by_id. apply bson_eqb_false. intros E.
    pose proof (find_none _ _ Ef r Hr) as Hn. rewrite <- E in Hn. congruence.
  - intros Hok r j Hr Hj. destruct (Hok r j Hr Hj) as [Hc Hv].
    pose proof (find_none _ _ Ef r Hr) as Hn.
    destruct (escalado_false _ _ _ Hn Hj) as [Nc Nv].
    rewrite !find_one_delete_one_outro; [auto| |];
      intros d; apply time_by_id_outro; assumption.
Qed.

Lemma excluir_time_mantem_referencias_witness :
  In Elenco.flamengo (fst (excluir_time Elenco.times Exemplo.db_aberta
                             (Bson.str Exemplo.fla))) /\
  times_referenciados (fst (excluir_time Elenco.times Exemplo.db_aberta
                              Elenco.gremio_str)) Exemplo.db_aberta.
Proof.
  split.
  - apply (proj1 (excluir_time_mantem_referencias Elenco.times Exemplo.db_aberta
                    (Bson.str Exemplo.fla)) Elenco.flamengo Exemplo.rodada_aberta).
    + left. reflexivity.
    + left. reflexivity.
    + reflexivity.
  - apply (proj2 (excluir_time_mantem_referencias Elenco.times Exemplo.db_aberta
                    Elenco.gremio_str)).
    intros r j [<-|[]] [<-|[<-|[]]]; split; eexists; reflexivity.
Defined.

(** X22: after a successful [excluir_time] of a collection with distinct
    identifiers, exactly one document is gone, [get_time_sigla] answers
    ['???'] for the removed identifier and as before for every other one;
    in every other outcome the collection is unchanged. *)
Theorem get_time_sigla_apos_excluir (times : list TimeDoc) (db : DB)
  (time_id : string) :
  NoDup (map time_id_ times) ->
  (snd (excluir_time times db time_id) = [(success, TimeExcluido)] ->
   List.length times = S (List.length (fst (excluir_time times db time_id))) /\
   get_time_sigla (fst (excluir_time times db time_id)) time_id = "???"%string /\
   forall s, Bson.of_str s <> Bson.of_str time_id ->
     get_time_sigla (fst (excluir_time times db time_id)) s
     = get_time_sigla times s) /\
  (snd (excluir_time times db time_id) <> [(success, TimeExcluido)] ->
   fst (excluir_time times db time_id) = times).
Proof.
  intros Hnd. unfold excluir_time.
  destruct (Bson.of_str time_id) as [oid|] eqn:Eo;
    [|split; [discriminate | reflexivity]].
  destruct (Mongo.find_one (escalado oid) (rodadas_collection db));
    [split; [discriminate | reflexivity]|].
  pose proof (delete_one_spec (time_by_id oid) times) as Hs.
  pose proof (find_one_delete_one_mesmo oid times Hnd) as Hm.
  pose proof (fun g => find_one_delete_one_outro (time_by_id oid) g times) as Ho.
  destruct (delete_one (time_by_id oid) times) as [times' []]; cbn [fst snd] in *.
  - split; [intros _ | intros H; contradiction H; reflexivity].
    destruct (List.find (time_by_id oid) times); [|discriminate Hs].
    split; [apply Hs|]. split.
    + unfold get_time_sigla. rewrite Eo, Hm. reflexivity.
    + intros s Hne. unfold get_time_sigla.
      destruct (Bson.of_str s) as [o|]; [|reflexivity].
      rewrite Ho; [reflexivity|].
      intros d. apply time_by_id_outro. congruence.
  - split; [discriminate|intros _].
    destruct (List.find (time_by_id oid) times); [destruct Hs; discriminate|].
    injection Hs as ->. reflexivity.
Qed.

Lemma get_time_sigla_apos_excluir_witness :
  get_time_sigla Elenco.times Elenco.gremio_str = "GRE"%string /\
  get_time_sigla (fst (excluir_time Elenco.times Exemplo.db_aberta
                         Elenco.gremio_str)) Elenco.gremio_str = "???"%string.
Proof.
  split; [reflexivity|].
  refine (proj1 (proj2 (proj1 (get_time_sigla_apos_excluir Elenco.times
                                 Exemplo.db_aberta Elenco.gremio_str _) _))).
  - cbn. repeat constructor; cbn; intuition discriminate.
  - reflexivity.
Defined.

(** ** [serialize_mongo_object] *)

Lemma Valor_ind_aninhado (P : Valor -> Prop) :
  (forall o, P (VOid o)) -> (forall s, P (VStr s)) -> (forall a, P (VAtomo a)) ->
  (forall l, Forall P l -> P (VList l)) ->
  (forall d, Forall (fun item => P (snd item)) d -> P (VDict d)) ->
  forall v, P v.
Proof.
  intros Ho Hs Ha Hl Hd. fix IH 1. intros [o|s|a|l|d].
  - apply Ho.
  - apply Hs.
  - apply Ha.
  - apply Hl. induction l as [|v l IHl]; constructor; [apply IH | exact IHl].
  - apply Hd. induction d as [|[k v] d IHd]; constructor; [apply IH | exact IHd].
Qed.

(** X23: [serialize_mongo_object] is idempotent, whatever [str] gives for
    values that are neither ObjectIds nor strings, and in its result every
    ['_id'] holds a string. [painel] relies on it: the open round is
    serialized once by itself and once more as a member of the list. *)
Theorem serialize_mongo_object_idempotente (py_str : Valor -> string)
  (data : Valor) :
  serialize_mongo_object py_str (serialize_mongo_object py_str data)
  = serialize_mongo_object py_str data /\
  id_em_texto (serialize_mongo_object py_str data) = true.
Proof.
  induction data as [o|s|a|l IH|d IH] using Valor_ind_aninhado;
    try (split; reflexivity).
  - cbn [serialize_mongo_object id_em_texto]. split.
    + f_equal. rewrite map_map. apply map_ext_in. intros v Hv.
      rewrite Forall_forall in IH. apply (IH v Hv).
    + apply forallb_forall. intros v Hv. apply in_map_iff in Hv as (w & <- & Hw).
      rewrite Forall_forall in IH. apply (IH w Hw).
  - cbn [serialize_mongo_object id_em_texto]. split.
    + f_equal. rewrite map_map. apply map_ext_in. intros [k v] Hv.
      destruct (String.eqb k "_id"); [reflexivity|].
      rewrite Forall_forall in IH. f_equal. apply (IH (k, v) Hv).
    + apply forallb_forall. intros item Hi.
      apply in_map_iff in Hi as ([k v] & <- & Hw).
      destruct (String.eqb k "_id"); [reflexivity|].
      rewrite Forall_forall in IH. apply (IH (k, v) Hw).
Qed.

Lemma serialize_mongo_object_sem_id (py_str : Valor -> string) (data : Valor) :
  sem_chave_id data = true -> serialize_mongo_object py_str data = data.
Proof.
  induction data as [o|s|a|l IH|d IH] using Valor_ind_aninhado;
    try reflexivity; cbn [serialize_mongo_object sem_chave_id]; intros H.
  - f_equal. rewrite <- (map_id l) at 2. apply map_ext_in. intros v Hv.
    rewrite Forall_forall in IH. rewrite forallb_forall in H. auto.
  - f_equal. rewrite <- (map_id d) at 2. apply map_ext_in. intros [k v] Hv.
    rewrite Forall_forall in IH. rewrite forallb_forall in H.
    specialize (H (k, v) Hv). cbn in H. apply andb_true_iff in H as [Hk Hs].
    apply negb_true_iff in Hk. rewrite Hk. f_equal. apply (IH (k, v) Hv Hs).
Qed.

(** X24: [serialize_mongo_object] turns into text what is stored under the
    key ['_id'] and nothing else: a value without that key comes back as it
    is, ObjectIds included. So in a serialized round the identifier of the
    round is text, while the identifiers of its matches and of their teams
    are still ObjectIds. *)
Theorem serialize_mongo_object_so_id (py_str : Valor -> string) :
  (forall data, sem_chave_id data = true ->
     serialize_mongo_object py_str data = data) /\
  (forall r,
     serialize_mongo_object py_str (doc_rodada r)
     = VDict (("_id", VStr (Bson.str (rodada_id_ r)))%string :: campos_rodada r)).
Proof.
  split; [apply serialize_mongo_object_sem_id|].
  intros r. unfold doc_rodada, campos_rodada.
  cbn [serialize_mongo_object map String.eqb Ascii.eqb Bool.eqb str_de].
  assert (Hj : map (serialize_mongo_object py_str) (map doc_jogo (jogos r))
               = map doc_jogo (jogos r)).
  { rewrite <- (map_id (map doc_jogo (jogos r))) at 2.
    apply map_ext_in. intros v Hv. apply in_map_iff in Hv as (j & <- & _).
    apply serialize_mongo_object_sem_id. unfold doc_jogo, v_placar.
    destruct (placar_casa j), (placar_visitante j); reflexivity. }
  rewrite Hj. reflexivity.
Qed.

Lemma serialize_mongo_object_so_id_witness :
  serialize_mongo_object (fun _ => EmptyString)
    (VList [VDict [("rodada_id"%string, VOid Exemplo.rodada1)]])
  = VList [VDict [("rodada_id"%string, VOid Exemplo.rodada1)]].
Proof.
  apply (proj1 (serialize_mongo_object_so_id (fun _ => EmptyString))).
  reflexivity.
Defined.

(** ** [minhas_apostas] *)

Lemma lex_ge_trans (a b c : list Z) :
  Datetime.lex a b <> Lt -> Datetime.lex b c <> Lt -> Datetime.lex a c <> Lt.
Proof.
  revert b c. induction a as [|x a IH]; intros [|y b] [|z c]; cbn;
    try congruence.
  destruct (Z.compare_spec x y), (Z.compare_spec y z), (Z.compare_spec x z);
    intros; try lia; try congruence; eauto.
Qed.

Lemma data_desc_total (a b : Palpite) :
  data_desc a b = true \/ data_desc b a = true.
Proof.
  unfold data_desc, Datetime.geb, Datetime.ltb.
  rewrite (datetime_compare_antisym (data_criacao a) (data_criacao b)).
  destruct (Datetime.compare (data_criacao a) (data_criacao b)); cbn; auto.
Qed.

Lemma data_desc_trans (a b c : Palpite) :
  data_desc a b = true -> data_desc b c = true -> data_desc a c = true.
Proof.
  unfold data_desc, Datetime.geb, Datetime.ltb, Datetime.compare.
  pose proof (lex_ge_trans (Datetime.fields (data_criacao a))
                (Datetime.fields (data_criacao b))
                (Datetime.fields (data_criacao c))) as H.
  destruct (Datetime.lex (Datetime.fields (data_criacao a))
              (Datetime.fields (data_criacao b)));
    destruct (Datetime.lex (Datetime.fields (data_criacao b))
                (Datetime.fields (data_criacao c)));
    destruct (Datetime.lex (Datetime.fields (data_criacao a))
                (Datetime.fields (data_criacao c)));
    cbn; intros; try reflexivity; try discriminate;
    exfalso; apply H; congruence.
Qed.

Lemma Permutation_filter_bool {A : Type} (f : A -> bool) (l l' : list A) :
  Permutation l l' -> Permutation (List.filter f l) (List.filter f l').
Proof.
  induction 1 as [|x l l' _ IH|x y l|l l' l'' _ IH1 _ IH2]; cbn.
  - constructor.
  - destruct (f x); [constructor|]; exact IH.
  - destruct (f x), (f y); try apply Permutation_refl. apply perm_swap.
  - exact (Permutation_trans IH1 IH2).
Qed.

Lemma StronglySorted_filter_bool {A : Type} (R : A -> A -> Prop) (f : A -> bool)
  (l : list A) :
  StronglySorted R l -> StronglySorted R (List.filter f l).
Proof.
  induction 1 as [|x l _ IH Hx]; cbn; [constructor|].
  destruct (f x); [|exact IH]. constructor; [exact IH|].
  rewrite Forall_forall in *. intros y Hy. apply filter_In in Hy as [Hy _].
  auto.
Qed.

Lemma filter_filter_andb {A : Type} (f g : A -> bool) (l : list A) :
  List.filter g (List.filter f l) = List.filter (fun x => f x && g x) l.
Proof.
  induction l as [|x l IH]; cbn; [reflexivity|].
  destruct (f x); cbn; [destruct (g x)|]; rewrite IH; reflexivity.
Qed.

Lemma ea_palpite_anexar_times (times : list TimeDoc) (r : Rodada)
  (ps : list PalpiteJogo) :
  map ea_palpite (map (anexar_times times r) ps) = ps.
Proof.
  induction ps as [|p ps IH]; cbn [map]; [reflexivity|].
  rewrite IH. unfold anexar_times.
  destruct (jogo_oficial_de r (pj_id_jogo p)); reflexivity.
Qed.

(** What one pass of the outer loop appends for the prediction [p]. *)
Lemma minhas_apostas_laco_spec (times : list TimeDoc) (db : DB) (ps : list Palpite) :
  Forall2 (fun p m =>
             exists r,
               Mongo.find_one (by_id (p_rodada_id p)) (rodadas_collection db)
               = Some r /\
               m = mkMinhaAposta (numero r) (data_criacao p)
                     (data_limite_apostas r)
                     (map (anexar_times times r) (palpites p)))
    (List.filter (rodada_existe db) ps)
    (minhas_apostas_laco times (rodadas_collection db) ps).
Proof.
  induction ps as [|p ps IH]; cbn [filter minhas_apostas_laco]; [constructor|].
  unfold rodada_existe at 1.
  destruct (Mongo.find_one (by_id (p_rodada_id p)) (rodadas_collection db))
    as [r|] eqn:E; [|exact IH].
  constructor; [|exact IH]. exists r. rewrite E. auto.
Qed.

(** X25: for a session whose identifier is well formed, [minhas_apostas]
    renders one element for every stored prediction of that user whose round
    is stored, and for nothing else: newest first, each with the number and
    the deadline of its round, its own time of creation and its own entries
    in their stored order. *)
Theorem minhas_apostas_conteudo (times : list TimeDoc) (db : DB) (s : string)
  (u : ObjectId) :
  Bson.of_str s = Some u ->
  exists ps l,
    minhas_apostas times db (Some s) = inr (Some l) /\
    Permutation ps
      (List.filter (fun p => palpite_do_usuario u p && rodada_existe db p)
         (palpites_collection db)) /\
    StronglySorted
      (fun a b => Datetime.geb (data_criacao a) (data_criacao b) = true) ps /\
    Forall2 (fun p m =>
               exists r,
                 Mongo.find_one (by_id (p_rodada_id p)) (rodadas_collection db)
                 = Some r /\
                 ma_rodada_numero m = numero r /\
                 ma_data_limite m = data_limite_apostas r /\
                 ma_data_criacao m = data_criacao p /\
                 map ea_palpite (ma_palpites m) = palpites p) ps l.
Proof.
  intros Hu. unfold minhas_apostas. rewrite Hu.
  set (ord := ordenar_por data_desc
                (Mongo.find (palpite_do_usuario u) (palpites_collection db))).
  exists (List.filter (rodada_existe db) ord). eexists.
  split; [reflexivity|]. split; [|split].
  - rewrite <- filter_filter_andb. apply Permutation_filter_bool.
    apply ordenar_por_perm.
  - apply StronglySorted_filter_bool.
    apply (ordenar_por_sorted data_desc data_desc_total data_desc_trans).
  - pose proof (minhas_apostas_laco_spec times db ord) as H.
    induction H as [|p m ps l (r & Hr & ->) _ IH]; constructor; [|exact IH].
    exists r. cbn. rewrite ea_palpite_anexar_times. auto.
Qed.

Lemma minhas_apostas_conteudo_witness :
  exists l,
    minhas_apostas Elenco.times Exemplo.db_apostada (Some Exemplo.ana_str)
    = inr (Some l) /\
    map ma_rodada_numero l = [1].
Proof.
  destruct (minhas_apostas_conteudo Elenco.times Exemplo.db_apostada
              Exemplo.ana_str Exemplo.ana eq_refl) as (ps & l & H & _).
  exists l. split; [exact H|].
  vm_compute in H. injection H as <-. reflexivity.
Defined.

Lemma jogo_oficial_de_In (r : Rodada) (s : string) (j : Jogo) :
  jogo_oficial_de r s = Some j -> In j (jogos r) /\ Bson.str (id_jogo j) = s.
Proof.
  unfold jogo_oficial_de. intros H. apply find_some in H as [Hin He].
  split; [exact Hin|]. apply String.eqb_eq. exact He.
Qed.

Lemma minhas_apostas_laco_In (times : list TimeDoc) (rodadas : list Rodada)
  (ps : list Palpite) (m : MinhaAposta) :
  In m (minhas_apostas_laco times rodadas ps) ->
  exists p r, In p ps /\ Mongo.find_one (by_id (p_rodada_id p)) rodadas = Some r /\
              ma_palpites m = map (anexar_times times r) (palpites p).
Proof.
  induction ps as [|p ps IH]; cbn [minhas_apostas_laco]; [intros []|].
  destruct (Mongo.find_one (by_id (p_rodada_id p)) rodadas) as [r|] eqn:E.
  - intros [<-|H].
    + exists p, r. cbn. auto.
    + destruct (IH H) as (p' & r' & Hp & Hr & Hm). exists p', r'. cbn. auto.
  - intros H. destruct (IH H) as (p' & r' & Hp & Hr & Hm).
    exists p', r'. cbn. auto.
Qed.

(** X26: when every team the stored rounds refer to is stored, the page of
    [minhas_apostas] never shows a placeholder team: an entry that carries
    team data belongs to a match of its round, and carries the stored
    documents of the home and the away team of that match. *)
Theorem minhas_apostas_times (times : list TimeDoc) (db : DB)
  (sessao : option string) (l : list MinhaAposta) :
  times_referenciados times db ->
  minhas_apostas times db sessao = inr (Some l) ->
  forall m e casa visitante,
    In m l -> In e (ma_palpites m) -> ea_times e = Some (casa, visitante) ->
    exists r j tc tv,
      In r (rodadas_collection db) /\ In j (jogos r) /\
      Bson.str (id_jogo j) = pj_id_jogo (ea_palpite e) /\
      In tc times /\ time_id_ tc = time_casa_id j /\
      In tv times /\ time_id_ tv = time_visitante_id j /\
      casa = serializar_time tc /\ visitante = serializar_time tv.
Proof.
  intros Hok Hm m e casa visitante Hin He Ht.
  unfold minhas_apostas in Hm.
  destruct sessao as [s|]; [|discriminate].
  destruct (Bson.of_str s) as [u|]; [|discriminate].
  injection Hm as <-.
  apply minhas_apostas_laco_In in Hin as (p & r & _ & Hr & Hps).
  rewrite Hps in He. apply in_map_iff in He as (pj & <- & _).
  unfold anexar_times in *.
  destruct (jogo_oficial_de r (pj_id_jogo pj)) as [j|] eqn:Ej; [|discriminate].
  cbn [ea_times ea_palpite] in *.
  apply jogo_oficial_de_In in Ej as [Hj Hid].
  apply find_some in Hr as [Hr _].
  destruct (Hok r j Hr Hj) as [[tc Hc] [tv Hv]].
  injection Ht as <- <-. unfold get_time_by_id. cbn [id_vazio objectid_de].
  rewrite Hc, Hv.
  apply find_some in Hc as [Hc1 Hc2]. apply find_some in Hv as [Hv1 Hv2].
  unfold time_by_id in Hc2, Hv2. apply bson_eqb_eq in Hc2, Hv2.
  exists r, j, tc, tv. repeat split; assumption.
Qed.

Lemma minhas_apostas_times_witness :
  exists tc,
    In tc Elenco.times /\
    serializar_time tc
    = mkTimeView (Some (Bson.str Exemplo.fla)) "Flamengo" "FLA" None.
Proof.
  destruct (minhas_apostas Elenco.times Exemplo.db_apostada
              (Some Exemplo.ana_str)) as [f|[l|]] eqn:E;
    try (vm_compute in E; discriminate E).
  assert (Hok : times_referenciados Elenco.times Exemplo.db_apostada).
  { intros r j [<-|[]] [<-|[<-|[]]]; split; eexists; reflexivity. }
  pose proof (minhas_apostas_times Elenco.times Exemplo.db_apostada
                (Some Exemplo.ana_str) l Hok E) as H.
  vm_compute in E. injection E as <-.
  edestruct H as (r & j & tc & tv & _ & _ & _ & Htc & _ & _ & _ & Hc & _);
    [left; reflexivity | left; reflexivity | reflexivity |].
  exists tc. split; [exact Htc | symmetry; exact Hc].
Defined.

(** End of the development. *)
